(** * RLProfilePicturesREVAMP: avatar acquisition and caching pipeline

    A shallow embedding of the plugin's avatar pipeline
    (Utils/StringUtils.cpp, Avatar/ImageProcessor.cpp,
    Avatar/AvatarDownloader.cpp, Avatar/AvatarManager.cpp) together with the
    properties its specification states about it.

    Conventions.
    - [std::string] is [string]; a [char] is an [ascii] read as a signed
      8-bit value, as on the plugin's only target (MSVC, Windows x64).
    - A nullable pointer or [shared_ptr] is an [option]; [None] is [nullptr].
    - [std::map<std::string, UTexture2DDynamic*>] is a [gmap] from strings to
      nullable texture handles.
    - Functions that touch the cache, the temp directory, the network or the
      presentation layer take and return a [World]; the calls they make across
      a component boundary are appended to its [trace].
    - [HttpWrapper::SendCurlRequest] returns at once; the completion lambda is
      a function of its own, applied when the response arrives.
      [gameWrapper->Execute] queues a closure for the game thread; closures are
      first-order [GameTask] values run by [run_task].
    - Logger calls only write to the console and are left out. *)

From stdpp Require Import gmap strings list fin_maps pretty.
From Stdlib Require Import Ascii String ZArith Lia.

Local Open Scope Z_scope.

(* ===================================================================== *)
(** * Config/Constants.h                                                  *)
(* ===================================================================== *)

Module RLProfilePicturesConstants.
Definition TEMP_DIRECTORY : string := "C:/Temp".
Definition TEMP_AVATAR_PREFIX : string := "avatar_".
Definition TEMP_LOCAL_AVATAR : string := "brightened_local_avatar.png".
Definition TEMP_LOCAL_PREFIX : string := "local_avatar_".

Definition API_BASE_URL : string := "https://api.borgox.tech/api/v1".
Definition API_STEAM_RETRIEVE : string := "/steam/retrieve/".
Definition API_EPIC_RETRIEVE : string := "/epic/retrieve/".
Definition API_EPIC_UPLOAD : string := "/epic/upload/".
Definition API_PSN_RETRIEVE : string := "/psn/retrieve/".
Definition API_SWITCH_RETRIEVE : string := "/switch/retrieve/".
Definition API_XBOX_RETRIEVE : string := "/xbox/retrieve/".

Definition CVAR_STEAM_ENABLED : string := "RLProfilePicturesREVAMP_Steam_Enabled".
Definition CVAR_EPIC_ENABLED : string := "RLProfilePicturesREVAMP_Epic_Enabled".
Definition CVAR_XBOX_ENABLED : string := "RLProfilePicturesREVAMP_Xbox_Enabled".
Definition CVAR_PSN_ENABLED : string := "RLProfilePicturesREVAMP_PSN_Enabled".
Definition CVAR_SWITCH_ENABLED : string := "RLProfilePicturesREVAMP_Switch_Enabled".
Definition CVAR_BRIGHTNESS_ADJUSTMENT_ENABLED : string :=
  "RLProfilePicturesREVAMP_BrightnessAdjustment_Enabled".
Definition CVAR_LOAD_DEFAULT_AVATARS : string := "rlprofilepictures_load_default_avatars".

(** [GAMMA_CORRECTION_EXPONENT = 0.4545454545f], the single-precision
    value nearest to 5/11, kept as the exact fraction. *)
Definition GAMMA_CORRECTION_EXPONENT_NUM : Z := 5.
Definition GAMMA_CORRECTION_EXPONENT_DEN : Z := 11.
End RLProfilePicturesConstants.

(* ===================================================================== *)
(** * Utils/StringUtils.cpp                                               *)
(* ===================================================================== *)

Module RLProfilePicturesStringUtils.

(** The value of a [char]: plain [char] is signed on the target, so the
    bytes 128..255 are the values -128..-1. *)
Definition char_value (c : ascii) : Z :=
  let n := Z.of_N (N_of_ascii c) in
  if n <? 128 then n else n - 256.

(** [std::string invalidChars]: the nine characters less-than,
    greater-than, colon, double quote (character 34), vertical bar,
    question mark, asterisk, backslash and slash. *)
Definition invalidChars : string :=
  "<>:" +:+ String "034"%char "|?*\/".

(** [invalidChars.find(c) != std::string::npos] *)
Fixpoint find_char (c : ascii) (s : string) : bool :=
  match s with
  | EmptyString => false
  | String d rest => if Ascii.eqb d c then true else find_char c rest
  end.

(** The loop condition [invalidChars.find(c) != npos || c < 32]. *)
Definition is_replaced (c : ascii) : bool :=
  find_char c invalidChars || (char_value c <? 32).

(** [if (...) c = '_';] applied to one character. *)
Definition sanitize_char (c : ascii) : ascii :=
  if is_replaced c then "_"%char else c.

(** [for (char& c : sanitized) ...] over a copy of [filename]. *)
Fixpoint SanitizeFilename (filename : string) : string :=
  match filename with
  | EmptyString => EmptyString
  | String c rest => String (sanitize_char c) (SanitizeFilename rest)
  end.

End RLProfilePicturesStringUtils.

(* ===================================================================== *)
(** * Avatar/ImageProcessor.cpp                                           *)
(* ===================================================================== *)

Module RLProfilePicturesImageProcessor.
Import RLProfilePicturesConstants.

(** A function that returns or leaves by [throw std::runtime_error(what)]. *)
Inductive Result (A : Type) : Type :=
| Ok (a : A)
| Throw (what : string).
Arguments Ok {A} a.
Arguments Throw {A} what.

(** What a successful [stbi_load_from_memory] hands back: the three [int]
    out-parameters and the pixel buffer, one byte (0..255) per sample. *)
Record Decoded := {
  width : Z;
  height : Z;
  channels_in_file : Z;
  pixels : list Z
}.

(** 32-bit [int] arithmetic. *)
Definition INT_MAX : Z := 2147483647.
Definition wrap_int (z : Z) : Z := (z + 2 ^ 31) mod 2 ^ 32 - 2 ^ 31.

(** ** The lookup table

    [srgb_lookup[i] = (uint8_t)(powf((float)i / 255.0f, EXPONENT) * 255.0f)].
    The cast to [uint8_t] drops the fraction.  The single-precision
    arithmetic is replaced by exact arithmetic with the exponent 5/11: the
    entry is the largest [k] with [k ^ 11 <= 255 ^ 6 * i ^ 5], that is, the
    integer part of [255 * (i / 255) ^ (5/11)].  For 0 < i < 255 the exact
    value lies at least 0.003 away from the nearest integer
    ([srgb_entry_margin] below), far more than single-precision rounding
    can move it; [powf] is exact at 0 and at 1. *)
Definition gamma_radicand (i : Z) : Z :=
  255 ^ (GAMMA_CORRECTION_EXPONENT_DEN - GAMMA_CORRECTION_EXPONENT_NUM)
  * i ^ GAMMA_CORRECTION_EXPONENT_NUM.

Fixpoint floor_root (k : nat) (n : Z) : Z :=
  match k with
  | O => 0
  | S k' =>
      if Z.of_nat k ^ GAMMA_CORRECTION_EXPONENT_DEN <=? n then Z.of_nat k
      else floor_root k' n
  end.

Definition srgb_entry (i : Z) : Z := floor_root 255 (gamma_radicand i).

(** [static uint8_t srgb_lookup[256]] after [for (int i = 0; i < 256; i++)]. *)
Definition srgb_lookup : list Z :=
  Eval vm_compute in (srgb_entry <$> seqZ 0 256).

(** [srgb_lookup[b]] for a byte [b]. *)
Definition srgb_at (b : Z) : Z := srgb_lookup !!! Z.to_nat b.

(** ** The pixel loop

    [decompressedData.get()[pixelIndex] = srgb_lookup[...[pixelIndex]]] *)
Definition brighten_sample (buf : list Z) (pixelIndex : Z) : list Z :=
  <[Z.to_nat pixelIndex := srgb_at (buf !!! Z.to_nat pixelIndex)]> buf.

(** [for (int c = 0; c < channels; c++) if (c < 3) { ... }] for pixel [i]. *)
Definition brighten_pixel (channels : Z) (buf : list Z) (i : Z) : list Z :=
  foldl (fun buf c =>
           if c <? 3 then brighten_sample buf (i * channels + c) else buf)
        buf (seqZ 0 channels).

(** [for (int i = 0; i < totalPixels / channels; i++)]; [/] on [int]
    truncates. *)
Definition apply_gamma (channels totalPixels : Z) (buf : list Z) : list Z :=
  foldl (brighten_pixel channels) buf (seqZ 0 (totalPixels `quot` channels)).

Section Codec.
(** The stb_image entry points, which are not part of this repository:
    [stbi_load_from_memory data req_comp] is [None] when it returns a null
    pointer; [stbi_write_png_to_func w h comp data stride] is [None] when
    it returns 0 and otherwise the bytes handed to the write callback. *)
Variable stbi_load_from_memory : list Z -> Z -> option Decoded.
Variable stbi_write_png_to_func : Z -> Z -> Z -> list Z -> Z -> option (list Z).

(** The branch taken when [brightnessEnabled && !*brightnessEnabled]:
    decode and re-encode without touching the pixels. *)
Definition reencode_unchanged (pngData : list Z) : Result (list Z) :=
  match stbi_load_from_memory pngData 0 with
  | None => Throw "Failed to decode image data"
  | Some d =>
      let out_channels :=
        if 4 <=? channels_in_file d then 4 else channels_in_file d in
      let out_channels := if out_channels =? 0 then 3 else out_channels in
      let converted :=
        if channels_in_file d =? out_channels then Some d
        else stbi_load_from_memory pngData out_channels in
      match converted with
      | None => Throw "Failed to convert decoded image"
      | Some d' =>
          let stride := wrap_int (width d' * out_channels) in
          match stbi_write_png_to_func (width d') (height d') out_channels
                  (pixels d') stride with
          | None => Throw "Failed to recompress PNG data"
          | Some recompressedData => Ok recompressedData
          end
      end
  end.

(** The rest of the function: decode, gamma-correct, re-encode. *)
Definition brighten_gamma (pngData : list Z) : Result (list Z) :=
  match stbi_load_from_memory pngData 0 with
  | None => Throw "Failed to decompress PNG data"
  | Some d =>
      let channels := channels_in_file d in
      let totalPixels := wrap_int (width d * height d * channels) in
      let corrected := apply_gamma channels totalPixels (pixels d) in
      match stbi_write_png_to_func (width d) (height d) channels corrected
              (wrap_int (width d * channels)) with
      | None => Throw "Failed to recompress PNG data"
      | Some recompressedData => Ok recompressedData
      end
  end.

Definition BrightenImage (pngData : list Z) (brightnessEnabled : option bool)
  : Result (list Z) :=
  if match brightnessEnabled with
     | Some enabled => negb enabled
     | None => false
     end
  then reencode_unchanged pngData
  else brighten_gamma pngData.
End Codec.

End RLProfilePicturesImageProcessor.

(* ===================================================================== *)
(** * The host: identities, settings and the calls that leave the plugin  *)
(* ===================================================================== *)

(** [EOnlinePlatform] comes from the game SDK headers, which are not part of
    the repository.  The five enumerators the plugin names are kept; every
    other value of the underlying byte is [OnlinePlatform_Other]. *)
Inductive EOnlinePlatform : Type :=
| OnlinePlatform_Steam
| OnlinePlatform_Epic
| OnlinePlatform_Dingo
| OnlinePlatform_PS4
| OnlinePlatform_NNX
| OnlinePlatform_Other (discriminant : N).

(** The fields of the SDK's [FUniqueNetId] that the plugin reads. *)
Record FUniqueNetId : Type := {
  Uid : N;
  EpicAccountId : string;
  Platform : EOnlinePlatform
}.

(** A non-null [UTexture2DDynamic*]. *)
Definition UTexture2DDynamic : Type := positive.

Record APRI_TA : Type := {
  UniqueId : FUniqueNetId;
  PlayerName : string
}.

Record APlayerController_TA : Type := {
  PRI : option APRI_TA
}.

#[global] Instance EOnlinePlatform_eq_dec : EqDecision EOnlinePlatform.
Proof. solve_decision. Defined.
#[global] Instance FUniqueNetId_eq_dec : EqDecision FUniqueNetId.
Proof. solve_decision. Defined.

(** Everything the pipeline reads from outside at the time of a call. *)
Record Host : Type := {
  (** [_globalCvarManager] and, for each registered cvar, its boolean value;
      [getCvar] of an unregistered name is a null wrapper. *)
  globalCvarManager : option (gmap string bool);
  (** [RL::GetPrimaryPlayerID()] *)
  GetPrimaryPlayerID : option FUniqueNetId;
  (** [Cast<APlayerController_TA>(gameWrapper->GetPlayerController())] *)
  gw_PlayerController : option APlayerController_TA;
  (** [RL::GetPlayerController()] and [RL::GetVanitySetManager()] non-null *)
  RL_PlayerController : bool;
  RL_VanitySetManager : bool;
  (** [vman->GetAvatar(id)] non-null *)
  vman_GetAvatar : FUniqueNetId -> bool;
  (** [UOnline_X::UniqueNetIdToString(id).ToString()], an SDK function *)
  UniqueNetIdToString : FUniqueNetId -> string;
  (** stb_image *)
  stbi_load_from_memory : list Z -> Z -> option RLProfilePicturesImageProcessor.Decoded;
  stbi_write_png_to_func : Z -> Z -> Z -> list Z -> Z -> option (list Z);
  (** [std::ifstream] on a file chosen by the user: its bytes when readable *)
  read_file : string -> option (list Z);
  (** [std::ofstream out(path)] opens; [out.good()] after write and flush *)
  ofstream_open : string -> bool;
  ofstream_good : string -> bool;
  (** [ImageWrapper(path).LoadForCanvas()] and [GetCanvasTex()] for a file
      holding the given bytes *)
  LoadForCanvas : list Z -> bool;
  GetCanvasTex : list Z -> option UTexture2DDynamic
}.

(** Closures handed to [gameWrapper->Execute]. *)
Inductive GameTask : Type :=
| AvatarDownloaded (id : FUniqueNetId) (data : list Z)
| AddLocalApply (uniqueId : FUniqueNetId) (processedData : list Z)
| ApplyUploaded (uniqueId : FUniqueNetId) (dataCopy : list Z).

(** Calls across a component boundary, in the order they happen. *)
Inductive Event : Type :=
| CallDownloadAvatar (id : FUniqueNetId)
| CallDownloadXboxAvatar (id : FUniqueNetId) (playername : string)
| SendCurlRequest (verb url : string) (file : option string)
| CallBrightenImage (data : list Z) (brightnessEnabled : option bool)
| CallSetAvatar (id : FUniqueNetId) (tex : UTexture2DDynamic)
| DetachLocalAvatar (id : FUniqueNetId)
| FileRemoved (path : string)
| CallUploadCallback (success : bool).

Record World : Type := {
  (** [AvatarManager::avatar_cache] *)
  avatar_cache : gmap string (option UTexture2DDynamic);
  (** the files that exist in the temp directory *)
  files : gset string;
  (** closures queued by [gameWrapper->Execute], oldest first *)
  game_thread : list GameTask;
  (** the calls made so far, oldest first *)
  trace : list Event
}.

Definition set_cache (c : gmap string (option UTexture2DDynamic)) (w : World) : World :=
  {| avatar_cache := c; files := files w; game_thread := game_thread w; trace := trace w |}.

Definition set_files (f : gset string) (w : World) : World :=
  {| avatar_cache := avatar_cache w; files := f; game_thread := game_thread w; trace := trace w |}.

Definition emit (e : Event) (w : World) : World :=
  {| avatar_cache := avatar_cache w; files := files w; game_thread := game_thread w;
     trace := trace w ++ [e] |}.

(** [gameWrapper->Execute(closure)] *)
Definition Execute (t : GameTask) (w : World) : World :=
  {| avatar_cache := avatar_cache w; files := files w;
     game_thread := game_thread w ++ [t]; trace := trace w |}.

(** [std::filesystem::remove(path)]: deletes the file when it exists and
    does nothing otherwise. *)
Definition filesystem_remove (path : string) (w : World) : World :=
  if bool_decide (path ∈ files w)
  then emit (FileRemoved path) (set_files (files w ∖ {[path]}) w)
  else w.

(** A stream opened for writing creates the file. *)
Definition create_file (path : string) (w : World) : World :=
  set_files ({[path]} ∪ files w) w.

Definition is_empty (s : string) : bool :=
  match s with EmptyString => true | String _ _ => false end.

(** [hay.find(needle) != std::string::npos] *)
Fixpoint contains (needle hay : string) : bool :=
  if String.prefix needle hay then true
  else match hay with
       | EmptyString => false
       | String _ rest => contains needle rest
       end.

(** Utils/FileUtils.cpp: paths in the temp directory. *)
Definition path_append (dir name : string) : string := dir +:+ "/" +:+ name.

Definition GetTempDirectory : string := RLProfilePicturesConstants.TEMP_DIRECTORY.

Definition GetTempAvatarPath (idString : string) : string :=
  path_append (path_append GetTempDirectory RLProfilePicturesConstants.TEMP_AVATAR_PREFIX)
              (idString +:+ ".png").

Definition GetBrightenedLocalAvatarPath : string :=
  path_append GetTempDirectory RLProfilePicturesConstants.TEMP_LOCAL_AVATAR.

(* ===================================================================== *)
(** * Avatar/AvatarDownloader.cpp                                         *)
(* ===================================================================== *)

Module AvatarDownloader.
Import RLProfilePicturesConstants.

(** The downloader object: [loadAvatarCallback] may be an empty
    [std::function]. *)
Record t : Type := {
  loadAvatarCallback : option (FUniqueNetId -> list Z -> World -> World)
}.

(** The lambda [getCVarBool] of [IsAllowed]. *)
Definition getCVarBool (h : Host) (name : string) : bool :=
  match globalCvarManager h with
  | None => false
  | Some manager =>
      match manager !! name with
      | None => false
      | Some value => value
      end
  end.

(** [_globalCvarManager->getCvar(name).getBoolValue()] without any check.
    With no manager the source dereferences a null pointer; the model reads
    [false] there.  [GetURLForID] reaches this only after [IsAllowed] found
    a manager. *)
Definition getBoolValue_unchecked (h : Host) (name : string) : bool :=
  match globalCvarManager h with
  | None => false
  | Some manager => default false (manager !! name)
  end.

Definition localOnSteam (h : Host) : bool :=
  match GetPrimaryPlayerID h with
  | Some localId => bool_decide (Platform localId = OnlinePlatform_Steam)
  | None => false
  end.

Definition IsAllowed (h : Host) (id : FUniqueNetId) : bool :=
  match Platform id with
  | OnlinePlatform_Steam => negb (localOnSteam h) && getCVarBool h CVAR_STEAM_ENABLED
  | OnlinePlatform_Epic => getCVarBool h CVAR_EPIC_ENABLED
  | OnlinePlatform_Dingo => getCVarBool h CVAR_XBOX_ENABLED
  | OnlinePlatform_PS4 => getCVarBool h CVAR_PSN_ENABLED
  | OnlinePlatform_NNX => getCVarBool h CVAR_SWITCH_ENABLED
  | OnlinePlatform_Other _ => false
  end.

Definition default_enabled (h : Host) : string :=
  if getBoolValue_unchecked h CVAR_LOAD_DEFAULT_AVATARS then "true" else "false".

Definition GetURLForID (h : Host) (id : FUniqueNetId) : string :=
  if negb (IsAllowed h id) then ""
  else
    let baseUrl := API_BASE_URL in
    match Platform id with
    | OnlinePlatform_Steam =>
        baseUrl +:+ API_STEAM_RETRIEVE +:+ pretty (Uid id)
          +:+ "?default_enabled=" +:+ default_enabled h
    | OnlinePlatform_Epic =>
        baseUrl +:+ API_EPIC_RETRIEVE +:+ EpicAccountId id
          +:+ "?default_enabled=" +:+ default_enabled h
    | OnlinePlatform_Dingo => ""
    | OnlinePlatform_PS4 =>
        baseUrl +:+ API_PSN_RETRIEVE +:+ pretty (Uid id)
          +:+ "?default_enabled=" +:+ default_enabled h
    | OnlinePlatform_NNX =>
        baseUrl +:+ API_SWITCH_RETRIEVE +:+ pretty (Uid id)
          +:+ "?default_enabled=" +:+ default_enabled h
    | OnlinePlatform_Other _ => ""
    end.

(** [DownloadAvatar] up to and including [SendCurlRequest]. *)
Definition DownloadAvatar (h : Host) (id : FUniqueNetId) (w : World) : World :=
  let w := emit (CallDownloadAvatar id) w in
  let url := GetURLForID h id in
  if is_empty url then w
  else emit (SendCurlRequest "GET" url None) w.

(** The completion lambda of [DownloadAvatar] and, word for word, of
    [DownloadXboxAvatar]: [data_ptr] is the response buffer or null,
    [data_size] the number of bytes in it. *)
Definition on_avatar_response (id : FUniqueNetId)
    (http_code : Z) (data_ptr : option (list Z)) (data_size : N) (w : World) : World :=
  if negb (http_code =? 200) then w
  else
    match data_ptr with
    | None => w
    | Some buffer =>
        if (data_size =? 0)%N then w
        else
          let data := take (N.to_nat data_size) buffer in
          Execute (AvatarDownloaded id data) w
    end.

(** The closure queued by [on_avatar_response], run on the game thread. *)
Definition avatar_downloaded (d : t) (id : FUniqueNetId) (data : list Z) (w : World) : World :=
  match loadAvatarCallback d with
  | Some callback => callback id data w
  | None => w
  end.

(** [DownloadXboxAvatar] up to and including [SendCurlRequest]. *)
Definition DownloadXboxAvatar (h : Host) (id : FUniqueNetId) (playername : string)
    (w : World) : World :=
  let w := emit (CallDownloadXboxAvatar id playername) w in
  let url := API_BASE_URL +:+ API_XBOX_RETRIEVE +:+ playername
               +:+ "?default_enabled=" +:+ default_enabled h in
  emit (SendCurlRequest "GET" url None) w.

(** [if (callback) callback(success);] *)
Definition invoke_upload_callback (callback : option (bool -> World -> World))
    (success : bool) (w : World) : World :=
  match callback with
  | Some k => k success (emit (CallUploadCallback success) w)
  | None => w
  end.

(** [UploadToCDN] up to and including [SendCurlRequest]. *)
Definition UploadToCDN (filePath epic_id : string)
    (callback : option (bool -> World -> World)) (w : World) : World :=
  if is_empty filePath || is_empty epic_id
  then invoke_upload_callback callback false w
  else
    let url := API_BASE_URL +:+ API_EPIC_UPLOAD +:+ epic_id in
    emit (SendCurlRequest "POST" url (Some filePath)) w.

(** The text [success] with a double quote on both sides, then [:true]. *)
Definition success_true : string :=
  String "034"%char ("success" +:+ String "034"%char ":true").

(** The completion lambda of [UploadToCDN]. *)
Definition on_upload_response (filePath : string)
    (callback : option (bool -> World -> World))
    (http_code : Z) (data : string) (w : World) : World :=
  let success :=
    if negb (is_empty data) && (http_code =? 200)
    then contains success_true data
         || (contains "success" data && contains "true" data)
    else false in
  let w := filesystem_remove filePath w in
  invoke_upload_callback callback success w.

End AvatarDownloader.

(* ===================================================================== *)
(** * Avatar/AvatarManager.cpp                                            *)
(* ===================================================================== *)

Module AvatarManager.
Import RLProfilePicturesConstants RLProfilePicturesStringUtils.
Import RLProfilePicturesImageProcessor.

Definition GetBrightnessEnabled (h : Host) : option bool :=
  match globalCvarManager h with
  | None => None
  | Some manager =>
      match manager !! CVAR_BRIGHTNESS_ADJUSTMENT_ENABLED with
      | None => None
      | Some value => Some value
      end
  end.

(** [RLProfilePicturesImageProcessor::BrightenImage] with the host's codec;
    the call is recorded. *)
Definition call_BrightenImage (h : Host) (data : list Z) (flag : option bool)
    (w : World) : Result (list Z) * World :=
  (BrightenImage (stbi_load_from_memory h) (stbi_write_png_to_func h) data flag,
   emit (CallBrightenImage data flag) w).

(** [it != avatar_cache.end() ? it->second : nullptr] *)
Definition GetCachedAvatar (w : World) (idString : string) : option UTexture2DDynamic :=
  match avatar_cache w !! idString with
  | Some tex => tex
  | None => None
  end.

(** [it != avatar_cache.end() && it->second != nullptr] *)
Definition IsAvatarCached (w : World) (idString : string) : bool :=
  match avatar_cache w !! idString with
  | Some (Some _) => true
  | _ => false
  end.

Definition ClearCache (w : World) : World := set_cache ∅ w.

(** [SetAvatar(id, tex)] with a non-null texture: the body only walks
    and updates objects of the game, so the call itself is what is kept. *)
Definition SetAvatar (id : FUniqueNetId) (tex : UTexture2DDynamic) (w : World) : World :=
  emit (CallSetAvatar id tex) w.

(** The part shared by [LoadAvatarDirect] and [LoadAvatar] after the bytes
    to show are known: stage them in a temp file, load the file as a
    texture, remove the file, cache the texture and apply it. *)
Definition stage_and_apply (h : Host) (id : FUniqueNetId) (idString : string)
    (bytes : list Z) (w : World) : World :=
  let filePath := GetTempAvatarPath idString in
  if negb (ofstream_open h filePath) then w
  else
    let w := create_file filePath w in
    if negb (ofstream_good h filePath) then w
    else if negb (bool_decide (filePath ∈ files w)) then w
    else if negb (LoadForCanvas h bytes) then filesystem_remove filePath w
    else
      let w := filesystem_remove filePath w in
      match GetCanvasTex h bytes with
      | None => w
      | Some tex =>
          let w := set_cache (<[idString := Some tex]> (avatar_cache w)) w in
          SetAvatar id tex w
      end.

Definition LoadAvatarDirect (h : Host) (id : FUniqueNetId) (idString : string)
    (alreadyProcessedData : list Z) (forceUpdate : bool) (w : World) : World :=
  match (if forceUpdate then None else avatar_cache w !! idString) with
  | Some (Some tex) => SetAvatar id tex w
  | _ => stage_and_apply h id idString alreadyProcessedData w
  end.

Definition LoadAvatar (h : Host) (id : FUniqueNetId) (data : list Z) (w : World) : World :=
  let idString := SanitizeFilename (UniqueNetIdToString h id) in
  match avatar_cache w !! idString with
  | Some (Some tex) => SetAvatar id tex w
  | _ =>
      let brightnessEnabled := GetBrightnessEnabled h in
      match call_BrightenImage h data brightnessEnabled w with
      | (Throw _, w) => w
      | (Ok brightenedData, w) => stage_and_apply h id idString brightenedData w
      end
  end.

(** The downloader built by the constructor:
    [make_unique<AvatarDownloader>(gw, [this](id, data) { LoadAvatar(id, data); })]. *)
Definition downloader (h : Host) : AvatarDownloader.t :=
  {| AvatarDownloader.loadAvatarCallback := Some (LoadAvatar h) |}.

(** [FUniqueNetId{}] *)
Definition FUniqueNetId_zero : FUniqueNetId :=
  {| Uid := 0; EpicAccountId := ""; Platform := OnlinePlatform_Other 0 |}.

Definition primary_or_zero (h : Host) : FUniqueNetId :=
  match GetPrimaryPlayerID h with
  | Some id => id
  | None => FUniqueNetId_zero
  end.

Definition invalid_UniqueID (id : FUniqueNetId) : bool :=
  (Uid id =? 0)%N && is_empty (EpicAccountId id).

Definition RemoveLocalAvatar (h : Host) (w : World) : World :=
  if negb (RL_PlayerController h) || negb (RL_VanitySetManager h) then w
  else
    let uniqueId := primary_or_zero h in
    if invalid_UniqueID uniqueId then w
    else if negb (vman_GetAvatar h uniqueId) then w
    else
      let w := emit (DetachLocalAvatar uniqueId) w in
      let idString := UniqueNetIdToString h uniqueId in
      set_cache (delete idString (avatar_cache w)) w.

Definition LoadForPRI (h : Host) (pri : option APRI_TA) (w : World) : World :=
  match gw_PlayerController h, pri with
  | Some pc, Some pri =>
      match PRI pc with
      | None => w
      | Some localPRI =>
          let localId := UniqueId localPRI in
          let priId := UniqueId pri in
          if (Uid localId =? Uid priId)%N
             && String.eqb (EpicAccountId localId) (EpicAccountId priId)
          then w
          else
            let uniqueId := UniqueId pri in
            if bool_decide (Platform uniqueId = OnlinePlatform_Dingo)
            then AvatarDownloader.DownloadXboxAvatar h uniqueId (PlayerName pri) w
            else
              let idString := UniqueNetIdToString h uniqueId in
              match GetCachedAvatar w idString with
              | Some tex => SetAvatar uniqueId tex w
              | None => AvatarDownloader.DownloadAvatar h uniqueId w
              end
      end
  | _, _ => w
  end.

(** The callback [AddLocalAvatar] passes to [UploadToCDN]. *)
Definition AddLocalAvatar_uploaded (uniqueId : FUniqueNetId) (dataCopy : list Z)
    (tempPath : string) (success : bool) (w : World) : World :=
  let w := Execute (ApplyUploaded uniqueId dataCopy) w in
  filesystem_remove tempPath w.

(** The closure [AddLocalAvatar] hands to [gameWrapper->Execute]. *)
Definition AddLocalAvatar_apply (h : Host) (uniqueId : FUniqueNetId)
    (processedData : list Z) (w : World) : World :=
  let idString := SanitizeFilename (UniqueNetIdToString h uniqueId) in
  if bool_decide (Platform uniqueId = OnlinePlatform_Epic) then
    let tempPath := GetBrightenedLocalAvatarPath in
    if negb (ofstream_open h tempPath) then w
    else
      let w := create_file tempPath w in
      AvatarDownloader.UploadToCDN tempPath (EpicAccountId uniqueId)
        (Some (AddLocalAvatar_uploaded uniqueId processedData tempPath)) w
  else LoadAvatarDirect h uniqueId idString processedData true w.

Definition AddLocalAvatar (h : Host) (filePath : string) (w : World) : World :=
  if negb (RL_PlayerController h) || negb (RL_VanitySetManager h) then w
  else
    let uniqueId := primary_or_zero h in
    if invalid_UniqueID uniqueId then w
    else
      match read_file h filePath with
      | None => w
      | Some originalData =>
          let brightnessEnabled := GetBrightnessEnabled h in
          match call_BrightenImage h originalData brightnessEnabled w with
          | (Throw _, w) => w
          | (Ok processedData, w) => Execute (AddLocalApply uniqueId processedData) w
          end
      end.

(** Running one queued closure on the game thread. *)
Definition run_task (h : Host) (task : GameTask) (w : World) : World :=
  match task with
  | AvatarDownloaded id data =>
      AvatarDownloader.avatar_downloaded (downloader h) id data w
  | AddLocalApply uniqueId processedData =>
      AddLocalAvatar_apply h uniqueId processedData w
  | ApplyUploaded uniqueId dataCopy =>
      LoadAvatarDirect h uniqueId
        (SanitizeFilename (UniqueNetIdToString h uniqueId)) dataCopy true w
  end.

(** The game thread takes the oldest closure off its queue and runs it. *)
Definition game_tick (h : Host) (w : World) : World :=
  match game_thread w with
  | [] => w
  | task :: rest =>
      run_task h task
        {| avatar_cache := avatar_cache w; files := files w;
           game_thread := rest; trace := trace w |}
  end.

(** The completion of an upload started by [AddLocalAvatar_apply]. *)
Definition AddLocalAvatar_on_upload_response (uniqueId : FUniqueNetId)
    (processedData : list Z) (http_code : Z) (data : string) (w : World) : World :=
  AvatarDownloader.on_upload_response GetBrightenedLocalAvatarPath
    (Some (AddLocalAvatar_uploaded uniqueId processedData GetBrightenedLocalAvatarPath))
    http_code data w.

End AvatarManager.

(* ===================================================================== *)
(** * Observations on a trace                                             *)
(* ===================================================================== *)

(** Calls into the Fetcher ([DownloadAvatar], [DownloadXboxAvatar]). *)
Definition is_fetch (e : Event) : bool :=
  match e with
  | CallDownloadAvatar _ | CallDownloadXboxAvatar _ _ => true
  | _ => false
  end.

(** Network requests. *)
Definition is_request (e : Event) : bool :=
  match e with SendCurlRequest _ _ _ => true | _ => false end.

(** Calls into the Normalizer ([BrightenImage]). *)
Definition is_normalize (e : Event) : bool :=
  match e with CallBrightenImage _ _ => true | _ => false end.

(** Apply calls ([SetAvatar]). *)
Definition is_apply (e : Event) : bool :=
  match e with CallSetAvatar _ _ => true | _ => false end.

Definition is_removal_of (path : string) (e : Event) : bool :=
  match e with FileRemoved p => bool_decide (p = path) | _ => false end.

Definition is_upload_callback (e : Event) : bool :=
  match e with CallUploadCallback _ => true | _ => false end.

Definition count (p : Event -> bool) (tr : list Event) : nat :=
  List.length (filter (fun e => p e = true) tr).

(* ===================================================================== *)
(** * Notions used to state the properties                                *)
(* ===================================================================== *)

Import RLProfilePicturesConstants RLProfilePicturesStringUtils.
Import RLProfilePicturesImageProcessor.

(** The cache key of an identity, as [LoadAvatar] and [AddLocalAvatar]
    derive it. *)
Definition cache_key (h : Host) (id : FUniqueNetId) : string :=
  SanitizeFilename (UniqueNetIdToString h id).

(** The string holds a character that [SanitizeFilename] replaces. *)
Fixpoint contains_replaced (s : string) : bool :=
  match s with
  | EmptyString => false
  | String c rest => is_replaced c || contains_replaced rest
  end.

(** A character that [SanitizeFilename] maps to the underscore. *)
Definition merges (c : ascii) : Prop :=
  is_replaced c = true \/ c = "_"%char.

(** Every key of the cache is a sanitized string. *)
Definition keys_sanitized (w : World) : Prop :=
  forall k v, avatar_cache w !! k = Some v -> contains_replaced k = false.

(** The cvar that [IsAllowed] reads for a platform it knows. *)
Definition enable_flag (p : EOnlinePlatform) : option string :=
  match p with
  | OnlinePlatform_Steam => Some CVAR_STEAM_ENABLED
  | OnlinePlatform_Epic => Some CVAR_EPIC_ENABLED
  | OnlinePlatform_Dingo => Some CVAR_XBOX_ENABLED
  | OnlinePlatform_PS4 => Some CVAR_PSN_ENABLED
  | OnlinePlatform_NNX => Some CVAR_SWITCH_ENABLED
  | OnlinePlatform_Other _ => None
  end.

(** The enable flag is true: the cvar manager is there, the cvar is
    registered and its value is true. *)
Definition flag_is_true (h : Host) (flag : string) : Prop :=
  exists manager, globalCvarManager h = Some manager /\ manager !! flag = Some true.

(** The local viewer's own identity is known and its platform is Steam. *)
Definition viewer_on_steam (h : Host) : Prop :=
  exists localId, GetPrimaryPlayerID h = Some localId
                  /\ Platform localId = OnlinePlatform_Steam.

(** What the completion lambda of an upload computes as [success]. *)
Definition upload_success (http_code : Z) (data : string) : bool :=
  negb (is_empty data) && (http_code =? 200)
  && (contains AvatarDownloader.success_true data || (contains "success" data && contains "true" data)).

(** The formula of the specification, [round (255 * (v / 255) ^ (5/11))],
    in exact arithmetic: the [k] with
    [(2k - 1) ^ 11 <= 2 ^ 11 * 255 ^ 6 * v ^ 5 < (2k + 1) ^ 11]. *)
Fixpoint round_root (k : nat) (n : Z) : Z :=
  match k with
  | O => 0
  | S k' =>
      if (2 * Z.of_nat k - 1) ^ GAMMA_CORRECTION_EXPONENT_DEN
         <=? 2 ^ GAMMA_CORRECTION_EXPONENT_DEN * n
      then Z.of_nat k
      else round_root k' n
  end.

Definition gamma_rounded (v : Z) : Z := round_root 255 (gamma_radicand v).

(** What the pixel loop is to leave at sample [j] of a buffer with
    [channels] samples per pixel. *)
Definition expected_sample (channels : Z) (j : nat) (b : Z) : Z :=
  if (Z.of_nat j `mod` channels) <? 3 then srgb_at b else b.

(* ===================================================================== *)
(** * Concrete hosts and inputs for the examples                          *)
(* ===================================================================== *)

Module Examples.

Definition platform_tag (p : EOnlinePlatform) : string :=
  match p with
  | OnlinePlatform_Steam => "Steam"
  | OnlinePlatform_Epic => "Epic"
  | OnlinePlatform_Dingo => "XboxOne"
  | OnlinePlatform_PS4 => "PS4"
  | OnlinePlatform_NNX => "Switch"
  | OnlinePlatform_Other _ => "Unknown"
  end.

(** Modelled from the spec: [UOnline_X::UniqueNetIdToString] belongs to the
    game SDK and is not in the repository.  The specification derives the
    key from the platform discriminant followed by the id; the two parts are
    joined here by a vertical bar, with the account string as the id of an
    Epic identity and the decimal [Uid] otherwise. *)
Definition id_string (id : FUniqueNetId) : string :=
  platform_tag (Platform id) +:+ "|" +:+
  (if bool_decide (Platform id = OnlinePlatform_Epic)
   then EpicAccountId id else pretty (Uid id)).

(** A toy image format: width, height, channel count, then the samples. *)
Definition toy_load (data : list Z) (req_comp : Z) : option Decoded :=
  match data with
  | w :: h :: c :: px =>
      if (req_comp =? 0) || (req_comp =? c)
      then Some {| width := w; height := h; channels_in_file := c; pixels := px |}
      else None
  | _ => None
  end.

Definition toy_write (w h comp : Z) (data : list Z) (stride : Z) : option (list Z) :=
  Some (w :: h :: comp :: data).

Definition all_enabled : gmap string bool :=
  list_to_map
    [ (CVAR_STEAM_ENABLED, true); (CVAR_EPIC_ENABLED, true);
      (CVAR_XBOX_ENABLED, true); (CVAR_PSN_ENABLED, true);
      (CVAR_SWITCH_ENABLED, true);
      (CVAR_BRIGHTNESS_ADJUSTMENT_ENABLED, true);
      (CVAR_LOAD_DEFAULT_AVATARS, true) ].

Definition local_id : FUniqueNetId :=
  {| Uid := 0; EpicAccountId := "0a1b2c"; Platform := OnlinePlatform_Epic |}.

Definition local_pri : APRI_TA :=
  {| UniqueId := local_id; PlayerName := "viewer" |}.

(** An Epic viewer in a match, every setting enabled. *)
Definition host : Host :=
  {| globalCvarManager := Some all_enabled;
     GetPrimaryPlayerID := Some local_id;
     gw_PlayerController := Some {| PRI := Some local_pri |};
     RL_PlayerController := true;
     RL_VanitySetManager := true;
     vman_GetAvatar := fun _ => true;
     UniqueNetIdToString := id_string;
     stbi_load_from_memory := toy_load;
     stbi_write_png_to_func := toy_write;
     read_file := fun _ => None;
     ofstream_open := fun _ => true;
     ofstream_good := fun _ => true;
     LoadForCanvas := fun _ => true;
     GetCanvasTex := fun _ => Some 7%positive |}.

(** The same host with the brightness cvar not registered. *)
Definition host_without_brightness : Host :=
  {| globalCvarManager := Some (delete CVAR_BRIGHTNESS_ADJUSTMENT_ENABLED all_enabled);
     GetPrimaryPlayerID := Some local_id;
     gw_PlayerController := Some {| PRI := Some local_pri |};
     RL_PlayerController := true;
     RL_VanitySetManager := true;
     vman_GetAvatar := fun _ => true;
     UniqueNetIdToString := id_string;
     stbi_load_from_memory := toy_load;
     stbi_write_png_to_func := toy_write;
     read_file := fun _ => None;
     ofstream_open := fun _ => true;
     ofstream_good := fun _ => true;
     LoadForCanvas := fun _ => true;
     GetCanvasTex := fun _ => Some 7%positive |}.

(** A one-pixel RGBA image in the toy format. *)
Definition one_pixel : list Z := [1; 1; 4; 1; 64; 128; 200].

Definition empty_world : World :=
  {| avatar_cache := ∅; files := ∅; game_thread := []; trace := [] |}.

Definition steam_id : FUniqueNetId :=
  {| Uid := 76561198000000001; EpicAccountId := ""; Platform := OnlinePlatform_Steam |}.

Definition steam_pri : APRI_TA := {| UniqueId := steam_id; PlayerName := "remote" |}.

Definition xbox_id : FUniqueNetId :=
  {| Uid := 2535400000000001; EpicAccountId := ""; Platform := OnlinePlatform_Dingo |}.

Definition xbox_pri : APRI_TA := {| UniqueId := xbox_id; PlayerName := "Gamertag" |}.

(** A first remote load of [pri], carried through: the request, a 200
    response with the bytes of [image], and the game thread running the
    closure that the response queued. *)
Definition first_load (pri : APRI_TA) (image : list Z) : World :=
  let requested := AvatarManager.LoadForPRI host (Some pri) empty_world in
  let answered :=
    AvatarDownloader.on_avatar_response (UniqueId pri) 200 (Some image)
      (N.of_nat (List.length image)) requested in
  AvatarManager.game_tick host answered.

(** Two Epic identities whose account strings differ in one character. *)
Definition epic_colon : FUniqueNetId :=
  {| Uid := 0; EpicAccountId := "a:b"; Platform := OnlinePlatform_Epic |}.
Definition epic_underscore : FUniqueNetId :=
  {| Uid := 0; EpicAccountId := "a_b"; Platform := OnlinePlatform_Epic |}.

End Examples.

(* ===================================================================== *)
(** * Runs of the pipeline                                                *)
(* ===================================================================== *)

(** What can happen to an [AvatarManager] between its construction and its
    destruction: the calls the plugin and the settings window make, the
    completion of a download or of an upload with whatever the network
    answers, and the game thread running its oldest closure. *)
Inductive Action : Type :=
| ActLoadForPRI (pri : option APRI_TA)
| ActAvatarResponse (id : FUniqueNetId) (http_code : Z)
    (data_ptr : option (list Z)) (data_size : N)
| ActGameTick
| ActAddLocalAvatar (filePath : string)
| ActUploadResponse (uniqueId : FUniqueNetId) (processedData : list Z)
    (http_code : Z) (data : string)
| ActRemoveLocalAvatar
| ActClearCache.

Definition perform (h : Host) (a : Action) (w : World) : World :=
  match a with
  | ActLoadForPRI pri => AvatarManager.LoadForPRI h pri w
  | ActAvatarResponse id http_code data_ptr data_size =>
      AvatarDownloader.on_avatar_response id http_code data_ptr data_size w
  | ActGameTick => AvatarManager.game_tick h w
  | ActAddLocalAvatar filePath => AvatarManager.AddLocalAvatar h filePath w
  | ActUploadResponse uniqueId processedData http_code data =>
      AvatarManager.AddLocalAvatar_on_upload_response uniqueId processedData
        http_code data w
  | ActRemoveLocalAvatar => AvatarManager.RemoveLocalAvatar h w
  | ActClearCache => AvatarManager.ClearCache w
  end.

(** A run: each step is taken in the host as it is at that moment. *)
Definition run (steps : list (Host * Action)) (w : World) : World :=
  foldl (fun w step => perform (fst step) (snd step) w) w steps.

(** A freshly constructed manager: empty cache, nothing queued. *)
Definition initial_world : World :=
  {| avatar_cache := ∅; files := ∅; game_thread := []; trace := [] |}.

(** Every cache entry sits under a sanitized key and holds a texture. *)
Definition cache_well_formed (w : World) : Prop :=
  forall k v, avatar_cache w !! k = Some v ->
              contains_replaced k = false /\ exists tex, v = Some tex.

(** Staging [bytes] for [idString] goes through: the temp file opens and is
    written, the image loads and yields the texture [tex]. *)
Definition staging_succeeds (h : Host) (idString : string) (bytes : list Z)
    (tex : UTexture2DDynamic) : Prop :=
  ofstream_open h (GetTempAvatarPath idString) = true
  /\ ofstream_good h (GetTempAvatarPath idString) = true
  /\ LoadForCanvas h bytes = true
  /\ GetCanvasTex h bytes = Some tex.

(** The requested identity differs from the local one in the two fields
    [LoadForPRI] compares. *)
Definition differs_from_local (localPRI pri : APRI_TA) : Prop :=
  Uid (UniqueId localPRI) <> Uid (UniqueId pri)
  \/ EpicAccountId (UniqueId localPRI) <> EpicAccountId (UniqueId pri).

(** [LoadForPRI] gets as far as its cache lookup for [pri]: there is a
    player controller with a local record, [pri] is not the local player,
    and its platform is not Xbox. *)
Definition lookup_reached (h : Host) (pri : APRI_TA) : Prop :=
  exists pc localPRI,
    gw_PlayerController h = Some pc /\ PRI pc = Some localPRI
    /\ differs_from_local localPRI pri
    /\ Platform (UniqueId pri) <> OnlinePlatform_Dingo.

(** [RemoveLocalAvatar] gets as far as its erase: the checks on the
    controller, the vanity manager, the local identity and the avatar
    component pass. *)
Definition erase_reached (h : Host) : Prop :=
  RL_PlayerController h = true /\ RL_VanitySetManager h = true
  /\ AvatarManager.invalid_UniqueID (AvatarManager.primary_or_zero h) = false
  /\ vman_GetAvatar h (AvatarManager.primary_or_zero h) = true.

(* ===================================================================== *)
(** * Utils/Logger.cpp                                                    *)
(* ===================================================================== *)

Module RLProfilePicturesLogger.

(** The two statics of the logger. *)
Record State : Type := {
  s_cvarManager : option (gmap string bool);
  s_debugLogsEnabled : option bool
}.

(** Before [Initialize]: both statics are null. *)
Definition uninitialized : State :=
  {| s_cvarManager := None; s_debugLogsEnabled := None |}.

Definition Initialize (cvarManager : option (gmap string bool))
    (debugLogsEnabled : option bool) : State :=
  {| s_cvarManager := cvarManager; s_debugLogsEnabled := debugLogsEnabled |}.

Definition CVAR_DEBUG_LOGS : string := "RLProfilePicturesREVAMP_DebugLogs".

(** The escape character, written [\x1b] in the source. *)
Definition ESC : string := String "027"%char "".

Definition colored (color tag message : string) : string :=
  ESC +:+ color +:+ tag +:+ message +:+ ESC +:+ "[39m".

(** Each function returns the lines it hands to [s_cvarManager->log]. *)
Definition LogInfo (st : State) (message : string) : list string :=
  match s_cvarManager st with
  | Some _ => [colored "[38;2;102;204;255m" "[INFO] " message]
  | None => []
  end.

Definition LogSuccess (st : State) (message : string) : list string :=
  match s_cvarManager st with
  | Some _ => [colored "[38;2;102;255;102m" "[SUCCESS] " message]
  | None => []
  end.

Definition LogError (st : State) (message : string) : list string :=
  match s_cvarManager st with
  | Some _ => [colored "[38;2;255;102;102m" "[ERROR] " message]
  | None => []
  end.

Definition LogDebug (st : State) (message : string) : list string :=
  match s_cvarManager st with
  | None => []
  | Some manager =>
      if match s_debugLogsEnabled st with
         | Some enabled => enabled
         | None => false
         end
      then [colored "[38;2;255;255;102m" "[DEBUG] " message]
      else
        match manager !! CVAR_DEBUG_LOGS with
        | Some true => [colored "[38;2;255;255;102m" "[DEBUG] " message]
        | _ => []
        end
  end.

End RLProfilePicturesLogger.

(* ===================================================================== *)
(** * Memory/MemoryHelper.cpp: [FindPattern]                              *)
(* ===================================================================== *)

Module MemoryHelper.

(** The first loop of [FindPattern]: the pattern is cut at spaces; [token]
    is the token being read and [patternBytes] the tokens pushed so far. *)
Fixpoint split_pattern (pattern token : string) (patternBytes : list string)
  : list string :=
  match pattern with
  | EmptyString =>
      if is_empty token then patternBytes else patternBytes ++ [token]
  | String c rest =>
      if Ascii.eqb c " "%char then
        if is_empty token then split_pattern rest token patternBytes
        else split_pattern rest "" (patternBytes ++ [token])
      else split_pattern rest (token +:+ String c "") patternBytes
  end.

Section Parse.
(** [std::stoul(token, nullptr, 16)] of the standard library: [None] when it
    throws. *)
Variable stoul16 : string -> option N.

(** The second loop: one entry of [bytePattern] and of [wildcard] per token;
    [None] when [stoul] throws. *)
Fixpoint parse_tokens (patternBytes : list string) : option (list Z * list bool) :=
  match patternBytes with
  | [] => Some ([], [])
  | token :: rest =>
      match
        (if String.eqb token "??" then Some (0, true)
         else match stoul16 token with
              | Some n => Some (Z.of_N n `mod` 256, false)
              | None => None
              end),
        parse_tokens rest
      with
      | Some (b, wc), Some (bytePattern, wildcard) =>
          Some (b :: bytePattern, wc :: wildcard)
      | _, _ => None
      end
  end.
End Parse.

(** The inner loop at offset [i]: [found] stays true when every byte that
    is not a wildcard equals the byte of the buffer. *)
Definition found_at (bytePattern : list Z) (wildcard : list bool)
    (buffer : list Z) (i : nat) : bool :=
  forallb (fun j => (wildcard !!! j) || (bytePattern !!! j =? buffer !!! (i + j)%nat))
          (seq 0 (List.length bytePattern)).

(** [bytesRead - bytePattern.size()] in [size_t] arithmetic. *)
Definition scan_limit (bytePattern : list Z) (bytesRead : N) : Z :=
  (Z.of_N bytesRead - Z.of_nat (List.length bytePattern)) `mod` 2 ^ 64.

(** [for (size_t i = 0; i < bytesRead - bytePattern.size(); ++i)]: the first
    offset at which the pattern is found. *)
Definition scan_buffer (bytePattern : list Z) (wildcard : list bool)
    (buffer : list Z) (bytesRead : N) : option nat :=
  List.find (found_at bytePattern wildcard buffer)
            (seq 0 (Z.to_nat (scan_limit bytePattern bytesRead))).

(** What [VirtualQueryEx] and [ReadProcessMemory] report for one region:
    [accessible] is [State == MEM_COMMIT] without [PAGE_GUARD] and
    [PAGE_NOACCESS]; [memory] holds the bytes read, or nothing when the read
    fails. *)
Record Region : Type := {
  BaseAddress : N;
  RegionSize : N;
  accessible : bool;
  memory : option (list Z)
}.

(** [std::vector<uint8_t> buffer(mbi.RegionSize)] after the read. *)
Definition region_buffer (r : Region) (bytes : list Z) : list Z :=
  bytes ++ replicate (N.to_nat (RegionSize r) - List.length bytes) 0.

Definition scan_region (bytePattern : list Z) (wildcard : list bool) (r : Region)
  : option nat :=
  if accessible r then
    match memory r with
    | Some bytes =>
        scan_buffer bytePattern wildcard (region_buffer r bytes)
          (N.of_nat (List.length bytes))
    | None => None
    end
  else None.

(** The [while (VirtualQueryEx(...))] loop over the regions in the order
    they are reported; [None] is the [exit(0)] after the loop. *)
Fixpoint search_regions (bytePattern : list Z) (wildcard : list bool)
    (regions : list Region) : option Z :=
  match regions with
  | [] => None
  | r :: rest =>
      match scan_region bytePattern wildcard r with
      | Some i => Some ((Z.of_N (BaseAddress r) + Z.of_nat i) `mod` 2 ^ 64)
      | None => search_regions bytePattern wildcard rest
      end
  end.

Inductive Outcome : Type :=
| Found (address : Z)
| Exits
| Throws.

Definition FindPattern (stoul16 : string -> option N) (pattern : string)
    (regions : list Region) : Outcome :=
  match parse_tokens stoul16 (split_pattern pattern "" []) with
  | None => Throws
  | Some (bytePattern, wildcard) =>
      match search_regions bytePattern wildcard regions with
      | Some address => Found address
      | None => Exits
      end
  end.

(** The pattern occurs in the buffer at offset [i]: every position of the
    pattern is a wildcard or holds the byte of the buffer. *)
Definition occurs_at (bytePattern : list Z) (wildcard : list bool)
    (buffer : list Z) (i : nat) : Prop :=
  forall j, (j < List.length bytePattern)%nat ->
            wildcard !!! j = true \/ bytePattern !!! j = buffer !!! (i + j)%nat.

(** The text of a pattern with its spaces taken out. *)
Fixpoint without_spaces (s : string) : string :=
  match s with
  | EmptyString => EmptyString
  | String c rest =>
      if Ascii.eqb c " "%char then without_spaces rest
      else String c (without_spaces rest)
  end.

Fixpoint has_space (s : string) : bool :=
  match s with
  | EmptyString => false
  | String c rest => Ascii.eqb c " "%char || has_space rest
  end.

Definition concat_tokens (tokens : list string) : string :=
  foldr String.append EmptyString tokens.

(** The tokens of a pattern, said without the loop: a pattern is a space
    followed by a pattern with the same tokens, or a token that runs to the
    end, or a token, a space, and a pattern with the remaining tokens.  A
    token is a non-empty string without a space, so each token is a run of
    the pattern between two spaces (or an end) that cannot be made longer. *)
Inductive cut_at_spaces : string -> list string -> Prop :=
| cut_end : cut_at_spaces "" []
| cut_space (rest : string) (tokens : list string) :
    cut_at_spaces rest tokens ->
    cut_at_spaces (String " " rest) tokens
| cut_last (token : string) :
    token <> "" -> has_space token = false ->
    cut_at_spaces token [token]
| cut_token (token rest : string) (tokens : list string) :
    token <> "" -> has_space token = false ->
    cut_at_spaces rest tokens ->
    cut_at_spaces (token +:+ String " " rest) (token :: tokens).

(** What [FindPattern] stores for one token. *)
Definition byte_of_token (stoul16 : string -> option N) (token : string)
    (b : Z) (wc : bool) : Prop :=
  (token = "??" /\ b = 0 /\ wc = true)
  \/ (token <> "??" /\ wc = false
      /\ exists n, stoul16 token = Some n /\ b = Z.of_N n `mod` 256).

End MemoryHelper.

(* ===================================================================== *)
(** * RLProfilePicturesREVAMP.cpp: the event hooks                        *)
(* ===================================================================== *)

Module RLProfilePicturesREVAMP.

(** Config/Constants.h *)
Definition DEFAULT_AVATAR_PATH : string := "No image selected".

(** What the hooks read besides the host: the plugin's [enabled] flag, the
    string value of the avatar-path cvar, and [pri->IsLocalPlayerPRI()]. *)
Record Plugin : Type := {
  enabled : bool;
  avatar_path_cvar : string;
  IsLocalPlayerPRI : APRI_TA -> bool
}.

(** The hook on [Function TAGame.PRI_TA.ReplicatedEvent]: [caller] is the
    PRI or null, [VarName] the name in the parameters or null parameters. *)
Definition on_ReplicatedEvent (p : Plugin) (h : Host) (caller : option APRI_TA)
    (VarName : option string) (w : World) : World :=
  if negb (enabled p) then w
  else
    match caller with
    | None => w
    | Some pri =>
        if IsLocalPlayerPRI p pri then w
        else
          match VarName with
          | None => w
          | Some name =>
              if is_empty name || negb (String.eqb name "PlayerName") then w
              else AvatarManager.LoadForPRI h (Some pri) w
          end
    end.

(** The hook on [Function TAGame.PRI_TA.UpdatePlayerAvatar]. *)
Definition on_UpdatePlayerAvatar (p : Plugin) (h : Host) (caller : option APRI_TA)
    (w : World) : World :=
  if negb (enabled p) then w
  else
    match caller with
    | None => w
    | Some pri =>
        if IsLocalPlayerPRI p pri then w
        else AvatarManager.LoadForPRI h (Some pri) w
    end.

Definition LoadLocalAvatarFallback (p : Plugin) (h : Host) (w : World) : World :=
  let avatarPathFromCvar := avatar_path_cvar p in
  if is_empty avatarPathFromCvar || String.eqb avatarPathFromCvar DEFAULT_AVATAR_PATH
  then w
  else AvatarManager.AddLocalAvatar h avatarPathFromCvar w.

End RLProfilePicturesREVAMP.

(* ===================================================================== *)
(** * More hosts and inputs for the examples                              *)
(* ===================================================================== *)

Module Scenarios.

(** A Steam viewer in the main menu whose chosen avatar file holds the
    one-pixel image. *)
Definition steam_viewer : Host :=
  {| globalCvarManager := Some Examples.all_enabled;
     GetPrimaryPlayerID := Some Examples.steam_id;
     gw_PlayerController := Some {| PRI := Some Examples.steam_pri |};
     RL_PlayerController := true;
     RL_VanitySetManager := true;
     vman_GetAvatar := fun _ => true;
     UniqueNetIdToString := Examples.id_string;
     stbi_load_from_memory := Examples.toy_load;
     stbi_write_png_to_func := Examples.toy_write;
     read_file := fun path => if String.eqb path "avatar.png"
                              then Some Examples.one_pixel else None;
     ofstream_open := fun _ => true;
     ofstream_good := fun _ => true;
     LoadForCanvas := fun _ => true;
     GetCanvasTex := fun _ => Some 9%positive |}.

(** The same with an Epic viewer. *)
Definition epic_viewer : Host :=
  {| globalCvarManager := Some Examples.all_enabled;
     GetPrimaryPlayerID := Some Examples.local_id;
     gw_PlayerController := Some {| PRI := Some Examples.local_pri |};
     RL_PlayerController := true;
     RL_VanitySetManager := true;
     vman_GetAvatar := fun _ => true;
     UniqueNetIdToString := Examples.id_string;
     stbi_load_from_memory := Examples.toy_load;
     stbi_write_png_to_func := Examples.toy_write;
     read_file := fun path => if String.eqb path "avatar.png"
                              then Some Examples.one_pixel else None;
     ofstream_open := fun _ => true;
     ofstream_good := fun _ => true;
     LoadForCanvas := fun _ => true;
     GetCanvasTex := fun _ => Some 9%positive |}.

(** A host with every platform flag off. *)
Definition all_disabled : Host :=
  {| globalCvarManager := Some ∅;
     GetPrimaryPlayerID := Some Examples.local_id;
     gw_PlayerController := Some {| PRI := Some Examples.local_pri |};
     RL_PlayerController := true;
     RL_VanitySetManager := true;
     vman_GetAvatar := fun _ => true;
     UniqueNetIdToString := Examples.id_string;
     stbi_load_from_memory := Examples.toy_load;
     stbi_write_png_to_func := Examples.toy_write;
     read_file := fun _ => None;
     ofstream_open := fun _ => true;
     ofstream_good := fun _ => true;
     LoadForCanvas := fun _ => true;
     GetCanvasTex := fun _ => Some 9%positive |}.

(** A host whose id strings hold no replaced character. *)
Definition plain_ids : Host :=
  {| globalCvarManager := Some Examples.all_enabled;
     GetPrimaryPlayerID := Some Examples.steam_id;
     gw_PlayerController := Some {| PRI := Some Examples.steam_pri |};
     RL_PlayerController := true;
     RL_VanitySetManager := true;
     vman_GetAvatar := fun _ => true;
     UniqueNetIdToString := fun id => pretty (Uid id);
     stbi_load_from_memory := Examples.toy_load;
     stbi_write_png_to_func := Examples.toy_write;
     read_file := fun _ => None;
     ofstream_open := fun _ => true;
     ofstream_good := fun _ => true;
     LoadForCanvas := fun _ => true;
     GetCanvasTex := fun _ => Some 9%positive |}.

(** Two hexadecimal digits read as a number; anything else throws.  Enough
    of [std::stoul] for the patterns of the examples. *)
Definition hex_digit (c : ascii) : option N :=
  let n := N_of_ascii c in
  if (48 <=? n)%N && (n <=? 57)%N then Some (n - 48)%N
  else if (65 <=? n)%N && (n <=? 70)%N then Some (n - 55)%N
  else if (97 <=? n)%N && (n <=? 102)%N then Some (n - 87)%N
  else None.

Definition two_hex_digits (token : string) : option N :=
  match token with
  | String a (String b EmptyString) =>
      match hex_digit a, hex_digit b with
      | Some x, Some y => Some (16 * x + y)%N
      | _, _ => None
      end
  | _ => None
  end.

(** A readable region of eight bytes at address 4096. *)
Definition region8 : MemoryHelper.Region :=
  {| MemoryHelper.BaseAddress := 4096;
     MemoryHelper.RegionSize := 8;
     MemoryHelper.accessible := true;
     MemoryHelper.memory := Some [7; 1; 0; 53; 37; 2; 0; 9] |}.

(** A plugin that is enabled and counts nobody as the local player. *)
Definition plugin_on : RLProfilePicturesREVAMP.Plugin :=
  {| RLProfilePicturesREVAMP.enabled := true;
     RLProfilePicturesREVAMP.avatar_path_cvar := "avatar.png";
     RLProfilePicturesREVAMP.IsLocalPlayerPRI := fun _ => false |}.

(** The Epic viewer picks an avatar twice before the first upload is
    answered: both closures run and both uploads are sent; then the first
    upload is answered with status 200. *)
Definition overlapping_uploads : list (Host * Action) :=
  [ (epic_viewer, ActAddLocalAvatar "avatar.png");
    (epic_viewer, ActGameTick);
    (epic_viewer, ActAddLocalAvatar "avatar.png");
    (epic_viewer, ActGameTick);
    (epic_viewer, ActUploadResponse Examples.local_id [1; 1; 4; 20; 136; 186; 200]
                    200 "success: true") ].

Definition first_upload_answered : World := run overlapping_uploads initial_world.

(** The second upload is answered as well. *)
Definition second_upload_answered : World :=
  perform epic_viewer
    (ActUploadResponse Examples.local_id [1; 1; 4; 20; 136; 186; 200]
       200 "success: true")
    first_upload_answered.

(** A remote Epic player whose account string holds a colon. *)
Definition epic_colon_pri : APRI_TA :=
  {| UniqueId := Examples.epic_colon; PlayerName := "colon" |}.

End Scenarios.

(* ===================================================================== *)
(** * Properties of [SanitizeFilename]                                    *)
(* ===================================================================== *)

Section Sanitize.

Lemma underscore_not_replaced : is_replaced "_"%char = false.
Proof. reflexivity. Qed.

Lemma sanitize_char_kept (c : ascii) :
  is_replaced c = false -> sanitize_char c = c.
Proof. unfold sanitize_char. intros ->. reflexivity. Qed.

Lemma sanitize_char_replaced (c : ascii) :
  is_replaced c = true -> sanitize_char c = "_"%char.
Proof. unfold sanitize_char. intros ->. reflexivity. Qed.

Lemma sanitize_char_clean (c : ascii) : is_replaced (sanitize_char c) = false.
Proof.
  unfold sanitize_char. destruct (is_replaced c) eqn:E; [reflexivity | exact E].
Qed.

Lemma sanitize_char_fixed (c : ascii) :
  sanitize_char c = c <-> is_replaced c = false.
Proof.
  split; [| apply sanitize_char_kept].
  intros H. rewrite <- H. apply sanitize_char_clean.
Qed.

(** Two characters get the same image exactly when they are equal or
    both end up as the underscore. *)
Lemma sanitize_char_eq (c d : ascii) :
  sanitize_char c = sanitize_char d <-> c = d \/ (merges c /\ merges d).
Proof.
  unfold merges, sanitize_char.
  destruct (is_replaced c) eqn:Ec, (is_replaced d) eqn:Ed; split; intros H.
  - right. auto.
  - reflexivity.
  - right. split; [left; reflexivity | right; symmetry; exact H].
  - destruct H as [-> | [_ [Hd | ->]]]; [congruence | congruence | reflexivity].
  - right. split; [right; exact H | left; reflexivity].
  - destruct H as [<- | [[Hc | ->] _]]; [congruence | congruence | reflexivity].
  - left. exact H.
  - destruct H as [H | [[Hc | ->] [Hd | ->]]]; congruence.
Qed.

Lemma SanitizeFilename_length (s : string) :
  String.length (SanitizeFilename s) = String.length s.
Proof. induction s as [| c s IH]; simpl; [reflexivity | now rewrite IH]. Qed.

Lemma SanitizeFilename_get (s : string) (i : nat) :
  String.get i (SanitizeFilename s) = sanitize_char <$> String.get i s.
Proof.
  revert i. induction s as [| c s IH]; intros i; simpl; [reflexivity |].
  destruct i as [| i]; [reflexivity | apply IH].
Qed.

Lemma SanitizeFilename_clean (s : string) :
  contains_replaced (SanitizeFilename s) = false.
Proof.
  induction s as [| c s IH]; simpl; [reflexivity |].
  now rewrite sanitize_char_clean, IH.
Qed.

Lemma SanitizeFilename_fixed (s : string) :
  SanitizeFilename s = s <-> contains_replaced s = false.
Proof.
  split.
  - intros H. rewrite <- H. apply SanitizeFilename_clean.
  - induction s as [| c s IH]; simpl; [reflexivity |].
    intros H. apply orb_false_iff in H as [Hc Hs].
    now rewrite (sanitize_char_kept c Hc), (IH Hs).
Qed.

Lemma SanitizeFilename_idempotent (s : string) :
  SanitizeFilename (SanitizeFilename s) = SanitizeFilename s.
Proof. apply SanitizeFilename_fixed, SanitizeFilename_clean. Qed.

(** When two strings get the same image. *)
Lemma SanitizeFilename_eq (s t : string) :
  SanitizeFilename s = SanitizeFilename t <->
  String.length s = String.length t /\
  forall i c d, String.get i s = Some c -> String.get i t = Some d ->
                c = d \/ (merges c /\ merges d).
Proof.
  revert t. induction s as [| c s IH]; intros [| d t]; simpl.
  - split; [| reflexivity]. intros _. split; [reflexivity |]. intros i ? ? H. discriminate H.
  - split; [discriminate | intros [H _]; discriminate H].
  - split; [discriminate | intros [H _]; discriminate H].
  - split.
    + intros H. injection H as Hc Hs. apply IH in Hs as [Hl Hp]. split.
      * now rewrite Hl.
      * intros [| i] c' d' H1 H2.
        -- injection H1 as <-. injection H2 as <-. now apply sanitize_char_eq.
        -- eapply Hp; eassumption.
    + intros [Hl Hp]. f_equal.
      * apply sanitize_char_eq. apply (Hp 0%nat); reflexivity.
      * apply IH. split; [now injection Hl |].
        intros i c' d' H1 H2. apply (Hp (S i)); assumption.
Qed.

End Sanitize.

(* ===================================================================== *)
(** * The resolver: [AvatarDownloader::IsAllowed]                         *)
(* ===================================================================== *)

Section Resolver.
Import AvatarDownloader.

Lemma getCVarBool_true (h : Host) (flag : string) :
  getCVarBool h flag = true <-> flag_is_true h flag.
Proof.
  unfold getCVarBool, flag_is_true. split.
  - destruct (globalCvarManager h) as [m |]; [| discriminate].
    destruct (m !! flag) as [b |] eqn:E; [| discriminate].
    intros ->. exists m. auto.
  - intros (m & -> & ->). reflexivity.
Qed.

Lemma localOnSteam_true (h : Host) :
  localOnSteam h = true <-> viewer_on_steam h.
Proof.
  unfold localOnSteam, viewer_on_steam. split.
  - destruct (GetPrimaryPlayerID h) as [l |]; [| discriminate].
    intros H. apply bool_decide_eq_true in H. exists l. auto.
  - intros (l & -> & H). apply bool_decide_eq_true. exact H.
Qed.

Lemma IsAllowed_by_platform (h : Host) (id : FUniqueNetId) :
  IsAllowed h id =
  match enable_flag (Platform id) with
  | Some flag =>
      (if bool_decide (Platform id = OnlinePlatform_Steam)
       then negb (localOnSteam h) else true) && getCVarBool h flag
  | None => false
  end.
Proof. unfold IsAllowed. destruct (Platform id); reflexivity. Qed.

(** C1. [IsAllowed] permits a fetch exactly when the platform is one of the
    five the plugin knows, that platform's enable flag is true and, for Steam
    only, the local viewer is not on Steam.  An unknown platform or a flag
    that is not true is refused, whatever the id fields hold; and a refused
    identity gets no URL.  [IsAllowed] is a total function: it returns a
    boolean on every input. *)
Theorem C1_IsAllowed_policy (h : Host) (id : FUniqueNetId) :
  (IsAllowed h id = true <->
     exists flag, enable_flag (Platform id) = Some flag
                  /\ flag_is_true h flag
                  /\ (Platform id = OnlinePlatform_Steam -> ~ viewer_on_steam h))
  /\ (enable_flag (Platform id) = None -> IsAllowed h id = false)
  /\ (forall flag, enable_flag (Platform id) = Some flag ->
                   ~ flag_is_true h flag -> IsAllowed h id = false)
  /\ (forall id', Platform id' = Platform id -> IsAllowed h id' = IsAllowed h id)
  /\ (IsAllowed h id = false -> GetURLForID h id = "").
Proof.
  repeat split.
  - rewrite IsAllowed_by_platform.
    destruct (enable_flag (Platform id)) as [flag |]; [| discriminate].
    intros H. apply andb_true_iff in H as [Hs Hf].
    exists flag. split; [reflexivity |]. split; [now apply getCVarBool_true |].
    intros Hp Hv. apply localOnSteam_true in Hv.
    rewrite bool_decide_eq_true_2 in Hs by exact Hp. rewrite Hv in Hs. discriminate.
  - intros (flag & Hflag & Htrue & Hsteam).
    rewrite IsAllowed_by_platform, Hflag.
    apply andb_true_iff. split; [| now apply getCVarBool_true].
    case_bool_decide as Hp; [| reflexivity].
    destruct (localOnSteam h) eqn:E; [| reflexivity].
    exfalso. apply (Hsteam Hp). now apply localOnSteam_true.
  - intros H. rewrite IsAllowed_by_platform, H. reflexivity.
  - intros flag Hflag Hn. rewrite IsAllowed_by_platform, Hflag.
    destruct (getCVarBool h flag) eqn:E; [| apply andb_false_r].
    exfalso. apply Hn. now apply getCVarBool_true.
  - intros id' Hp. rewrite !IsAllowed_by_platform, Hp. reflexivity.
  - intros H. unfold GetURLForID. rewrite H. reflexivity.
Qed.

(** C1 at a Steam identity seen by an Epic viewer with every flag on. *)
Lemma C1_IsAllowed_policy_witness :
  IsAllowed Examples.host Examples.steam_id = true
  /\ exists flag, enable_flag OnlinePlatform_Steam = Some flag
                  /\ flag_is_true Examples.host flag.
Proof.
  split; [reflexivity |].
  destruct (proj1 (proj1 (C1_IsAllowed_policy Examples.host Examples.steam_id)) eq_refl)
    as (flag & Hf & Ht & _).
  exists flag. split; [exact Hf | exact Ht].
Defined.

End Resolver.

(* ===================================================================== *)
(** * Cache keys                                                          *)
(* ===================================================================== *)

Section CacheKeys.
Import AvatarManager.

Lemma cache_filesystem_remove (path : string) (w : World) :
  avatar_cache (filesystem_remove path w) = avatar_cache w.
Proof. unfold filesystem_remove. case_bool_decide; reflexivity. Qed.

(** [stage_and_apply] writes the cache at [idString] and nowhere else. *)
Lemma stage_and_apply_other_keys (h : Host) (id : FUniqueNetId) (idString : string)
    (bytes : list Z) (w : World) (k : string) :
  k <> idString ->
  avatar_cache (stage_and_apply h id idString bytes w) !! k = avatar_cache w !! k.
Proof.
  intros Hk. unfold stage_and_apply.
  destruct (ofstream_open h _); simpl; [| reflexivity].
  destruct (ofstream_good h _); simpl; [| reflexivity].
  case_bool_decide; simpl; [| reflexivity].
  destruct (LoadForCanvas h bytes); simpl.
  - destruct (GetCanvasTex h bytes) as [tex |]; simpl.
    + rewrite lookup_insert_ne by congruence.
      now rewrite cache_filesystem_remove.
    + now rewrite cache_filesystem_remove.
  - now rewrite cache_filesystem_remove.
Qed.

(** What [stage_and_apply] leaves at [idString]: the old entry, or a
    texture that is not null. *)
Lemma stage_and_apply_own_key (h : Host) (id : FUniqueNetId) (idString : string)
    (bytes : list Z) (w : World) :
  avatar_cache (stage_and_apply h id idString bytes w) !! idString
  = avatar_cache w !! idString
  \/ exists tex,
       avatar_cache (stage_and_apply h id idString bytes w)
       = <[idString := Some tex]> (avatar_cache w).
Proof.
  unfold stage_and_apply.
  destruct (ofstream_open h _); simpl; [| now left].
  destruct (ofstream_good h _); simpl; [| now left].
  case_bool_decide; simpl; [| now left].
  destruct (LoadForCanvas h bytes); simpl.
  - destruct (GetCanvasTex h bytes) as [tex |]; simpl.
    + right. exists tex. now rewrite cache_filesystem_remove.
    + left. now rewrite cache_filesystem_remove.
  - left. now rewrite cache_filesystem_remove.
Qed.

Lemma LoadAvatar_other_keys (h : Host) (id : FUniqueNetId) (data : list Z)
    (w : World) (k : string) :
  k <> cache_key h id ->
  avatar_cache (LoadAvatar h id data w) !! k = avatar_cache w !! k.
Proof.
  intros Hk. unfold LoadAvatar, call_BrightenImage.
  fold (cache_key h id).
  destruct (avatar_cache w !! cache_key h id) as [[tex |] |]; simpl;
    try reflexivity;
    destruct (BrightenImage _ _ _ _); simpl; try reflexivity;
    now rewrite stage_and_apply_other_keys.
Qed.

Lemma LoadAvatarDirect_other_keys (h : Host) (id : FUniqueNetId) (idString : string)
    (data : list Z) (force : bool) (w : World) (k : string) :
  k <> idString ->
  avatar_cache (LoadAvatarDirect h id idString data force w) !! k = avatar_cache w !! k.
Proof.
  intros Hk. unfold LoadAvatarDirect.
  destruct force; simpl.
  - now apply stage_and_apply_other_keys.
  - destruct (avatar_cache w !! idString) as [[tex |] |]; simpl;
      try reflexivity; now apply stage_and_apply_other_keys.
Qed.

(** A raw id string that holds a replaced character is no key of a cache
    whose keys are all sanitized. *)
Lemma keys_sanitized_miss (w : World) (raw : string) :
  keys_sanitized w -> contains_replaced raw = true ->
  GetCachedAvatar w raw = None.
Proof.
  intros Hs Hr. unfold GetCachedAvatar.
  destruct (avatar_cache w !! raw) as [v |] eqn:E; [| reflexivity].
  apply Hs in E. congruence.
Qed.

Lemma keys_sanitized_insert (w : World) (k : string) (v : option UTexture2DDynamic)
    (c : gmap string (option UTexture2DDynamic)) :
  (forall k' v', c !! k' = Some v' -> contains_replaced k' = false) ->
  contains_replaced k = false ->
  forall k' v', <[k := v]> c !! k' = Some v' -> contains_replaced k' = false.
Proof.
  intros Hc Hk k' v' H. destruct (decide (k = k')) as [<- | Hne]; [exact Hk |].
  rewrite lookup_insert_ne in H by exact Hne. eapply Hc, H.
Qed.

Lemma keys_sanitized_stage (h : Host) (id : FUniqueNetId) (idString : string)
    (bytes : list Z) (w : World) :
  contains_replaced idString = false ->
  keys_sanitized w -> keys_sanitized (stage_and_apply h id idString bytes w).
Proof.
  intros Hk Hs k v H.
  destruct (decide (k = idString)) as [-> | Hne]; [exact Hk |].
  rewrite stage_and_apply_other_keys in H by exact Hne. eapply Hs, H.
Qed.

(** [LoadAvatar] keeps every key of the cache sanitized. *)
Lemma keys_sanitized_LoadAvatar (h : Host) (id : FUniqueNetId) (data : list Z)
    (w : World) :
  keys_sanitized w -> keys_sanitized (LoadAvatar h id data w).
Proof.
  intros Hs k v H.
  destruct (decide (k = cache_key h id)) as [-> | Hne].
  - apply SanitizeFilename_clean.
  - rewrite LoadAvatar_other_keys in H by exact Hne. eapply Hs, H.
Qed.

(** So does every closure the game thread runs. *)
Lemma keys_sanitized_run_task (h : Host) (task : GameTask) (w : World) :
  keys_sanitized w -> keys_sanitized (run_task h task w).
Proof.
  intros Hs. destruct task as [id data | id data | id data]; simpl.
  - now apply keys_sanitized_LoadAvatar.
  - unfold AddLocalAvatar_apply. case_bool_decide as Hp.
    + destruct (ofstream_open h _); simpl; [| exact Hs].
      unfold AvatarDownloader.UploadToCDN.
      destruct (_ || _); simpl; [| exact Hs].
      unfold AddLocalAvatar_uploaded. intros k v H.
      rewrite cache_filesystem_remove in H. eapply Hs, H.
    + intros k v H.
      destruct (decide (k = SanitizeFilename (UniqueNetIdToString h id))) as [-> | Hne].
      * apply SanitizeFilename_clean.
      * rewrite LoadAvatarDirect_other_keys in H by exact Hne. eapply Hs, H.
  - intros k v H.
    destruct (decide (k = SanitizeFilename (UniqueNetIdToString h id))) as [-> | Hne].
    + apply SanitizeFilename_clean.
    + rewrite LoadAvatarDirect_other_keys in H by exact Hne. eapply Hs, H.
Qed.

End CacheKeys.

Section KeyDerivation.

(** C8 as stated fails.  Two Epic identities whose account strings are
    [a:b] and [a_b] differ in an id field and in their id strings, yet get
    the same cache key, because [SanitizeFilename] turns the colon into an
    underscore. *)
Lemma C8_cache_key_injective_counterexample :
  EpicAccountId Examples.epic_colon <> EpicAccountId Examples.epic_underscore
  /\ UniqueNetIdToString Examples.host Examples.epic_colon
     <> UniqueNetIdToString Examples.host Examples.epic_underscore
  /\ cache_key Examples.host Examples.epic_colon
     = cache_key Examples.host Examples.epic_underscore
  /\ SanitizeFilename "a:b" = SanitizeFilename "a_b".
Proof.
  split; [discriminate |]. split; [vm_compute; discriminate |].
  split; reflexivity.
Qed.

(** C8, amended.  The key of an identity depends on nothing but the
    identity (and the SDK's rendering of it), and two identities share a key
    exactly when their id strings have the same length and, at every
    position, either agree or both hold a character that ends up as the
    underscore (a replaced character or the underscore itself). *)
Theorem C8_cache_key_amended (h : Host) (a b : FUniqueNetId) :
  (a = b -> cache_key h a = cache_key h b)
  /\ (cache_key h a = cache_key h b <->
      String.length (UniqueNetIdToString h a) = String.length (UniqueNetIdToString h b)
      /\ forall i c d,
           String.get i (UniqueNetIdToString h a) = Some c ->
           String.get i (UniqueNetIdToString h b) = Some d ->
           c = d \/ (merges c /\ merges d)).
Proof.
  split; [intros ->; reflexivity |].
  unfold cache_key. apply SanitizeFilename_eq.
Qed.

(** C8, amended, at two identities whose id strings differ in length. *)
Lemma C8_cache_key_amended_witness :
  cache_key Examples.host Examples.steam_id <> cache_key Examples.host Examples.xbox_id.
Proof.
  intros E.
  destruct (proj1 (proj2 (C8_cache_key_amended Examples.host Examples.steam_id
                            Examples.xbox_id)) E) as [Hl _].
  vm_compute in Hl. discriminate Hl.
Defined.

End KeyDerivation.

(* ===================================================================== *)
(** * The remote-load path                                                *)
(* ===================================================================== *)

Section RemoteLoad.
Import AvatarDownloader AvatarManager.

Lemma count_app (p : Event -> bool) (l1 l2 : list Event) :
  count p (l1 ++ l2) = (count p l1 + count p l2)%nat.
Proof. unfold count. now rewrite filter_app, length_app. Qed.

Lemma count_snoc (p : Event -> bool) (l : list Event) (e : Event) :
  count p (l ++ [e]) = (count p l + if p e then 1 else 0)%nat.
Proof.
  rewrite count_app. f_equal. unfold count. simpl.
  destruct (p e) eqn:E.
  - rewrite filter_cons_True by exact E. reflexivity.
  - rewrite filter_cons_False by congruence. reflexivity.
Qed.

(** C2. When the requested identity has the [Uid] and the Epic account
    string of the local player's identity, [LoadForPRI] returns at once: the
    world is unchanged, so no call reaches the Fetcher and no request is
    sent. *)
Theorem C2_LoadForPRI_skips_local (h : Host) (pc : APlayerController_TA)
    (localPRI pri : APRI_TA) (w : World) :
  gw_PlayerController h = Some pc ->
  PRI pc = Some localPRI ->
  Uid (UniqueId pri) = Uid (UniqueId localPRI) ->
  EpicAccountId (UniqueId pri) = EpicAccountId (UniqueId localPRI) ->
  LoadForPRI h (Some pri) w = w
  /\ count is_fetch (trace (LoadForPRI h (Some pri) w)) = count is_fetch (trace w)
  /\ count is_request (trace (LoadForPRI h (Some pri) w)) = count is_request (trace w).
Proof.
  intros Hpc Hl Hu He.
  assert (E : LoadForPRI h (Some pri) w = w).
  { unfold LoadForPRI. rewrite Hpc, Hl, Hu, He.
    rewrite N.eqb_refl, String.eqb_refl. reflexivity. }
  rewrite E. auto.
Qed.

(** C2 at the example host, asked to load its own viewer. *)
Lemma C2_LoadForPRI_skips_local_witness :
  count is_fetch (trace (LoadForPRI Examples.host (Some Examples.local_pri)
                           Examples.empty_world)) = 0%nat.
Proof.
  exact (proj1 (proj2 (C2_LoadForPRI_skips_local Examples.host
           {| PRI := Some Examples.local_pri |} Examples.local_pri Examples.local_pri
           Examples.empty_world eq_refl eq_refl eq_refl eq_refl))).
Defined.

(** C3. The completion lambda of a download treats the response as a success
    exactly when the status is 200, the buffer is not null and its size is
    not zero: then, and only then, it queues the closure that hands the bytes
    to [LoadAvatar].  In every other case it returns the world as it found
    it: no cache write, no apply call, no further request, nothing queued. *)
Theorem C3_fetch_completion (h : Host) (id : FUniqueNetId) (http_code : Z)
    (data_ptr : option (list Z)) (data_size : N) (w : World) :
  let w' := on_avatar_response id http_code data_ptr data_size w in
  (forall buffer,
      http_code = 200 -> data_ptr = Some buffer -> data_size <> 0%N ->
      w' = Execute (AvatarDownloaded id (take (N.to_nat data_size) buffer)) w
      /\ run_task h (AvatarDownloaded id (take (N.to_nat data_size) buffer))
         = LoadAvatar h id (take (N.to_nat data_size) buffer))
  /\ (http_code <> 200 \/ data_ptr = None \/ data_size = 0%N ->
      w' = w
      /\ avatar_cache w' = avatar_cache w
      /\ game_thread w' = game_thread w
      /\ count is_apply (trace w') = count is_apply (trace w)
      /\ count is_request (trace w') = count is_request (trace w))
  /\ (w' <> w <-> http_code = 200 /\ data_ptr <> None /\ data_size <> 0%N).
Proof.
  intros w'. subst w'. unfold on_avatar_response. split; [| split].
  - intros buffer -> -> Hs. simpl.
    destruct (N.eqb_spec data_size 0); [contradiction |]. split; reflexivity.
  - intros H.
    assert (E : (if negb (http_code =? 200) then w
                 else match data_ptr with
                      | Some buffer =>
                          if (data_size =? 0)%N then w
                          else Execute (AvatarDownloaded id (take (N.to_nat data_size) buffer)) w
                      | None => w
                      end) = w).
    { destruct (Z.eqb_spec http_code 200) as [-> | Hc]; simpl; [| reflexivity].
      destruct data_ptr as [buffer |]; [| reflexivity].
      destruct (N.eqb_spec data_size 0); [reflexivity |].
      destruct H as [H | [H | H]]; congruence. }
    rewrite E. auto.
  - destruct (Z.eqb_spec http_code 200) as [-> | Hc]; simpl.
    + destruct data_ptr as [buffer |].
      * destruct (N.eqb_spec data_size 0) as [-> | Hs].
        -- split; [congruence | intros (_ & _ & H); congruence].
        -- split; [intros _; repeat split; congruence |].
           intros _ E. apply (f_equal game_thread) in E. simpl in E.
           apply (f_equal List.length) in E. rewrite length_app in E. simpl in E. lia.
      * split; [congruence | intros (_ & H & _); congruence].
    + split; [congruence | intros (H & _); congruence].
Qed.

(** C3 at a 404 and at a 200 with three bytes. *)
Lemma C3_fetch_completion_witness :
  on_avatar_response Examples.steam_id 404 (Some [1; 2; 3]) 3 Examples.empty_world
  = Examples.empty_world
  /\ game_thread (on_avatar_response Examples.steam_id 200 (Some [1; 2; 3]) 3
                    Examples.empty_world)
     = [AvatarDownloaded Examples.steam_id [1; 2; 3]].
Proof.
  split.
  - refine (proj1 (proj1 (proj2 (C3_fetch_completion Examples.host Examples.steam_id
              404 (Some [1; 2; 3]) 3 Examples.empty_world)) _)).
    left. discriminate.
  - rewrite (proj1 (proj1 (C3_fetch_completion Examples.host Examples.steam_id
               200 (Some [1; 2; 3]) 3 Examples.empty_world) [1; 2; 3]
               eq_refl eq_refl ltac:(discriminate))).
    reflexivity.
Defined.

End RemoteLoad.

Section CacheHit.
Import AvatarDownloader AvatarManager.

(** The requested identity is not the local one, as [LoadForPRI] tests it. *)
Lemma not_local_test (localId priId : FUniqueNetId) :
  Uid localId <> Uid priId \/ EpicAccountId localId <> EpicAccountId priId ->
  (Uid localId =? Uid priId)%N && String.eqb (EpicAccountId localId) (EpicAccountId priId)
  = false.
Proof.
  intros [H | H].
  - apply N.eqb_neq in H. now rewrite H.
  - apply String.eqb_neq in H. rewrite H. apply andb_false_r.
Qed.

(** A cache hit under the raw id string, for a platform other than Xbox:
    one apply call with the cached texture and nothing else. *)
Lemma LoadForPRI_cache_hit (h : Host) (pc : APlayerController_TA)
    (localPRI pri : APRI_TA) (tex : UTexture2DDynamic) (w : World) :
  gw_PlayerController h = Some pc ->
  PRI pc = Some localPRI ->
  Uid (UniqueId localPRI) <> Uid (UniqueId pri)
  \/ EpicAccountId (UniqueId localPRI) <> EpicAccountId (UniqueId pri) ->
  Platform (UniqueId pri) <> OnlinePlatform_Dingo ->
  GetCachedAvatar w (UniqueNetIdToString h (UniqueId pri)) = Some tex ->
  LoadForPRI h (Some pri) w = emit (CallSetAvatar (UniqueId pri) tex) w.
Proof.
  intros Hpc Hl Hne Hp Hc. unfold LoadForPRI.
  rewrite Hpc, Hl, (not_local_test _ _ Hne).
  rewrite bool_decide_eq_false_2 by exact Hp. now rewrite Hc.
Qed.

(** An Xbox identity is fetched by name whatever the cache holds. *)
Lemma LoadForPRI_xbox_always_fetches (h : Host) (pc : APlayerController_TA)
    (localPRI pri : APRI_TA) (w : World) :
  gw_PlayerController h = Some pc ->
  PRI pc = Some localPRI ->
  Uid (UniqueId localPRI) <> Uid (UniqueId pri)
  \/ EpicAccountId (UniqueId localPRI) <> EpicAccountId (UniqueId pri) ->
  Platform (UniqueId pri) = OnlinePlatform_Dingo ->
  LoadForPRI h (Some pri) w = DownloadXboxAvatar h (UniqueId pri) (PlayerName pri) w
  /\ count is_fetch (trace (LoadForPRI h (Some pri) w)) = S (count is_fetch (trace w))
  /\ count is_apply (trace (LoadForPRI h (Some pri) w)) = count is_apply (trace w).
Proof.
  intros Hpc Hl Hne Hp.
  assert (E : LoadForPRI h (Some pri) w
              = DownloadXboxAvatar h (UniqueId pri) (PlayerName pri) w).
  { unfold LoadForPRI. rewrite Hpc, Hl, (not_local_test _ _ Hne).
    now rewrite bool_decide_eq_true_2 by exact Hp. }
  rewrite E. split; [reflexivity |].
  unfold DownloadXboxAvatar. simpl. rewrite !count_snoc. simpl. split; lia.
Qed.

(** An avatar cached under a sanitized key that differs from the raw id
    string is not found: [LoadForPRI] calls the Fetcher again. *)
Lemma LoadForPRI_sanitized_key_miss (h : Host) (pc : APlayerController_TA)
    (localPRI pri : APRI_TA) (w : World) :
  gw_PlayerController h = Some pc ->
  PRI pc = Some localPRI ->
  Uid (UniqueId localPRI) <> Uid (UniqueId pri)
  \/ EpicAccountId (UniqueId localPRI) <> EpicAccountId (UniqueId pri) ->
  Platform (UniqueId pri) <> OnlinePlatform_Dingo ->
  keys_sanitized w ->
  contains_replaced (UniqueNetIdToString h (UniqueId pri)) = true ->
  LoadForPRI h (Some pri) w = DownloadAvatar h (UniqueId pri) w
  /\ count is_fetch (trace (LoadForPRI h (Some pri) w)) = S (count is_fetch (trace w)).
Proof.
  intros Hpc Hl Hne Hp Hs Hr.
  assert (E : LoadForPRI h (Some pri) w = DownloadAvatar h (UniqueId pri) w).
  { unfold LoadForPRI. rewrite Hpc, Hl, (not_local_test _ _ Hne).
    rewrite bool_decide_eq_false_2 by exact Hp.
    now rewrite (keys_sanitized_miss w _ Hs Hr). }
  rewrite E. split; [reflexivity |].
  unfold DownloadAvatar. destruct (is_empty _); simpl; rewrite !count_snoc; simpl; lia.
Qed.

(** C4 at its failing input.  After a first load of an Xbox identity has
    gone through, its avatar is resident; a second [LoadForPRI] for it still
    calls the Fetcher and sends a request, and makes no apply call. *)
Theorem C4_resident_xbox_key_is_fetched_again :
  let w := Examples.first_load Examples.xbox_pri Examples.one_pixel in
  let w' := LoadForPRI Examples.host (Some Examples.xbox_pri) w in
  IsAvatarCached w (cache_key Examples.host Examples.xbox_id) = true
  /\ trace w' = trace w ++
       [CallDownloadXboxAvatar Examples.xbox_id "Gamertag";
        SendCurlRequest "GET"
          "https://api.borgox.tech/api/v1/xbox/retrieve/Gamertag?default_enabled=true"
          None]
  /\ count is_fetch (trace w') = S (count is_fetch (trace w))
  /\ count is_request (trace w') = S (count is_request (trace w))
  /\ count is_normalize (trace w') = count is_normalize (trace w)
  /\ count is_apply (trace w') = count is_apply (trace w).
Proof. vm_compute. repeat split; reflexivity. Qed.

(** The same for a Steam identity, whose id string holds a vertical bar in
    the rendering of the examples: the avatar is resident under the
    sanitized key, the lookup under the raw string misses, and the second
    [LoadForPRI] calls the Fetcher again. *)
Lemma resident_steam_key_is_fetched_again :
  let w := Examples.first_load Examples.steam_pri Examples.one_pixel in
  let w' := LoadForPRI Examples.host (Some Examples.steam_pri) w in
  IsAvatarCached w (cache_key Examples.host Examples.steam_id) = true
  /\ GetCachedAvatar w (UniqueNetIdToString Examples.host Examples.steam_id) = None
  /\ count is_fetch (trace w') = S (count is_fetch (trace w))
  /\ count is_apply (trace w') = count is_apply (trace w).
Proof. vm_compute. repeat split; reflexivity. Qed.

End CacheHit.

(* ===================================================================== *)
(** * Upload completion                                                    *)
(* ===================================================================== *)

Section Upload.
Import AvatarDownloader AvatarManager.

Lemma filesystem_remove_present (path : string) (w : World) :
  path ∈ files w ->
  filesystem_remove path w
  = emit (FileRemoved path) (set_files (files w ∖ {[path]}) w).
Proof. intros H. unfold filesystem_remove. now rewrite bool_decide_eq_true_2. Qed.

Lemma filesystem_remove_absent (path : string) (w : World) :
  path ∉ files w -> filesystem_remove path w = w.
Proof. intros H. unfold filesystem_remove. now rewrite bool_decide_eq_false_2. Qed.

(** The completion lambda, for any callback: one [remove] of the staged
    file, then one call of the callback. *)
Lemma on_upload_response_unfold (filePath : string) (k : bool -> World -> World)
    (http_code : Z) (data : string) (w : World) :
  on_upload_response filePath (Some k) http_code data w
  = k (upload_success http_code data)
      (emit (CallUploadCallback (upload_success http_code data))
            (filesystem_remove filePath w)).
Proof.
  unfold on_upload_response, upload_success, invoke_upload_callback.
  destruct (negb (is_empty data) && (http_code =? 200)); reflexivity.
Qed.

(** C7 as stated fails.  Every upload is staged in the same file.  The
    viewer picks an avatar twice before the first upload is answered: two
    uploads are under way, and the completion of the first deletes the
    file.  The completion of the second then deletes nothing, while its
    callback is called. *)
Lemma C7_upload_completion_counterexample :
  count is_request (trace Scenarios.first_upload_answered) = 2%nat
  /\ count (is_removal_of GetBrightenedLocalAvatarPath)
       (trace Scenarios.first_upload_answered) = 1%nat
  /\ count is_upload_callback (trace Scenarios.first_upload_answered) = 1%nat
  /\ count (is_removal_of GetBrightenedLocalAvatarPath)
       (trace Scenarios.second_upload_answered) = 1%nat
  /\ count is_upload_callback (trace Scenarios.second_upload_answered) = 2%nat.
Proof. vm_compute. repeat split. Qed.

(** C7, amended.  When an upload started by [AddLocalAvatar] completes, with
    any status and any body, the success callback is called once and the
    staged file is not there afterwards.  The file is deleted once when it
    is still there (the second [remove], in the callback, finds no file),
    and not at all when it is gone already.  It is there right after the
    staging. *)
Theorem C7_upload_completion_amended (uniqueId : FUniqueNetId)
    (processedData : list Z) (http_code : Z) (data : string) (w : World) :
  let tempPath := GetBrightenedLocalAvatarPath in
  let w' := AddLocalAvatar_on_upload_response uniqueId processedData http_code data w in
  count is_upload_callback (trace w') = S (count is_upload_callback (trace w))
  /\ (tempPath ∉ files w')
  /\ (tempPath ∈ files w ->
      trace w' = trace w ++ [FileRemoved tempPath;
                             CallUploadCallback (upload_success http_code data)]
      /\ count (is_removal_of tempPath) (trace w')
         = S (count (is_removal_of tempPath) (trace w)))
  /\ (tempPath ∉ files w ->
      trace w' = trace w ++ [CallUploadCallback (upload_success http_code data)]
      /\ count (is_removal_of tempPath) (trace w')
         = count (is_removal_of tempPath) (trace w))
  /\ (forall h w0,
        Platform uniqueId = OnlinePlatform_Epic ->
        is_empty (EpicAccountId uniqueId) = false ->
        ofstream_open h tempPath = true ->
        tempPath ∈ files (AddLocalAvatar_apply h uniqueId processedData w0)).
Proof.
  intros tempPath w'.
  assert (Hpresent : tempPath ∈ files w ->
            w' = Execute (ApplyUploaded uniqueId processedData)
                   (emit (CallUploadCallback (upload_success http_code data))
                      (emit (FileRemoved tempPath)
                         (set_files (files w ∖ {[tempPath]}) w)))).
  { intros Hin. subst w'. unfold AddLocalAvatar_on_upload_response.
    rewrite on_upload_response_unfold. fold tempPath.
    rewrite (filesystem_remove_present tempPath w Hin).
    unfold AddLocalAvatar_uploaded.
    apply filesystem_remove_absent. simpl.
    rewrite elem_of_difference, elem_of_singleton. tauto. }
  assert (Habsent : tempPath ∉ files w ->
            w' = Execute (ApplyUploaded uniqueId processedData)
                   (emit (CallUploadCallback (upload_success http_code data)) w)).
  { intros Hout. subst w'. unfold AddLocalAvatar_on_upload_response.
    rewrite on_upload_response_unfold. fold tempPath.
    rewrite (filesystem_remove_absent tempPath w Hout).
    unfold AddLocalAvatar_uploaded.
    apply filesystem_remove_absent. exact Hout. }
  assert (Hsnoc2 : trace w ++ [FileRemoved tempPath;
                               CallUploadCallback (upload_success http_code data)]
                   = (trace w ++ [FileRemoved tempPath])
                       ++ [CallUploadCallback (upload_success http_code data)])
    by (now rewrite <- app_assoc).
  split; [| split; [| split; [| split]]].
  - destruct (decide (tempPath ∈ files w)) as [Hin | Hout].
    + rewrite (Hpresent Hin). simpl. rewrite !count_snoc. simpl. lia.
    + rewrite (Habsent Hout). simpl. rewrite count_snoc. simpl. lia.
  - destruct (decide (tempPath ∈ files w)) as [Hin | Hout].
    + rewrite (Hpresent Hin). simpl.
      rewrite elem_of_difference, elem_of_singleton. tauto.
    + rewrite (Habsent Hout). exact Hout.
  - intros Hin. rewrite (Hpresent Hin). simpl. rewrite <- app_assoc. simpl.
    split; [reflexivity |]. rewrite Hsnoc2, !count_snoc. simpl. lia.
  - intros Hout. rewrite (Habsent Hout). simpl.
    split; [reflexivity |]. rewrite count_snoc. simpl. lia.
  - intros h w0 Hp Hepic Ho. unfold AddLocalAvatar_apply.
    rewrite bool_decide_eq_true_2 by exact Hp. fold tempPath. rewrite Ho. simpl.
    unfold UploadToCDN. rewrite Hepic.
    assert (Ht : is_empty tempPath = false) by reflexivity.
    rewrite Ht. simpl. apply elem_of_union_l, elem_of_singleton. reflexivity.
Qed.

(** C7 at a failed upload (status 500, empty body) whose staged file is
    still there. *)
Lemma C7_upload_completion_amended_witness :
  trace (AddLocalAvatar_on_upload_response Examples.local_id [1; 2; 3] 500 EmptyString
           (create_file GetBrightenedLocalAvatarPath Examples.empty_world))
  = [FileRemoved GetBrightenedLocalAvatarPath; CallUploadCallback false].
Proof.
  assert (Hin : GetBrightenedLocalAvatarPath
                ∈ files (create_file GetBrightenedLocalAvatarPath Examples.empty_world))
    by (simpl; apply elem_of_union_l, elem_of_singleton; reflexivity).
  exact (proj1 (proj1 (proj2 (proj2 (C7_upload_completion_amended Examples.local_id
           [1; 2; 3] 500 EmptyString
           (create_file GetBrightenedLocalAvatarPath Examples.empty_world)))) Hin)).
Defined.

(** An upload that [UploadToCDN] refuses (empty account string) sends no
    request; the callback is called once, with [false], and it is the
    callback that deletes the staged file. *)
Lemma refused_upload_cleans_up (h : Host) (uniqueId : FUniqueNetId)
    (processedData : list Z) (w : World) :
  Platform uniqueId = OnlinePlatform_Epic ->
  EpicAccountId uniqueId = "" ->
  ofstream_open h GetBrightenedLocalAvatarPath = true ->
  GetBrightenedLocalAvatarPath ∉ files w ->
  let w' := AddLocalAvatar_apply h uniqueId processedData w in
  trace w' = trace w ++ [CallUploadCallback false;
                         FileRemoved GetBrightenedLocalAvatarPath]
  /\ files w' = files w.
Proof.
  intros Hp He Ho Hn w'. subst w'. unfold AddLocalAvatar_apply.
  rewrite bool_decide_eq_true_2 by exact Hp. rewrite Ho, He.
  unfold negb, UploadToCDN, invoke_upload_callback.
  change (is_empty "") with true. rewrite orb_true_r.
  unfold AddLocalAvatar_uploaded.
  rewrite filesystem_remove_present
    by (simpl; apply elem_of_union_l, elem_of_singleton; reflexivity).
  simpl. rewrite <- app_assoc. split; [reflexivity |].
  apply set_eq. intros x. rewrite elem_of_difference, elem_of_union, elem_of_singleton.
  split; [intros [[-> | Hx] Hne]; [contradiction | exact Hx] |].
  intros Hx. split; [now right | intros ->; contradiction].
Qed.

End Upload.

(* ===================================================================== *)
(** * The normalizer: [BrightenImage]                                     *)
(* ===================================================================== *)

Section Normalizer.
Import AvatarManager.

(** A property checked on each of the 256 byte values holds of every byte. *)
Lemma byte_cases (P : Z -> bool) :
  forallb P (seqZ 0 256) = true -> forall v, 0 <= v <= 255 -> P v = true.
Proof.
  intros H v Hv. rewrite forallb_forall in H. apply H.
  apply list_elem_of_In, elem_of_seqZ. lia.
Qed.

(** The table holds the integer part of [255 * (v / 255) ^ (5/11)]. *)
Lemma srgb_at_floor (v : Z) :
  0 <= v <= 255 ->
  0 <= srgb_at v <= 255
  /\ srgb_at v ^ 11 <= 255 ^ 6 * v ^ 5 < (srgb_at v + 1) ^ 11.
Proof.
  intros Hv.
  pose proof (byte_cases
    (fun v => (0 <=? srgb_at v) && (srgb_at v <=? 255)
              && (srgb_at v ^ 11 <=? 255 ^ 6 * v ^ 5)
              && (255 ^ 6 * v ^ 5 <? (srgb_at v + 1) ^ 11))
    ltac:(vm_compute; reflexivity) v Hv) as H.
  simpl in H. repeat (apply andb_true_iff in H as [H ?]). lia.
Qed.

(** Strictly between 0 and 255 the exact value stays 0.003 clear of the
    integers on either side of it. *)
Lemma srgb_entry_margin (v : Z) :
  0 < v < 255 ->
  (1000 * srgb_at v + 3) ^ 11 <= 1000 ^ 11 * (255 ^ 6 * v ^ 5)
  /\ 1000 ^ 11 * (255 ^ 6 * v ^ 5) <= (1000 * (srgb_at v + 1) - 3) ^ 11.
Proof.
  intros Hv.
  pose proof (byte_cases
    (fun v => (v =? 0) || (v =? 255)
              || (((1000 * srgb_at v + 3) ^ 11 <=? 1000 ^ 11 * (255 ^ 6 * v ^ 5))
                  && (1000 ^ 11 * (255 ^ 6 * v ^ 5) <=? (1000 * (srgb_at v + 1) - 3) ^ 11)))
    ltac:(vm_compute; reflexivity) v ltac:(lia)) as H.
  simpl in H. apply orb_true_iff in H as [H | H].
  - apply orb_true_iff in H as [H | H]; lia.
  - apply andb_true_iff in H as [H1 H2]. lia.
Qed.

(** The table never decreases. *)
Lemma srgb_at_monotone (u v : Z) :
  0 <= u -> u <= v -> v <= 255 -> srgb_at u <= srgb_at v.
Proof.
  intros Hu Huv Hv.
  assert (Hstep : forall x, 0 <= x <= 254 -> srgb_at x <= srgb_at (x + 1)).
  { intros x Hx.
    pose proof (byte_cases
      (fun x => (x =? 255) || (srgb_at x <=? srgb_at (x + 1)))
      ltac:(vm_compute; reflexivity) x ltac:(lia)) as H.
    simpl in H. apply orb_true_iff in H as [H | H]; lia. }
  replace v with (u + Z.of_nat (Z.to_nat (v - u))) in * by lia.
  induction (Z.to_nat (v - u)) as [| n IH]; [rewrite Z.add_0_r; lia |].
  rewrite Nat2Z.inj_succ in *.
  replace (u + Z.succ (Z.of_nat n)) with (u + Z.of_nat n + 1) in * by lia.
  etransitivity; [apply IH; lia | apply Hstep; lia].
Qed.

(** C6. The table brightens: a byte below 255 is mapped to a value at least
    as large, 255 to 255 and 0 to 0. *)
Theorem C6_gamma_brightens (v : Z) :
  0 <= v <= 255 ->
  (v < 255 -> v <= srgb_at v) /\ srgb_at 255 = 255 /\ srgb_at 0 = 0.
Proof.
  intros Hv. split; [| split; reflexivity].
  intros _.
  pose proof (byte_cases (fun v => v <=? srgb_at v)
                ltac:(vm_compute; reflexivity) v Hv) as H.
  simpl in H. lia.
Qed.

(** C6 at the byte 64, which becomes 136. *)
Lemma C6_gamma_brightens_witness : 64 <= srgb_at 64 /\ srgb_at 64 = 136.
Proof.
  split; [| reflexivity].
  apply (proj1 (C6_gamma_brightens 64 ltac:(lia))). lia.
Defined.

Lemma wrap_int_small (z : Z) : 0 <= z <= INT_MAX -> wrap_int z = z.
Proof.
  unfold wrap_int, INT_MAX. intros H.
  rewrite Z.mod_small by lia. lia.
Qed.

Lemma brighten_sample_lookup (buf : list Z) (idx : Z) (j : nat) :
  0 <= idx ->
  brighten_sample buf idx !! j
  = if decide (Z.of_nat j = idx) then srgb_at <$> buf !! j else buf !! j.
Proof.
  intros Hidx. unfold brighten_sample.
  destruct (decide (Z.of_nat j = idx)) as [<- | Hne].
  - rewrite Nat2Z.id. destruct (buf !! j) as [b |] eqn:E; simpl.
    + rewrite list_lookup_insert_eq by (eapply lookup_lt_Some; exact E).
      f_equal. f_equal. now apply list_lookup_total_correct.
    + apply lookup_ge_None. rewrite length_insert. now apply lookup_ge_None.
  - apply list_lookup_insert_ne. lia.
Qed.

(** The inner loop after [n] channels of pixel [i]. *)
Lemma brighten_channels_lookup (channels i : Z) (n : nat) (buf : list Z) (j : nat) :
  0 <= i -> 0 <= channels ->
  foldl (fun buf c =>
           if c <? 3 then brighten_sample buf (i * channels + c) else buf)
        buf (seqZ 0 (Z.of_nat n)) !! j
  = if decide (i * channels <= Z.of_nat j < i * channels + Z.of_nat n
               /\ Z.of_nat j - i * channels < 3)
    then srgb_at <$> buf !! j else buf !! j.
Proof.
  intros Hi Hc. induction n as [| n IH].
  - simpl. destruct (decide _); [lia | reflexivity].
  - rewrite seqZ_S, foldl_app. simpl. rewrite Z.add_0_l.
    destruct (Z.ltb_spec (Z.of_nat n) 3) as [Hlt | Hge].
    + rewrite brighten_sample_lookup by nia. rewrite IH.
      repeat destruct (decide _); try lia; reflexivity.
    + rewrite IH. repeat destruct (decide _); try lia; reflexivity.
Qed.

Lemma brighten_pixel_lookup (channels i : Z) (buf : list Z) (j : nat) :
  0 <= i -> 0 <= channels ->
  brighten_pixel channels buf i !! j
  = if decide (i * channels <= Z.of_nat j < i * channels + channels
               /\ Z.of_nat j - i * channels < 3)
    then srgb_at <$> buf !! j else buf !! j.
Proof.
  intros Hi Hc.
  pose proof (brighten_channels_lookup channels i (Z.to_nat channels) buf j Hi Hc) as E.
  rewrite Z2Nat.id in E by exact Hc. exact E.
Qed.

(** The outer loop after [m] pixels. *)
Lemma brighten_pixels_lookup (channels : Z) (m : nat) (buf : list Z) (j : nat) :
  0 < channels ->
  foldl (brighten_pixel channels) buf (seqZ 0 (Z.of_nat m)) !! j
  = if decide (Z.of_nat j < Z.of_nat m * channels
               /\ Z.of_nat j `mod` channels < 3)
    then srgb_at <$> buf !! j else buf !! j.
Proof.
  intros Hc. induction m as [| m IH].
  - simpl. destruct (decide _); [lia | reflexivity].
  - rewrite seqZ_S, foldl_app. simpl. rewrite Z.add_0_l.
    rewrite brighten_pixel_lookup by lia. rewrite IH.
    destruct (decide (Z.of_nat m * channels <= Z.of_nat j
                      < Z.of_nat m * channels + channels)) as [Hin | Hout].
    + assert (Hmod : Z.of_nat j `mod` channels = Z.of_nat j - Z.of_nat m * channels).
      { symmetry. apply (Z.mod_unique_pos _ _ (Z.of_nat m)); lia. }
      rewrite Hmod. repeat destruct (decide _); try lia; reflexivity.
    + repeat destruct (decide _); try lia; try reflexivity.
Qed.

Lemma brighten_pixel_length (channels : Z) (buf : list Z) (i : Z) :
  List.length (brighten_pixel channels buf i) = List.length buf.
Proof.
  unfold brighten_pixel. generalize (seqZ 0 channels). intros l.
  revert buf. induction l as [| c l IH]; intros buf; simpl; [reflexivity |].
  rewrite IH. destruct (c <? 3); [apply length_insert | reflexivity].
Qed.

Lemma apply_gamma_length (channels totalPixels : Z) (buf : list Z) :
  List.length (apply_gamma channels totalPixels buf) = List.length buf.
Proof.
  unfold apply_gamma. generalize (seqZ 0 (totalPixels `quot` channels)). intros l.
  revert buf. induction l as [| i l IH]; intros buf; simpl; [reflexivity |].
  rewrite IH. apply brighten_pixel_length.
Qed.

(** The pixel loop on a whole image: each sample of the first three
    channels goes through the table, every other sample stays. *)
Lemma apply_gamma_lookup (w h channels : Z) (buf : list Z) (j : nat) (b : Z) :
  0 <= w -> 0 <= h -> 0 < channels ->
  List.length buf = Z.to_nat (w * h * channels) ->
  buf !! j = Some b ->
  apply_gamma channels (w * h * channels) buf !! j
  = Some (expected_sample channels j b).
Proof.
  intros Hw Hh Hc Hlen Hj. unfold apply_gamma, expected_sample.
  rewrite Z.quot_mul by lia.
  replace (w * h) with (Z.of_nat (Z.to_nat (w * h))) at 1 by nia.
  rewrite brighten_pixels_lookup by exact Hc.
  rewrite Z2Nat.id by nia. rewrite Hj. simpl.
  apply lookup_lt_Some in Hj. rewrite Hlen in Hj.
  destruct (Z.ltb_spec (Z.of_nat j `mod` channels) 3);
    destruct (decide _); try reflexivity; lia.
Qed.

End Normalizer.

Section Brightness.
Import AvatarManager.

(** C5 as stated fails.  The byte 1 goes to 20, the integer part of
    20.54..., whereas rounding gives 21: a one-pixel RGB image with the
    samples 1, 1, 1 comes out as 20, 20, 20. *)
Lemma C5_rounding_counterexample :
  BrightenImage Examples.toy_load Examples.toy_write [1; 1; 3; 1; 1; 1] (Some true)
  = Ok [1; 1; 3; 20; 20; 20]
  /\ srgb_at 1 = 20
  /\ gamma_rounded 1 = 21
  /\ (2 * 21 - 1) ^ 11 <= 2 ^ 11 * (255 ^ 6 * 1 ^ 5) < (2 * 21 + 1) ^ 11
  /\ srgb_at 1 <> gamma_rounded 1.
Proof.
  split; [reflexivity |]. split; [reflexivity |]. split; [reflexivity |].
  split; [vm_compute; split; [discriminate | reflexivity] |].
  vm_compute. discriminate.
Qed.

(** C5, amended.  With a flag other than present-and-false, [BrightenImage]
    decodes the image, sends every sample of the first three channels of
    every pixel through the table, leaves the samples of a fourth channel as
    they are, and re-encodes.  The table entry for [v] is the integer part
    (not the nearest integer) of [255 * (v / 255) ^ (5/11)]. *)
Theorem C5_gamma_truncates
    (load : list Z -> Z -> option Decoded)
    (write : Z -> Z -> Z -> list Z -> Z -> option (list Z))
    (pngData : list Z) (d : Decoded) (flag : option bool) :
  flag <> Some false ->
  load pngData 0 = Some d ->
  0 <= width d -> 0 <= height d -> 0 < channels_in_file d ->
  width d * height d * channels_in_file d <= INT_MAX ->
  List.length (pixels d) = Z.to_nat (width d * height d * channels_in_file d) ->
  let corrected :=
    apply_gamma (channels_in_file d)
      (width d * height d * channels_in_file d) (pixels d) in
  BrightenImage load write pngData flag
  = match write (width d) (height d) (channels_in_file d) corrected
            (wrap_int (width d * channels_in_file d)) with
    | None => Throw "Failed to recompress PNG data"
    | Some recompressedData => Ok recompressedData
    end
  /\ List.length corrected = List.length (pixels d)
  /\ (forall j b, pixels d !! j = Some b ->
                  corrected !! j = Some (expected_sample (channels_in_file d) j b))
  /\ (forall j b, pixels d !! j = Some b ->
                  3 <= Z.of_nat j `mod` channels_in_file d -> corrected !! j = Some b)
  /\ (forall v, 0 <= v <= 255 ->
                0 <= srgb_at v <= 255
                /\ srgb_at v ^ 11 <= 255 ^ 6 * v ^ 5 < (srgb_at v + 1) ^ 11).
Proof.
  intros Hflag Hload Hw Hh Hc Hmax Hlen corrected.
  split; [| split; [| split; [| split]]].
  - unfold BrightenImage.
    assert (E : match flag with Some enabled => negb enabled | None => false end = false).
    { destruct flag as [[|] |]; try reflexivity. congruence. }
    rewrite E. unfold brighten_gamma. rewrite Hload.
    rewrite (wrap_int_small (width d * height d * channels_in_file d)) by nia.
    reflexivity.
  - apply apply_gamma_length.
  - intros j b Hj. now apply apply_gamma_lookup.
  - intros j b Hj Hge. unfold corrected.
    rewrite (apply_gamma_lookup _ _ _ _ j b) by assumption.
    unfold expected_sample.
    destruct (Z.ltb_spec (Z.of_nat j `mod` channels_in_file d) 3); [lia | reflexivity].
  - apply srgb_at_floor.
Qed.

(** C5, amended, at a one-pixel RGBA image: the three colour samples are
    brightened, the alpha sample 200 is kept. *)
Lemma C5_gamma_truncates_witness :
  BrightenImage Examples.toy_load Examples.toy_write Examples.one_pixel (Some true)
  = Ok [1; 1; 4; 20; 136; 186; 200].
Proof.
  rewrite (proj1 (C5_gamma_truncates Examples.toy_load Examples.toy_write
             Examples.one_pixel
             {| width := 1; height := 1; channels_in_file := 4;
                pixels := [1; 64; 128; 200] |}
             (Some true) ltac:(discriminate) eq_refl ltac:(simpl; lia)
             ltac:(simpl; lia) ltac:(simpl; lia)
             ltac:(unfold INT_MAX; simpl; lia) eq_refl)).
  reflexivity.
Defined.

(** C9. [GetBrightnessEnabled] yields a null flag exactly when the cvar
    manager or the brightness cvar is missing.  With a null flag
    [BrightenImage] takes the gamma path, as with a true flag; only a flag
    that is present and false takes the re-encode path. *)
Theorem C9_null_flag_brightens (h : Host)
    (load : list Z -> Z -> option Decoded)
    (write : Z -> Z -> Z -> list Z -> Z -> option (list Z))
    (pngData : list Z) :
  (GetBrightnessEnabled h = None <->
     globalCvarManager h = None
     \/ exists manager, globalCvarManager h = Some manager
                        /\ manager !! CVAR_BRIGHTNESS_ADJUSTMENT_ENABLED = None)
  /\ BrightenImage load write pngData None = brighten_gamma load write pngData
  /\ BrightenImage load write pngData None = BrightenImage load write pngData (Some true)
  /\ BrightenImage load write pngData (Some false) = reencode_unchanged load write pngData
  /\ (forall flag, flag <> Some false ->
                   BrightenImage load write pngData flag = brighten_gamma load write pngData).
Proof.
  split; [| repeat split].
  - unfold GetBrightnessEnabled. split.
    + destruct (globalCvarManager h) as [m |]; [| now left].
      destruct (m !! CVAR_BRIGHTNESS_ADJUSTMENT_ENABLED) eqn:E; [discriminate |].
      intros _. right. exists m. auto.
    + intros [-> | (m & -> & ->)]; reflexivity.
  - intros [[|] |] H; try reflexivity. congruence.
Qed.

(** C9 at a host whose brightness cvar is not registered: the flag is null
    and the image is brightened, where a false flag keeps the samples. *)
Lemma C9_null_flag_brightens_witness :
  GetBrightnessEnabled Examples.host_without_brightness = None
  /\ BrightenImage Examples.toy_load Examples.toy_write Examples.one_pixel
       (GetBrightnessEnabled Examples.host_without_brightness)
     = Ok [1; 1; 4; 20; 136; 186; 200]
  /\ BrightenImage Examples.toy_load Examples.toy_write Examples.one_pixel (Some false)
     = Ok [1; 1; 4; 1; 64; 128; 200].
Proof.
  pose proof (C9_null_flag_brightens Examples.host_without_brightness
                Examples.toy_load Examples.toy_write Examples.one_pixel)
    as (Hnull & Hgamma & _ & Hplain & _).
  assert (E : GetBrightnessEnabled Examples.host_without_brightness = None).
  { apply Hnull. right. eexists. split; reflexivity. }
  split; [exact E |]. split.
  - rewrite E, Hgamma. reflexivity.
  - rewrite Hplain. reflexivity.
Defined.

End Brightness.

(* ===================================================================== *)
(** * Further properties: sanitized names                                 *)
(* ===================================================================== *)

Section SanitizedNames.

(** X1. [SanitizeFilename] keeps the length of the name, keeps every
    character it does not replace, puts an underscore where it replaces one,
    leaves no replaced character behind, and changes nothing when applied a
    second time. *)
Theorem X1_SanitizeFilename_normal_form (s : string) :
  String.length (SanitizeFilename s) = String.length s
  /\ (forall i c, String.get i s = Some c ->
        String.get i (SanitizeFilename s)
        = Some (if is_replaced c then "_"%char else c))
  /\ contains_replaced (SanitizeFilename s) = false
  /\ SanitizeFilename (SanitizeFilename s) = SanitizeFilename s.
Proof.
  split; [apply SanitizeFilename_length |].
  split; [| split; [apply SanitizeFilename_clean | apply SanitizeFilename_idempotent]].
  intros i c H. rewrite SanitizeFilename_get, H. reflexivity.
Qed.

(** X1 on a name with a slash, a colon and a control character. *)
Lemma X1_SanitizeFilename_normal_form_witness :
  String.get 1 (SanitizeFilename (String "a" (String "/" (String "010" "b:c"))))
  = Some "_"%char
  /\ SanitizeFilename (String "a" (String "/" (String "010" "b:c"))) = "a__b_c".
Proof.
  split; [| reflexivity].
  exact (proj1 (proj2 (X1_SanitizeFilename_normal_form
           (String "a" (String "/" (String "010" "b:c"))))) 1%nat "/"%char eq_refl).
Defined.

End SanitizedNames.

(* ===================================================================== *)
(** * Further properties: the cache over whole runs                       *)
(* ===================================================================== *)

Section Runs.
Import AvatarDownloader AvatarManager.

Lemma stage_and_apply_entries (h : Host) (id : FUniqueNetId) (idString : string)
    (bytes : list Z) (w : World) (k : string) (v : option UTexture2DDynamic) :
  avatar_cache (stage_and_apply h id idString bytes w) !! k = Some v ->
  avatar_cache w !! k = Some v \/ (k = idString /\ exists tex, v = Some tex).
Proof.
  intros H. destruct (decide (k = idString)) as [-> | Hne].
  - destruct (stage_and_apply_own_key h id idString bytes w) as [E | [tex E]].
    + left. now rewrite <- E.
    + right. split; [reflexivity |]. exists tex.
      rewrite E, lookup_insert_eq in H. congruence.
  - left. now rewrite stage_and_apply_other_keys in H.
Qed.

Lemma LoadAvatar_entries (h : Host) (id : FUniqueNetId) (data : list Z) (w : World)
    (k : string) (v : option UTexture2DDynamic) :
  avatar_cache (LoadAvatar h id data w) !! k = Some v ->
  avatar_cache w !! k = Some v \/ (k = cache_key h id /\ exists tex, v = Some tex).
Proof.
  unfold LoadAvatar, call_BrightenImage. fold (cache_key h id).
  destruct (avatar_cache w !! cache_key h id) as [[tex |] |]; simpl;
    try (intros H; left; exact H);
    destruct (BrightenImage _ _ _ _); simpl;
    try (intros H; left; exact H);
    intros H; apply stage_and_apply_entries in H; exact H.
Qed.

Lemma LoadAvatarDirect_entries (h : Host) (id : FUniqueNetId) (idString : string)
    (data : list Z) (force : bool) (w : World)
    (k : string) (v : option UTexture2DDynamic) :
  avatar_cache (LoadAvatarDirect h id idString data force w) !! k = Some v ->
  avatar_cache w !! k = Some v \/ (k = idString /\ exists tex, v = Some tex).
Proof.
  unfold LoadAvatarDirect. destruct force; simpl.
  - apply stage_and_apply_entries.
  - destruct (avatar_cache w !! idString) as [[tex |] |]; simpl;
      try (intros H; left; exact H); apply stage_and_apply_entries.
Qed.

Lemma cache_LoadForPRI (h : Host) (pri : option APRI_TA) (w : World) :
  avatar_cache (LoadForPRI h pri w) = avatar_cache w.
Proof.
  unfold LoadForPRI.
  destruct (gw_PlayerController h) as [pc |]; [| reflexivity].
  destruct pri as [pri |]; [| reflexivity].
  destruct (PRI pc) as [localPRI |]; [| reflexivity].
  destruct (_ && _); [reflexivity |].
  case_bool_decide as Hp; [reflexivity |].
  destruct (GetCachedAvatar w _); [reflexivity |].
  unfold DownloadAvatar. destruct (is_empty _); reflexivity.
Qed.

Lemma cache_on_avatar_response (id : FUniqueNetId) (http_code : Z)
    (data_ptr : option (list Z)) (data_size : N) (w : World) :
  avatar_cache (on_avatar_response id http_code data_ptr data_size w) = avatar_cache w.
Proof.
  unfold on_avatar_response. destruct (negb _); [reflexivity |].
  destruct data_ptr; [| reflexivity]. destruct (_ =? _)%N; reflexivity.
Qed.

Lemma cache_AddLocalAvatar (h : Host) (filePath : string) (w : World) :
  avatar_cache (AddLocalAvatar h filePath w) = avatar_cache w.
Proof.
  unfold AddLocalAvatar, call_BrightenImage.
  destruct (_ || _); [reflexivity |].
  destruct (invalid_UniqueID _); [reflexivity |].
  destruct (read_file h filePath); [| reflexivity].
  destruct (BrightenImage _ _ _ _); reflexivity.
Qed.

Lemma cache_upload_response (uniqueId : FUniqueNetId) (processedData : list Z)
    (http_code : Z) (data : string) (w : World) :
  avatar_cache (AddLocalAvatar_on_upload_response uniqueId processedData http_code data w)
  = avatar_cache w.
Proof.
  unfold AddLocalAvatar_on_upload_response.
  rewrite on_upload_response_unfold. unfold AddLocalAvatar_uploaded.
  rewrite cache_filesystem_remove. simpl. apply cache_filesystem_remove.
Qed.

Lemma well_formed_same_cache (w w' : World) :
  avatar_cache w' = avatar_cache w -> cache_well_formed w -> cache_well_formed w'.
Proof. intros E H k v Hk. rewrite E in Hk. exact (H k v Hk). Qed.

Lemma well_formed_run_task (h : Host) (task : GameTask) (w : World) :
  cache_well_formed w -> cache_well_formed (run_task h task w).
Proof.
  intros Hw k v H. destruct task as [id data | id data | id data]; simpl in H.
  - apply LoadAvatar_entries in H as [H | [-> [tex ->]]]; [exact (Hw k v H) |].
    split; [apply SanitizeFilename_clean | eauto].
  - unfold AddLocalAvatar_apply in H. case_bool_decide as Hp.
    + destruct (ofstream_open h _); simpl in H; [| exact (Hw k v H)].
      unfold UploadToCDN in H. destruct (_ || _); simpl in H; [| exact (Hw k v H)].
      unfold AddLocalAvatar_uploaded in H.
      rewrite cache_filesystem_remove in H. exact (Hw k v H).
    + apply LoadAvatarDirect_entries in H as [H | [-> [tex ->]]]; [exact (Hw k v H) |].
      split; [apply SanitizeFilename_clean | eauto].
  - apply LoadAvatarDirect_entries in H as [H | [-> [tex ->]]]; [exact (Hw k v H) |].
    split; [apply SanitizeFilename_clean | eauto].
Qed.

Lemma well_formed_perform (h : Host) (a : Action) (w : World) :
  cache_well_formed w -> cache_well_formed (perform h a w).
Proof.
  intros Hw. destruct a; simpl.
  - eapply well_formed_same_cache; [apply cache_LoadForPRI | exact Hw].
  - eapply well_formed_same_cache; [apply cache_on_avatar_response | exact Hw].
  - unfold game_tick. destruct (game_thread w) as [| task rest]; [exact Hw |].
    apply well_formed_run_task. exact Hw.
  - eapply well_formed_same_cache; [apply cache_AddLocalAvatar | exact Hw].
  - eapply well_formed_same_cache; [apply cache_upload_response | exact Hw].
  - unfold RemoveLocalAvatar. destruct (_ || _); [exact Hw |].
    destruct (invalid_UniqueID _); [exact Hw |].
    destruct (vman_GetAvatar h _); [| exact Hw].
    intros k v H. simpl in H.
    apply lookup_delete_Some in H as [_ H]. exact (Hw k v H).
  - intros k v H. simpl in H. rewrite lookup_empty in H. discriminate H.
Qed.

Lemma well_formed_run (steps : list (Host * Action)) (w : World) :
  cache_well_formed w -> cache_well_formed (run steps w).
Proof.
  revert w. induction steps as [| [h a] steps IH]; intros w Hw; [exact Hw |].
  simpl. apply IH. now apply well_formed_perform.
Qed.

Lemma well_formed_reachable (steps : list (Host * Action)) :
  cache_well_formed (run steps initial_world).
Proof.
  apply well_formed_run. intros k v H. simpl in H.
  rewrite lookup_empty in H. discriminate H.
Qed.

(** X2. Whatever the plugin, the network and the game thread do, in any
    order and with any hosts, every key of the cache is a sanitized string
    and no entry holds a null texture.  So [IsAvatarCached] and
    [GetCachedAvatar] answer alike, and both say whether the key is there. *)
Theorem X2_cache_well_formed_on_every_run (steps : list (Host * Action)) (k : string) :
  let w := run steps initial_world in
  cache_well_formed w
  /\ (IsAvatarCached w k = true <-> exists tex, GetCachedAvatar w k = Some tex)
  /\ (IsAvatarCached w k = false <-> avatar_cache w !! k = None).
Proof.
  intros w.
  assert (Hw : cache_well_formed w) by apply well_formed_reachable.
  split; [exact Hw |].
  unfold IsAvatarCached, GetCachedAvatar.
  destruct (avatar_cache w !! k) as [[tex |] |] eqn:E.
  - split; split; eauto; discriminate.
  - destruct (Hw k None E) as [_ [tex Ht]]. discriminate Ht.
  - split; split; try reflexivity; try discriminate.
    intros [tex Ht]. discriminate Ht.
Qed.

(** X2 after a first load of a Steam player has gone through. *)
Lemma X2_cache_well_formed_on_every_run_witness :
  let steps :=
    [ (Examples.host, ActLoadForPRI (Some Examples.steam_pri));
      (Examples.host, ActAvatarResponse Examples.steam_id 200
                        (Some Examples.one_pixel) 7);
      (Examples.host, ActGameTick) ] in
  exists tex, GetCachedAvatar (run steps initial_world)
                (cache_key Examples.host Examples.steam_id) = Some tex.
Proof.
  intros steps.
  apply (proj1 (proj1 (proj2 (X2_cache_well_formed_on_every_run steps
                                (cache_key Examples.host Examples.steam_id))))).
  vm_compute. reflexivity.
Defined.

(** X3. On every run, an identity that is not the local one, not on Xbox,
    and whose id string holds a replaced character is never served from the
    cache: [LoadForPRI] goes to [DownloadAvatar] each time and makes no
    apply call. *)
Theorem X3_replaced_id_never_served_from_cache (steps : list (Host * Action))
    (h : Host) (pc : APlayerController_TA) (localPRI pri : APRI_TA) :
  gw_PlayerController h = Some pc ->
  PRI pc = Some localPRI ->
  differs_from_local localPRI pri ->
  Platform (UniqueId pri) <> OnlinePlatform_Dingo ->
  contains_replaced (UniqueNetIdToString h (UniqueId pri)) = true ->
  let w := run steps initial_world in
  LoadForPRI h (Some pri) w = DownloadAvatar h (UniqueId pri) w
  /\ count is_fetch (trace (LoadForPRI h (Some pri) w)) = S (count is_fetch (trace w))
  /\ count is_apply (trace (LoadForPRI h (Some pri) w)) = count is_apply (trace w).
Proof.
  intros Hpc Hl Hne Hp Hr w.
  assert (Hs : keys_sanitized w).
  { intros k v H. exact (proj1 (well_formed_reachable steps k v H)). }
  destruct (LoadForPRI_sanitized_key_miss h pc localPRI pri w Hpc Hl Hne Hp Hs Hr)
    as [E Hf].
  split; [exact E |]. split; [exact Hf |].
  rewrite E. unfold DownloadAvatar.
  destruct (is_empty _); simpl; rewrite !count_snoc; simpl; lia.
Qed.

(** X3 after a first load of a Steam player has gone through: the second
    request for the same player is the second call to the Fetcher. *)
Lemma X3_replaced_id_never_served_from_cache_witness :
  let steps :=
    [ (Examples.host, ActLoadForPRI (Some Examples.steam_pri));
      (Examples.host, ActAvatarResponse Examples.steam_id 200
                        (Some Examples.one_pixel) 7);
      (Examples.host, ActGameTick) ] in
  IsAvatarCached (run steps initial_world)
    (cache_key Examples.host Examples.steam_id) = true
  /\ count is_fetch
       (trace (LoadForPRI Examples.host (Some Examples.steam_pri)
                 (run steps initial_world))) = 2%nat.
Proof.
  intros steps. split; [vm_compute; reflexivity |].
  rewrite (proj1 (proj2 (X3_replaced_id_never_served_from_cache steps Examples.host
             {| PRI := Some Examples.local_pri |} Examples.local_pri Examples.steam_pri
             eq_refl eq_refl ltac:(left; discriminate) ltac:(discriminate) eq_refl))).
  vm_compute. reflexivity.
Defined.

End Runs.

(* ===================================================================== *)
(** * Further properties: loading a downloaded avatar                     *)
(* ===================================================================== *)

Section Loading.
Import AvatarDownloader AvatarManager.

Lemma not_cached_lookup (w : World) (k : string) :
  IsAvatarCached w k = false ->
  avatar_cache w !! k = None \/ avatar_cache w !! k = Some None.
Proof.
  unfold IsAvatarCached.
  destruct (avatar_cache w !! k) as [[tex |] |]; [discriminate | auto | auto].
Qed.

(** The files [stage_and_apply] leaves in the temp directory. *)
Lemma stage_and_apply_files (h : Host) (id : FUniqueNetId) (idString : string)
    (bytes : list Z) (w : World) :
  files (stage_and_apply h id idString bytes w)
  = if negb (ofstream_open h (GetTempAvatarPath idString)) then files w
    else if negb (ofstream_good h (GetTempAvatarPath idString))
         then {[GetTempAvatarPath idString]} ∪ files w
         else files w ∖ {[GetTempAvatarPath idString]}.
Proof.
  unfold stage_and_apply.
  set (path := GetTempAvatarPath idString).
  destruct (ofstream_open h path); simpl; [| reflexivity].
  destruct (ofstream_good h path); simpl; [| reflexivity].
  assert (Hin : path ∈ {[path]} ∪ files w)
    by (apply elem_of_union_l, elem_of_singleton; reflexivity).
  assert (Hset : ({[path]} ∪ files w) ∖ {[path]} = files w ∖ {[path]}).
  { apply set_eq. intros x.
    rewrite !elem_of_difference, elem_of_union, elem_of_singleton. tauto. }
  rewrite (bool_decide_eq_true_2 _ Hin). simpl.
  unfold filesystem_remove, create_file. simpl.
  rewrite (bool_decide_eq_true_2 _ Hin).
  destruct (LoadForCanvas h bytes); simpl; [| exact Hset].
  destruct (GetCanvasTex h bytes); simpl; exact Hset.
Qed.

(** [stage_and_apply] when every step goes through. *)
Lemma stage_and_apply_success (h : Host) (id : FUniqueNetId) (idString : string)
    (bytes : list Z) (tex : UTexture2DDynamic) (w : World) :
  staging_succeeds h idString bytes tex ->
  avatar_cache (stage_and_apply h id idString bytes w)
  = <[idString := Some tex]> (avatar_cache w)
  /\ trace (stage_and_apply h id idString bytes w)
     = trace w ++ [FileRemoved (GetTempAvatarPath idString); CallSetAvatar id tex]
  /\ game_thread (stage_and_apply h id idString bytes w) = game_thread w.
Proof.
  intros (Ho & Hg & Hl & Ht). unfold stage_and_apply.
  set (path := GetTempAvatarPath idString) in *.
  rewrite Ho, Hg. simpl.
  assert (Hin : path ∈ {[path]} ∪ files w)
    by (apply elem_of_union_l, elem_of_singleton; reflexivity).
  rewrite (bool_decide_eq_true_2 _ Hin). simpl. rewrite Hl, Ht. simpl.
  unfold filesystem_remove, create_file. simpl.
  rewrite (bool_decide_eq_true_2 _ Hin). simpl.
  rewrite <- app_assoc. auto.
Qed.

(** [LoadAvatar] on a miss that goes through. *)
Lemma LoadAvatar_miss_success (h : Host) (id : FUniqueNetId) (data bytes : list Z)
    (tex : UTexture2DDynamic) (w : World) :
  IsAvatarCached w (cache_key h id) = false ->
  BrightenImage (stbi_load_from_memory h) (stbi_write_png_to_func h) data
    (GetBrightnessEnabled h) = Ok bytes ->
  staging_succeeds h (cache_key h id) bytes tex ->
  avatar_cache (LoadAvatar h id data w) = <[cache_key h id := Some tex]> (avatar_cache w)
  /\ trace (LoadAvatar h id data w) = trace w ++
       [CallBrightenImage data (GetBrightnessEnabled h);
        FileRemoved (GetTempAvatarPath (cache_key h id));
        CallSetAvatar id tex]
  /\ game_thread (LoadAvatar h id data w) = game_thread w.
Proof.
  intros Hmiss Hb Hs.
  assert (E : LoadAvatar h id data w
              = stage_and_apply h id (cache_key h id) bytes
                  (emit (CallBrightenImage data (GetBrightnessEnabled h)) w)).
  { unfold LoadAvatar, call_BrightenImage. fold (cache_key h id).
    rewrite Hb. destruct (not_cached_lookup _ _ Hmiss) as [-> | ->]; reflexivity. }
  destruct (stage_and_apply_success h id (cache_key h id) bytes tex
              (emit (CallBrightenImage data (GetBrightnessEnabled h)) w) Hs)
    as (Hc & Ht & Hg).
  rewrite E. split; [exact Hc |]. split; [| exact Hg].
  rewrite Ht. simpl. now rewrite <- app_assoc.
Qed.

(** [stage_and_apply] when the temp file cannot be opened. *)
Lemma stage_and_apply_open_fails (h : Host) (id : FUniqueNetId) (idString : string)
    (bytes : list Z) (w : World) :
  ofstream_open h (GetTempAvatarPath idString) = false ->
  stage_and_apply h id idString bytes w = w.
Proof. intros Ho. unfold stage_and_apply. now rewrite Ho. Qed.

(** [stage_and_apply] sends no request. *)
Lemma stage_and_apply_no_request (h : Host) (id : FUniqueNetId) (idString : string)
    (bytes : list Z) (w : World) :
  count is_request (trace (stage_and_apply h id idString bytes w))
  = count is_request (trace w).
Proof.
  unfold stage_and_apply.
  set (path := GetTempAvatarPath idString).
  destruct (ofstream_open h path); simpl; [| reflexivity].
  destruct (ofstream_good h path); simpl; [| reflexivity].
  assert (Hin : path ∈ {[path]} ∪ files w)
    by (apply elem_of_union_l, elem_of_singleton; reflexivity).
  rewrite (bool_decide_eq_true_2 _ Hin). simpl.
  unfold filesystem_remove, create_file. simpl.
  rewrite (bool_decide_eq_true_2 _ Hin).
  destruct (LoadForCanvas h bytes); simpl; [| now rewrite count_snoc].
  destruct (GetCanvasTex h bytes); simpl; rewrite ?count_snoc; simpl;
    rewrite ?count_snoc; simpl; lia.
Qed.

(** [LoadAvatar] on a miss, with an image the Normalizer accepts, when the
    temp file cannot be opened. *)
Lemma LoadAvatar_miss_open_fails (h : Host) (id : FUniqueNetId) (data bytes : list Z)
    (w : World) :
  IsAvatarCached w (cache_key h id) = false ->
  BrightenImage (stbi_load_from_memory h) (stbi_write_png_to_func h) data
    (GetBrightnessEnabled h) = Ok bytes ->
  ofstream_open h (GetTempAvatarPath (cache_key h id)) = false ->
  LoadAvatar h id data w = emit (CallBrightenImage data (GetBrightnessEnabled h)) w.
Proof.
  intros Hmiss Hb Ho. unfold LoadAvatar, call_BrightenImage. fold (cache_key h id).
  rewrite Hb.
  destruct (not_cached_lookup _ _ Hmiss) as [-> | ->]; simpl;
    now apply stage_and_apply_open_fails.
Qed.

(** X4. A first [LoadAvatar] that goes through (the key is not cached, the
    image is processed, staging succeeds) calls the Normalizer once, removes
    its temp file, caches the texture under the sanitized key and applies
    it.  From then on the key is cached, and a further [LoadAvatar] for the
    identity, with any bytes, only applies the cached texture. *)
Theorem X4_LoadAvatar_insert_then_hit (h : Host) (id : FUniqueNetId)
    (data bytes : list Z) (tex : UTexture2DDynamic) (w : World) :
  IsAvatarCached w (cache_key h id) = false ->
  BrightenImage (stbi_load_from_memory h) (stbi_write_png_to_func h) data
    (GetBrightnessEnabled h) = Ok bytes ->
  staging_succeeds h (cache_key h id) bytes tex ->
  let w' := LoadAvatar h id data w in
  avatar_cache w' = <[cache_key h id := Some tex]> (avatar_cache w)
  /\ trace w' = trace w ++
       [CallBrightenImage data (GetBrightnessEnabled h);
        FileRemoved (GetTempAvatarPath (cache_key h id));
        CallSetAvatar id tex]
  /\ IsAvatarCached w' (cache_key h id) = true
  /\ GetCachedAvatar w' (cache_key h id) = Some tex
  /\ (forall data', LoadAvatar h id data' w' = emit (CallSetAvatar id tex) w').
Proof.
  intros Hmiss Hb Hs w'.
  assert (E : w' = stage_and_apply h id (cache_key h id) bytes
                     (emit (CallBrightenImage data (GetBrightnessEnabled h)) w)).
  { subst w'. unfold LoadAvatar, call_BrightenImage. fold (cache_key h id).
    rewrite Hb. destruct (not_cached_lookup _ _ Hmiss) as [-> | ->]; reflexivity. }
  destruct (stage_and_apply_success h id (cache_key h id) bytes tex
              (emit (CallBrightenImage data (GetBrightnessEnabled h)) w) Hs)
    as (Hc & Ht & _).
  rewrite <- E in Hc, Ht. simpl in Hc, Ht.
  assert (Hl : avatar_cache w' !! cache_key h id = Some (Some tex))
    by (rewrite Hc; apply lookup_insert_eq).
  split; [exact Hc |]. split; [rewrite Ht, <- app_assoc; reflexivity |].
  split; [unfold IsAvatarCached; now rewrite Hl |].
  split; [unfold GetCachedAvatar; now rewrite Hl |].
  intros data'. unfold LoadAvatar. fold (cache_key h id). now rewrite Hl.
Qed.

(** X4 at the example host. *)
Lemma X4_LoadAvatar_insert_then_hit_witness :
  let w' := LoadAvatar Examples.host Examples.steam_id Examples.one_pixel
              Examples.empty_world in
  GetCachedAvatar w' (cache_key Examples.host Examples.steam_id) = Some 7%positive
  /\ LoadAvatar Examples.host Examples.steam_id [] w'
     = emit (CallSetAvatar Examples.steam_id 7%positive) w'.
Proof.
  pose proof (X4_LoadAvatar_insert_then_hit Examples.host Examples.steam_id
                Examples.one_pixel [1; 1; 4; 20; 136; 186; 200] 7%positive
                Examples.empty_world eq_refl eq_refl
                (conj eq_refl (conj eq_refl (conj eq_refl eq_refl))))
    as (_ & _ & _ & Hget & Hhit).
  split; [exact Hget | exact (Hhit [])].
Defined.

(** X5. Bytes that do not decode make [BrightenImage] throw, whatever the
    flag; [LoadAvatar] catches it: the Normalizer call is all that happens,
    the cache and the temp directory stay as they were and nothing is
    applied. *)
Theorem X5_LoadAvatar_undecodable (h : Host) (id : FUniqueNetId) (data : list Z)
    (w : World) :
  stbi_load_from_memory h data 0 = None ->
  IsAvatarCached w (cache_key h id) = false ->
  (forall flag, exists what,
      BrightenImage (stbi_load_from_memory h) (stbi_write_png_to_func h) data flag
      = Throw what)
  /\ LoadAvatar h id data w
     = emit (CallBrightenImage data (GetBrightnessEnabled h)) w
  /\ avatar_cache (LoadAvatar h id data w) = avatar_cache w
  /\ files (LoadAvatar h id data w) = files w
  /\ count is_apply (trace (LoadAvatar h id data w)) = count is_apply (trace w).
Proof.
  intros Hload Hmiss.
  assert (Hthrow : forall flag, exists what,
             BrightenImage (stbi_load_from_memory h) (stbi_write_png_to_func h) data flag
             = Throw what).
  { intros flag. unfold BrightenImage, reencode_unchanged, brighten_gamma.
    rewrite Hload. destruct (match flag with Some _ => _ | None => _ end); eauto. }
  assert (E : LoadAvatar h id data w
              = emit (CallBrightenImage data (GetBrightnessEnabled h)) w).
  { unfold LoadAvatar, call_BrightenImage. fold (cache_key h id).
    destruct (Hthrow (GetBrightnessEnabled h)) as [what ->].
    destruct (not_cached_lookup _ _ Hmiss) as [-> | ->]; reflexivity. }
  split; [exact Hthrow |]. split; [exact E |]. rewrite E. simpl.
  repeat split. rewrite count_snoc. simpl. lia.
Qed.

(** X5 at bytes too short for the toy format. *)
Lemma X5_LoadAvatar_undecodable_witness :
  LoadAvatar Examples.host Examples.steam_id [1; 2] Examples.empty_world
  = emit (CallBrightenImage [1; 2] (Some true)) Examples.empty_world.
Proof.
  exact (proj1 (proj2 (X5_LoadAvatar_undecodable Examples.host Examples.steam_id
           [1; 2] Examples.empty_world eq_refl eq_refl))).
Defined.

(** X6. The temp file of [LoadAvatar].  A file is in the temp directory
    after the call only if it was there before, or it is the temp file of
    the identity and the write to it failed after the file was opened.  When
    the write is good the temp file is gone afterwards. *)
Theorem X6_LoadAvatar_temp_file (h : Host) (id : FUniqueNetId) (data : list Z)
    (w : World) :
  let path := GetTempAvatarPath (cache_key h id) in
  let w' := LoadAvatar h id data w in
  (forall p, p ∈ files w' ->
             p ∈ files w
             \/ (p = path /\ ofstream_open h path = true /\ ofstream_good h path = false))
  /\ (ofstream_good h path = true -> files w' ⊆ files w)
  /\ (forall bytes,
        IsAvatarCached w (cache_key h id) = false ->
        BrightenImage (stbi_load_from_memory h) (stbi_write_png_to_func h) data
          (GetBrightnessEnabled h) = Ok bytes ->
        ofstream_open h path = true ->
        (ofstream_good h path = true -> path ∉ files w')
        /\ (ofstream_good h path = false ->
            path ∈ files w' /\ avatar_cache w' = avatar_cache w
            /\ count is_apply (trace w') = count is_apply (trace w))).
Proof.
  intros path w'.
  assert (Hfiles : files w' = files w
                   \/ files w' = files (stage_and_apply h id (cache_key h id)
                                          (default [] (match BrightenImage
                                             (stbi_load_from_memory h)
                                             (stbi_write_png_to_func h) data
                                             (GetBrightnessEnabled h) with
                                             | Ok b => Some b | Throw _ => None end))
                                          (emit (CallBrightenImage data
                                                   (GetBrightnessEnabled h)) w))).
  { subst w'. unfold LoadAvatar, call_BrightenImage. fold (cache_key h id).
    destruct (avatar_cache w !! cache_key h id) as [[tex |] |]; simpl;
      try (left; reflexivity);
      destruct (BrightenImage _ _ _ _); simpl; auto. }
  split; [| split].
  - intros p Hp. destruct Hfiles as [E | E]; rewrite E in Hp; [now left |].
    rewrite stage_and_apply_files in Hp. fold path in Hp. simpl in Hp.
    destruct (ofstream_open h path); simpl in Hp; [| now left].
    destruct (ofstream_good h path); simpl in Hp.
    + apply elem_of_difference in Hp as [Hp _]. now left.
    + apply elem_of_union in Hp as [Hp | Hp]; [| now left].
      apply elem_of_singleton in Hp. right. auto.
  - intros Hg p Hp. destruct Hfiles as [E | E]; rewrite E in Hp; [exact Hp |].
    rewrite stage_and_apply_files in Hp. fold path in Hp. simpl in Hp.
    rewrite Hg in Hp. simpl in Hp.
    destruct (ofstream_open h path); simpl in Hp; [| exact Hp].
    apply elem_of_difference in Hp as [Hp _]. exact Hp.
  - intros bytes Hmiss Hb Ho.
    assert (E : w' = stage_and_apply h id (cache_key h id) bytes
                       (emit (CallBrightenImage data (GetBrightnessEnabled h)) w)).
    { subst w'. unfold LoadAvatar, call_BrightenImage. fold (cache_key h id).
      rewrite Hb. destruct (not_cached_lookup _ _ Hmiss) as [-> | ->]; reflexivity. }
    split.
    + intros Hg. rewrite E, stage_and_apply_files. fold path. rewrite Ho, Hg. simpl.
      rewrite elem_of_difference, elem_of_singleton. tauto.
    + intros Hg. split; [| split].
      * rewrite E, stage_and_apply_files. fold path. rewrite Ho, Hg. simpl.
        apply elem_of_union_l, elem_of_singleton. reflexivity.
      * rewrite E. unfold stage_and_apply. fold path. rewrite Ho, Hg. reflexivity.
      * rewrite E. unfold stage_and_apply. fold path. rewrite Ho, Hg. simpl.
        rewrite count_snoc. simpl. lia.
Qed.

(** X6 at the example host, where every write is good. *)
Lemma X6_LoadAvatar_temp_file_witness :
  files (LoadAvatar Examples.host Examples.steam_id Examples.one_pixel
           Examples.empty_world) ⊆ files Examples.empty_world.
Proof.
  exact (proj1 (proj2 (X6_LoadAvatar_temp_file Examples.host Examples.steam_id
           Examples.one_pixel Examples.empty_world)) eq_refl).
Defined.

(** X7. [LoadAvatarDirect] with [forceUpdate] does not look at the cache
    and stages the bytes at once.  When the staging goes through (the temp
    file opens and is written, the image loads and yields a texture), the
    new texture replaces what was cached under the key and is applied.
    When the temp file cannot be opened nothing changes, and what was
    cached stays.  Other keys are never touched.  Without [forceUpdate] a
    cached texture is applied as it is and nothing else changes. *)
Theorem X7_LoadAvatarDirect_force (h : Host) (id : FUniqueNetId) (idString : string)
    (bytes : list Z) (old : UTexture2DDynamic) (w : World) :
  avatar_cache w !! idString = Some (Some old) ->
  (forall tex, staging_succeeds h idString bytes tex ->
     avatar_cache (LoadAvatarDirect h id idString bytes true w)
     = <[idString := Some tex]> (avatar_cache w)
     /\ trace (LoadAvatarDirect h id idString bytes true w)
        = trace w ++ [FileRemoved (GetTempAvatarPath idString); CallSetAvatar id tex])
  /\ (ofstream_open h (GetTempAvatarPath idString) = false ->
      LoadAvatarDirect h id idString bytes true w = w)
  /\ (forall k, k <> idString ->
        avatar_cache (LoadAvatarDirect h id idString bytes true w) !! k
        = avatar_cache w !! k)
  /\ LoadAvatarDirect h id idString bytes false w = emit (CallSetAvatar id old) w.
Proof.
  intros Hold.
  split; [| split; [| split]].
  - intros tex Hs.
    destruct (stage_and_apply_success h id idString bytes tex w Hs) as (Hc & Ht & _).
    split; [exact Hc | exact Ht].
  - intros Ho. now apply stage_and_apply_open_fails.
  - intros k Hk. now apply LoadAvatarDirect_other_keys.
  - unfold LoadAvatarDirect. simpl. now rewrite Hold.
Qed.

(** X7 at a cache that holds texture 3 under the key. *)
Lemma X7_LoadAvatarDirect_force_witness :
  let w := {| avatar_cache := {[ "key" := Some 3%positive ]};
              files := ∅; game_thread := []; trace := [] |} in
  avatar_cache (LoadAvatarDirect Examples.host Examples.steam_id "key" [1] true w)
    !! "key" = Some (Some 7%positive)
  /\ trace (LoadAvatarDirect Examples.host Examples.steam_id "key" [1] false w)
     = [CallSetAvatar Examples.steam_id 3%positive].
Proof.
  intros w.
  assert (Hold : avatar_cache w !! "key" = Some (Some 3%positive))
    by (vm_compute; reflexivity).
  pose proof (X7_LoadAvatarDirect_force Examples.host Examples.steam_id "key" [1]
                3%positive w Hold) as (Hforce & _ & _ & Hplain).
  destruct (Hforce 7%positive (conj eq_refl (conj eq_refl (conj eq_refl eq_refl))))
    as [Hc _].
  split; [rewrite Hc; apply lookup_insert_eq |]. rewrite Hplain. reflexivity.
Defined.

End Loading.

(* ===================================================================== *)
(** * Further properties: the downloader                                  *)
(* ===================================================================== *)

Section Downloads.
Import AvatarDownloader AvatarManager.

(** An allowed identity of a platform other than Xbox has a URL. *)
Lemma GetURLForID_not_empty (h : Host) (id : FUniqueNetId) :
  IsAllowed h id = true -> Platform id <> OnlinePlatform_Dingo ->
  is_empty (GetURLForID h id) = false.
Proof.
  intros Ha Hp. unfold GetURLForID. rewrite Ha. simpl.
  unfold IsAllowed in Ha.
  destruct (Platform id); try reflexivity; [contradiction | discriminate].
Qed.

Lemma GetURLForID_xbox (h : Host) (id : FUniqueNetId) :
  Platform id = OnlinePlatform_Dingo -> GetURLForID h id = "".
Proof.
  intros Hp. unfold GetURLForID. rewrite Hp. destruct (negb _); reflexivity.
Qed.

(** X8. [DownloadAvatar] sends a request exactly when [IsAllowed] holds and
    the platform is not Xbox; it is then one GET of the URL of the identity.
    An Xbox identity gets no request from it even when its flag is on.  The
    cache, the temp directory and the game thread are not touched. *)
Theorem X8_DownloadAvatar_request (h : Host) (id : FUniqueNetId) (w : World) :
  let w' := DownloadAvatar h id w in
  trace w' = trace w ++
     CallDownloadAvatar id ::
     (if IsAllowed h id && negb (bool_decide (Platform id = OnlinePlatform_Dingo))
      then [SendCurlRequest "GET" (GetURLForID h id) None] else [])
  /\ (count is_request (trace w') = S (count is_request (trace w)) <->
      IsAllowed h id = true /\ Platform id <> OnlinePlatform_Dingo)
  /\ (count is_request (trace w') = count is_request (trace w) <->
      IsAllowed h id = false \/ Platform id = OnlinePlatform_Dingo)
  /\ avatar_cache w' = avatar_cache w
  /\ files w' = files w
  /\ game_thread w' = game_thread w.
Proof.
  intros w'. subst w'. unfold DownloadAvatar.
  destruct (IsAllowed h id) eqn:Ha; simpl.
  - case_bool_decide as Hp; simpl.
    + rewrite (GetURLForID_xbox h id Hp). simpl. rewrite count_snoc. simpl.
      split; [reflexivity |].
      split; [split; [lia | intros [_ Hn]; contradiction] |].
      split; [split; [intros _; right; exact Hp | intros _; lia] |].
      auto.
    + rewrite (GetURLForID_not_empty h id Ha Hp). simpl.
      rewrite <- app_assoc. simpl.
      replace (trace w ++ [CallDownloadAvatar id;
                           SendCurlRequest "GET" (GetURLForID h id) None])
        with ((trace w ++ [CallDownloadAvatar id])
                ++ [SendCurlRequest "GET" (GetURLForID h id) None])
        by (now rewrite <- app_assoc).
      rewrite !count_snoc. simpl.
      split; [now rewrite <- app_assoc |].
      split; [split; [intros _; split; [reflexivity | exact Hp] | intros _; lia] |].
      split; [split; [lia | intros [Hf | Hd]; [discriminate | contradiction]] |].
      auto.
  - assert (E : GetURLForID h id = "") by (unfold GetURLForID; now rewrite Ha).
    rewrite E. simpl. rewrite count_snoc. simpl.
    split; [reflexivity |].
    split; [split; [lia | intros [Hf _]; discriminate] |].
    split; [split; [intros _; left; reflexivity | intros _; lia] |].
    auto.
Qed.

(** X8 at a host with every flag off and at an allowed Steam identity. *)
Lemma X8_DownloadAvatar_request_witness :
  trace (DownloadAvatar Scenarios.all_disabled Examples.steam_id Examples.empty_world)
  = [CallDownloadAvatar Examples.steam_id]
  /\ count is_request
       (trace (DownloadAvatar Examples.host Examples.steam_id Examples.empty_world))
     = 1%nat.
Proof.
  pose proof (X8_DownloadAvatar_request Scenarios.all_disabled Examples.steam_id
                Examples.empty_world) as (H1 & _).
  pose proof (X8_DownloadAvatar_request Examples.host Examples.steam_id
                Examples.empty_world) as (_ & [_ H2] & _).
  assert (Ha : IsAllowed Examples.host Examples.steam_id = true)
    by (vm_compute; reflexivity).
  assert (Hp : Platform Examples.steam_id <> OnlinePlatform_Dingo) by discriminate.
  specialize (H2 (conj Ha Hp)).
  split.
  - vm_compute in H1. vm_compute. exact H1.
  - vm_compute in H2. vm_compute. exact H2.
Defined.

(** X9. The Xbox path of [LoadForPRI] never consults the policy: with a
    cvar manager in place, the request by name for a remote Xbox player is
    sent whether or not [IsAllowed] holds for the identity, so also when the
    Xbox flag is off or not registered. *)
Theorem X9_xbox_request_ignores_policy (h : Host) (manager : gmap string bool)
    (pc : APlayerController_TA) (localPRI pri : APRI_TA) (w : World) :
  globalCvarManager h = Some manager ->
  gw_PlayerController h = Some pc ->
  PRI pc = Some localPRI ->
  differs_from_local localPRI pri ->
  Platform (UniqueId pri) = OnlinePlatform_Dingo ->
  trace (LoadForPRI h (Some pri) w)
  = trace w ++
    [CallDownloadXboxAvatar (UniqueId pri) (PlayerName pri);
     SendCurlRequest "GET"
       (RLProfilePicturesConstants.API_BASE_URL
        +:+ RLProfilePicturesConstants.API_XBOX_RETRIEVE +:+ PlayerName pri
        +:+ "?default_enabled=" +:+ default_enabled h) None]
  /\ (IsAllowed h (UniqueId pri) = false ->
      count is_request (trace (LoadForPRI h (Some pri) w))
      = S (count is_request (trace w))).
Proof.
  intros _ Hpc Hl Hne Hp.
  destruct (LoadForPRI_xbox_always_fetches h pc localPRI pri w Hpc Hl Hne Hp)
    as (E & _ & _).
  rewrite E. unfold DownloadXboxAvatar. simpl. rewrite <- app_assoc. simpl.
  split; [reflexivity |]. intros _.
  replace (trace w ++ [CallDownloadXboxAvatar (UniqueId pri) (PlayerName pri);
             SendCurlRequest "GET"
               (RLProfilePicturesConstants.API_BASE_URL
                +:+ RLProfilePicturesConstants.API_XBOX_RETRIEVE +:+ PlayerName pri
                +:+ "?default_enabled=" +:+ default_enabled h) None])
    with ((trace w ++ [CallDownloadXboxAvatar (UniqueId pri) (PlayerName pri)])
            ++ [SendCurlRequest "GET"
                  (RLProfilePicturesConstants.API_BASE_URL
                   +:+ RLProfilePicturesConstants.API_XBOX_RETRIEVE +:+ PlayerName pri
                   +:+ "?default_enabled=" +:+ default_enabled h) None])
    by (now rewrite <- app_assoc).
  rewrite !count_snoc. simpl. lia.
Qed.

(** X9 at a host with every platform flag off. *)
Lemma X9_xbox_request_ignores_policy_witness :
  IsAllowed Scenarios.all_disabled Examples.xbox_id = false
  /\ count is_request
       (trace (LoadForPRI Scenarios.all_disabled (Some Examples.xbox_pri)
                 Examples.empty_world)) = 1%nat.
Proof.
  split; [reflexivity |].
  exact (proj2 (X9_xbox_request_ignores_policy Scenarios.all_disabled ∅
           {| PRI := Some Examples.local_pri |} Examples.local_pri Examples.xbox_pri
           Examples.empty_world eq_refl eq_refl eq_refl ltac:(left; discriminate)
           eq_refl)
         eq_refl).
Defined.

Lemma prefix_cons_inv (c : ascii) (needle hay : string) :
  String.prefix (String c needle) hay = true ->
  exists rest, hay = String c rest /\ String.prefix needle rest = true.
Proof.
  destruct hay as [| d rest]; simpl; [discriminate |].
  destruct (ascii_dec c d) as [<- | Hne]; [| discriminate].
  intros H. exists rest. auto.
Qed.

Lemma contains_unfold (needle hay : string) :
  contains needle hay
  = if String.prefix needle hay then true
    else match hay with
         | EmptyString => false
         | String _ rest => contains needle rest
         end.
Proof. destruct hay; reflexivity. Qed.

Lemma contains_here (needle hay : string) :
  String.prefix needle hay = true -> contains needle hay = true.
Proof. intros H. rewrite contains_unfold. now rewrite H. Qed.

Lemma contains_later (needle : string) (c : ascii) (hay : string) :
  contains needle hay = true -> contains needle (String c hay) = true.
Proof.
  intros H. rewrite contains_unfold. rewrite H.
  destruct (String.prefix needle (String c hay)); reflexivity.
Qed.

(** A text that contains a needle contains the needle without its first
    character. *)
Lemma contains_tail (c : ascii) (needle hay : string) :
  contains (String c needle) hay = true -> contains needle hay = true.
Proof.
  induction hay as [| d hay IH]; intros H; rewrite contains_unfold in H.
  - destruct (String.prefix (String c needle) "") eqn:Hp; [| discriminate H].
    apply prefix_cons_inv in Hp as (rest & Heq & _). discriminate Heq.
  - destruct (String.prefix (String c needle) (String d hay)) eqn:Hp.
    + apply prefix_cons_inv in Hp as (rest & Heq & Hp).
      injection Heq as <- <-. apply contains_later. now apply contains_here.
    + apply contains_later. apply IH. exact H.
Qed.

Lemma prefix_app_l (a b hay : string) :
  String.prefix (a +:+ b) hay = true -> String.prefix a hay = true.
Proof.
  revert hay. induction a as [| c a IH]; intros hay; [destruct hay; reflexivity |].
  intros H. apply prefix_cons_inv in H as (rest & -> & H).
  simpl. destruct (ascii_dec c c); [| contradiction]. now apply IH.
Qed.

(** ... and contains every beginning of the needle. *)
Lemma contains_app_l (a b hay : string) :
  contains (a +:+ b) hay = true -> contains a hay = true.
Proof.
  induction hay as [| d hay IH]; intros H; rewrite contains_unfold in H.
  - destruct (String.prefix (a +:+ b) "") eqn:Hp; [| discriminate H].
    apply contains_here. now apply (prefix_app_l a b).
  - destruct (String.prefix (a +:+ b) (String d hay)) eqn:Hp.
    + apply contains_here. now apply (prefix_app_l a b).
    + apply contains_later. now apply IH.
Qed.

(** X10. The success test of the upload completion comes down to three
    things: the status is 200, the body contains the word success, and the
    body contains the word true.  The first alternative of the source (the
    quoted word success followed by a colon and true) and the test for an
    empty body add nothing. *)
Theorem X10_upload_success_test (http_code : Z) (data : string) :
  upload_success http_code data
  = (http_code =? 200) && contains "success" data && contains "true" data.
Proof.
  unfold upload_success.
  destruct (contains success_true data) eqn:Hq.
  - assert (H1 : contains "success" data = true).
    { apply contains_tail in Hq.
      exact (contains_app_l "success" (String "034"%char ":true") data Hq). }
    assert (H2 : contains "true" data = true).
    { do 10 apply contains_tail in Hq. exact Hq. }
    rewrite H1, H2. simpl.
    destruct data; [discriminate H1 |]. simpl.
    destruct (http_code =? 200); reflexivity.
  - simpl. destruct data as [| c data]; simpl.
    + destruct (http_code =? 200); reflexivity.
    + destruct (http_code =? 200); reflexivity.
Qed.

End Downloads.

(* ===================================================================== *)
(** * Further properties: whole flows                                     *)
(* ===================================================================== *)

Section Flows.
Import AvatarDownloader AvatarManager.

Lemma game_tick_Execute (h : Host) (task : GameTask) (w : World) :
  game_thread w = [] -> game_tick h (Execute task w) = run_task h task w.
Proof. destruct w as [c f g tr]. simpl. intros ->. reflexivity. Qed.

(** The world after the completion of an upload started by
    [AddLocalAvatar]. *)
Lemma upload_completion_world (uniqueId : FUniqueNetId) (processedData : list Z)
    (http_code : Z) (data : string) (w : World) :
  GetBrightenedLocalAvatarPath ∈ files w ->
  AddLocalAvatar_on_upload_response uniqueId processedData http_code data w
  = Execute (ApplyUploaded uniqueId processedData)
      (emit (CallUploadCallback (upload_success http_code data))
         (emit (FileRemoved GetBrightenedLocalAvatarPath)
            (set_files (files w ∖ {[GetBrightenedLocalAvatarPath]}) w))).
Proof.
  intros Hin. unfold AddLocalAvatar_on_upload_response.
  rewrite on_upload_response_unfold.
  rewrite (filesystem_remove_present _ w Hin).
  unfold AddLocalAvatar_uploaded.
  apply filesystem_remove_absent. simpl.
  rewrite elem_of_difference, elem_of_singleton. tauto.
Qed.

(** X11. [AddLocalAvatar] itself only reads the file and calls the
    Normalizer: it never touches the cache or the temp directory, sends no
    request and applies nothing; at most it queues one closure for the game
    thread.  Without a player controller or vanity manager, without a known
    local identity (or with one whose [Uid] is 0 and whose account string is
    empty), or with a file that cannot be read, it does nothing at all. *)
Theorem X11_AddLocalAvatar_defers (h : Host) (filePath : string) (w : World) :
  let w' := AddLocalAvatar h filePath w in
  avatar_cache w' = avatar_cache w
  /\ files w' = files w
  /\ count is_request (trace w') = count is_request (trace w)
  /\ count is_apply (trace w') = count is_apply (trace w)
  /\ (game_thread w' = game_thread w
      \/ exists processedData,
           game_thread w' = game_thread w ++ [AddLocalApply (primary_or_zero h) processedData])
  /\ (RL_PlayerController h = false \/ RL_VanitySetManager h = false
      \/ GetPrimaryPlayerID h = None
      \/ invalid_UniqueID (primary_or_zero h) = true
      \/ read_file h filePath = None -> w' = w).
Proof.
  intros w'. subst w'. unfold AddLocalAvatar, call_BrightenImage.
  assert (Hzero : GetPrimaryPlayerID h = None -> invalid_UniqueID (primary_or_zero h) = true).
  { unfold primary_or_zero. intros ->. reflexivity. }
  destruct (RL_PlayerController h); simpl;
    [| repeat split; auto].
  destruct (RL_VanitySetManager h); simpl;
    [| repeat split; auto].
  destruct (invalid_UniqueID (primary_or_zero h)) eqn:Hinv;
    [repeat split; auto |].
  destruct (read_file h filePath) as [originalData |];
    [| repeat split; auto].
  destruct (BrightenImage _ _ _ _) as [processedData | what]; simpl;
    rewrite ?count_snoc; simpl.
  - split; [reflexivity |]. split; [reflexivity |].
    split; [lia |]. split; [lia |]. split; [right; eauto |].
    intros [H | [H | [H | [H | H]]]]; try discriminate H.
    apply Hzero in H. congruence.
  - split; [reflexivity |]. split; [reflexivity |].
    split; [lia |]. split; [lia |]. split; [left; reflexivity |].
    intros [H | [H | [H | [H | H]]]]; try discriminate H.
    apply Hzero in H. congruence.
Qed.

(** X11 at the example host, where no file can be read. *)
Lemma X11_AddLocalAvatar_defers_witness :
  AddLocalAvatar Examples.host "missing.png" Examples.empty_world
  = Examples.empty_world.
Proof.
  apply (X11_AddLocalAvatar_defers Examples.host "missing.png" Examples.empty_world).
  right. right. right. right. reflexivity.
Defined.

(** X12. A viewer who is not on Epic picks an avatar file.  The checks of
    [AddLocalAvatar] pass, the file is read, the Normalizer accepts the
    image, and nothing else is queued on the game thread.  Then
    [AddLocalAvatar] and one turn of the game thread send no request.  When
    the staging goes through (the temp file opens and is written, the image
    loads and yields a texture), the cache holds the new texture under the
    key of the viewer, whatever it held before, and the texture has been
    applied.  When the temp file cannot be opened, nothing is cached and
    nothing is applied. *)
Theorem X12_local_avatar_without_upload (h : Host) (id : FUniqueNetId)
    (filePath : string) (originalData processedData : list Z) (w : World) :
  RL_PlayerController h = true ->
  RL_VanitySetManager h = true ->
  GetPrimaryPlayerID h = Some id ->
  invalid_UniqueID id = false ->
  Platform id <> OnlinePlatform_Epic ->
  read_file h filePath = Some originalData ->
  BrightenImage (stbi_load_from_memory h) (stbi_write_png_to_func h) originalData
    (GetBrightnessEnabled h) = Ok processedData ->
  game_thread w = [] ->
  let w' := game_tick h (AddLocalAvatar h filePath w) in
  count is_request (trace w') = count is_request (trace w)
  /\ game_thread w' = []
  /\ (forall tex, staging_succeeds h (cache_key h id) processedData tex ->
        avatar_cache w' = <[cache_key h id := Some tex]> (avatar_cache w)
        /\ trace w' = trace w ++
             [CallBrightenImage originalData (GetBrightnessEnabled h);
              FileRemoved (GetTempAvatarPath (cache_key h id));
              CallSetAvatar id tex])
  /\ (ofstream_open h (GetTempAvatarPath (cache_key h id)) = false ->
        avatar_cache w' = avatar_cache w
        /\ trace w' = trace w ++
             [CallBrightenImage originalData (GetBrightnessEnabled h)]).
Proof.
  intros Hpc Hvm Hid Hinv Hp Hread Hb Hq w'.
  set (w0 := emit (CallBrightenImage originalData (GetBrightnessEnabled h)) w).
  assert (E : w' = stage_and_apply h id (cache_key h id) processedData w0).
  { subst w'. unfold AddLocalAvatar, call_BrightenImage, primary_or_zero.
    rewrite Hpc, Hvm, Hid, Hinv, Hread, Hb. simpl.
    rewrite game_tick_Execute by exact Hq. simpl.
    unfold AddLocalAvatar_apply.
    rewrite bool_decide_eq_false_2 by exact Hp. reflexivity. }
  split; [| split; [| split]].
  - rewrite E, stage_and_apply_no_request. subst w0. simpl.
    rewrite count_snoc. simpl. lia.
  - rewrite E. unfold stage_and_apply.
    destruct (negb (ofstream_open h _)); [exact Hq |]. simpl.
    destruct (negb (ofstream_good h _)); [exact Hq |].
    destruct (negb (bool_decide _)); [exact Hq |].
    unfold filesystem_remove.
    destruct (negb (LoadForCanvas h _)); [case_bool_decide; exact Hq |].
    destruct (GetCanvasTex h _); simpl; case_bool_decide; exact Hq.
  - intros tex Hs.
    destruct (stage_and_apply_success h id (cache_key h id) processedData tex w0 Hs)
      as (Hc & Ht & _).
    rewrite <- E in Hc, Ht. subst w0. simpl in Hc, Ht.
    split; [exact Hc |]. rewrite Ht, <- app_assoc. reflexivity.
  - intros Ho. rewrite E, (stage_and_apply_open_fails _ _ _ _ _ Ho).
    subst w0. split; reflexivity.
Qed.

(** X12 for a Steam viewer whose cache already holds texture 3. *)
Lemma X12_local_avatar_without_upload_witness :
  let w := {| avatar_cache := {[ cache_key Scenarios.steam_viewer Examples.steam_id
                                 := Some 3%positive ]};
              files := ∅; game_thread := []; trace := [] |} in
  GetCachedAvatar (game_tick Scenarios.steam_viewer
                     (AddLocalAvatar Scenarios.steam_viewer "avatar.png" w))
    (cache_key Scenarios.steam_viewer Examples.steam_id) = Some 9%positive.
Proof.
  intros w. unfold GetCachedAvatar.
  pose proof (X12_local_avatar_without_upload Scenarios.steam_viewer
                Examples.steam_id "avatar.png" Examples.one_pixel
                [1; 1; 4; 20; 136; 186; 200] w
                eq_refl eq_refl eq_refl eq_refl ltac:(discriminate) eq_refl eq_refl
                eq_refl) as (_ & _ & Hgood & _).
  destruct (Hgood 9%positive (conj eq_refl (conj eq_refl (conj eq_refl eq_refl))))
    as [Hc _].
  rewrite Hc. now rewrite lookup_insert_eq.
Defined.

(** X13. A viewer on Epic, with an account string that is not empty, picks
    an avatar file.  The checks of [AddLocalAvatar] pass, the file is read,
    the Normalizer accepts the image, and nothing else is queued on the game
    thread.  When the upload file cannot be created, the turn of the game
    thread sends nothing and applies nothing.  When it can, the processed
    bytes are staged and posted; when the upload completes, with any status
    and any body, the staged file is deleted and the callback is called with
    the outcome, which is all that a failed upload changes.  The next turn
    of the game thread caches and applies the processed image when the
    staging of the avatar goes through (its temp file opens and is written,
    the image loads and yields a texture), and changes nothing when that
    temp file cannot be opened. *)
Theorem X13_local_avatar_with_upload (h : Host) (id : FUniqueNetId)
    (filePath : string) (originalData processedData : list Z)
    (http_code : Z) (data : string) (w : World) :
  RL_PlayerController h = true ->
  RL_VanitySetManager h = true ->
  GetPrimaryPlayerID h = Some id ->
  Platform id = OnlinePlatform_Epic ->
  is_empty (EpicAccountId id) = false ->
  read_file h filePath = Some originalData ->
  BrightenImage (stbi_load_from_memory h) (stbi_write_png_to_func h) originalData
    (GetBrightnessEnabled h) = Ok processedData ->
  game_thread w = [] ->
  let staged := game_tick h (AddLocalAvatar h filePath w) in
  let answered :=
    AddLocalAvatar_on_upload_response id processedData http_code data staged in
  let w' := game_tick h answered in
  (ofstream_open h GetBrightenedLocalAvatarPath = false ->
     staged = emit (CallBrightenImage originalData (GetBrightnessEnabled h)) w)
  /\ (ofstream_open h GetBrightenedLocalAvatarPath = true ->
      trace staged = trace w ++
        [CallBrightenImage originalData (GetBrightnessEnabled h);
         SendCurlRequest "POST"
           (RLProfilePicturesConstants.API_BASE_URL
            +:+ RLProfilePicturesConstants.API_EPIC_UPLOAD +:+ EpicAccountId id)
           (Some GetBrightenedLocalAvatarPath)]
      /\ (GetBrightenedLocalAvatarPath ∈ files staged)
      /\ trace answered = trace staged ++
           [FileRemoved GetBrightenedLocalAvatarPath;
            CallUploadCallback (upload_success http_code data)]
      /\ avatar_cache answered = avatar_cache w
      /\ (GetBrightenedLocalAvatarPath ∉ files w')
      /\ game_thread w' = []
      /\ (forall tex, staging_succeeds h (cache_key h id) processedData tex ->
            trace w' = trace answered ++
              [FileRemoved (GetTempAvatarPath (cache_key h id));
               CallSetAvatar id tex]
            /\ avatar_cache w' = <[cache_key h id := Some tex]> (avatar_cache w))
      /\ (ofstream_open h (GetTempAvatarPath (cache_key h id)) = false ->
            trace w' = trace answered /\ avatar_cache w' = avatar_cache w)).
Proof.
  intros Hpc Hvm Hid Hp Hepic Hread Hb Hq staged answered w'.
  set (tempPath := GetBrightenedLocalAvatarPath) in *.
  set (w0 := emit (CallBrightenImage originalData (GetBrightnessEnabled h)) w).
  set (url := RLProfilePicturesConstants.API_BASE_URL
              +:+ RLProfilePicturesConstants.API_EPIC_UPLOAD +:+ EpicAccountId id).
  assert (Einv : invalid_UniqueID id = false).
  { unfold invalid_UniqueID. rewrite Hepic. apply andb_false_r. }
  assert (E0 : staged = AddLocalAvatar_apply h id processedData w0).
  { subst staged. unfold AddLocalAvatar, call_BrightenImage, primary_or_zero.
    rewrite Hpc, Hvm, Hid, Einv, Hread, Hb. simpl.
    rewrite game_tick_Execute by exact Hq. reflexivity. }
  split.
  - intros Ho. rewrite E0. unfold AddLocalAvatar_apply.
    rewrite bool_decide_eq_true_2 by exact Hp. fold tempPath. now rewrite Ho.
  - intros Ho.
    assert (E1 : staged = emit (SendCurlRequest "POST" url (Some tempPath))
                            (create_file tempPath w0)).
    { rewrite E0. unfold AddLocalAvatar_apply.
      rewrite bool_decide_eq_true_2 by exact Hp. fold tempPath. rewrite Ho. simpl.
      unfold UploadToCDN. rewrite Hepic.
      assert (Ht : is_empty tempPath = false) by reflexivity.
      rewrite Ht. reflexivity. }
    assert (Hin : tempPath ∈ files staged).
    { rewrite E1. simpl. apply elem_of_union_l, elem_of_singleton. reflexivity. }
    pose proof (upload_completion_world id processedData http_code data staged Hin)
      as Ea.
    fold answered tempPath in Ea.
    assert (Hqs : game_thread staged = []) by (rewrite E1; simpl; subst w0; exact Hq).
    set (w2 := emit (CallUploadCallback (upload_success http_code data))
                 (emit (FileRemoved tempPath)
                    (set_files (files staged ∖ {[tempPath]}) staged))) in *.
    assert (E3 : w' = stage_and_apply h id (cache_key h id) processedData w2).
    { subst w'. rewrite Ea. rewrite game_tick_Execute by (simpl; exact Hqs).
      reflexivity. }
    assert (Hta : trace answered = trace staged ++
                    [FileRemoved tempPath;
                     CallUploadCallback (upload_success http_code data)]).
    { rewrite Ea. subst w2. simpl. now rewrite <- app_assoc. }
    assert (Hca : avatar_cache answered = avatar_cache w).
    { rewrite Ea. subst w2. simpl. rewrite E1. reflexivity. }
    split; [rewrite E1; simpl; subst w0; simpl; now rewrite <- app_assoc |].
    split; [exact Hin |].
    split; [exact Hta |].
    split; [exact Hca |].
    split; [| split; [| split]].
    + rewrite E3, stage_and_apply_files. simpl.
      destruct (negb (ofstream_open h _)); [| destruct (negb (ofstream_good h _))].
      * rewrite elem_of_difference, elem_of_singleton. tauto.
      * rewrite elem_of_union, elem_of_difference, !elem_of_singleton.
        intros [Heq | [_ Hn]]; [| now apply Hn]. discriminate Heq.
      * rewrite !elem_of_difference, elem_of_singleton. tauto.
    + rewrite E3. unfold stage_and_apply.
      destruct (negb (ofstream_open h _)); [exact Hqs |]. simpl.
      destruct (negb (ofstream_good h _)); [exact Hqs |].
      destruct (negb (bool_decide _)); [exact Hqs |].
      unfold filesystem_remove.
      destruct (negb (LoadForCanvas h _)); [case_bool_decide; exact Hqs |].
      destruct (GetCanvasTex h _); simpl; case_bool_decide; exact Hqs.
    + intros tex Hs.
      destruct (stage_and_apply_success h id (cache_key h id) processedData tex w2 Hs)
        as (Hc & Ht & _).
      rewrite <- E3 in Hc, Ht.
      split; [rewrite Ht, Hta; subst w2; simpl; now rewrite <- !app_assoc |].
      rewrite Hc. subst w2. simpl. rewrite E1. reflexivity.
    + intros Hof. rewrite E3, (stage_and_apply_open_fails _ _ _ _ _ Hof).
      split; [rewrite Hta; subst w2; simpl; now rewrite <- !app_assoc |].
      subst w2. simpl. rewrite E1. reflexivity.
Qed.

(** X13 for an Epic viewer whose upload fails with status 500. *)
Lemma X13_local_avatar_with_upload_witness :
  let staged := game_tick Scenarios.epic_viewer
                  (AddLocalAvatar Scenarios.epic_viewer "avatar.png"
                     Examples.empty_world) in
  let w' := game_tick Scenarios.epic_viewer
              (AddLocalAvatar_on_upload_response Examples.local_id
                 [1; 1; 4; 20; 136; 186; 200] 500 EmptyString staged) in
  GetCachedAvatar w' (cache_key Scenarios.epic_viewer Examples.local_id)
  = Some 9%positive
  /\ (GetBrightenedLocalAvatarPath ∉ files w').
Proof.
  intros staged w'.
  pose proof (X13_local_avatar_with_upload Scenarios.epic_viewer Examples.local_id
                "avatar.png" Examples.one_pixel [1; 1; 4; 20; 136; 186; 200]
                500 EmptyString Examples.empty_world
                eq_refl eq_refl eq_refl eq_refl eq_refl eq_refl eq_refl eq_refl)
    as [_ Hup].
  destruct (Hup eq_refl) as (_ & _ & _ & _ & Hf & _ & Hgood & _).
  destruct (Hgood 9%positive (conj eq_refl (conj eq_refl (conj eq_refl eq_refl))))
    as [_ Hc].
  fold staged in Hc, Hf. fold w' in Hc, Hf.
  split; [| exact Hf].
  unfold GetCachedAvatar. rewrite Hc. now rewrite lookup_insert_eq.
Defined.

(** X14. [RemoveLocalAvatar], once its checks pass, detaches the viewer's
    avatar and erases the cache entry under the viewer's raw id string and
    no other entry.  When the id string holds no replaced character this is
    the viewer's cache key, and the avatar is no longer cached.  When a check
    fails (no controller, no vanity manager, no valid local identity, no
    avatar component) nothing happens. *)
Theorem X14_RemoveLocalAvatar_erases_raw_key (h : Host) (w : World) :
  let id := primary_or_zero h in
  let raw := UniqueNetIdToString h id in
  let w' := RemoveLocalAvatar h w in
  (RL_PlayerController h = true -> RL_VanitySetManager h = true ->
   invalid_UniqueID id = false -> vman_GetAvatar h id = true ->
   avatar_cache w' = delete raw (avatar_cache w)
   /\ trace w' = trace w ++ [DetachLocalAvatar id]
   /\ IsAvatarCached w' raw = false
   /\ (forall k, k <> raw -> avatar_cache w' !! k = avatar_cache w !! k)
   /\ (contains_replaced raw = false -> IsAvatarCached w' (cache_key h id) = false))
  /\ (RL_PlayerController h = false \/ RL_VanitySetManager h = false
      \/ invalid_UniqueID id = true \/ vman_GetAvatar h id = false -> w' = w).
Proof.
  intros id raw w'. subst w'. unfold RemoveLocalAvatar. fold id. fold raw. split.
  - intros -> -> -> ->. simpl.
    assert (Hmiss : IsAvatarCached (set_cache (delete raw (avatar_cache w))
                                      (emit (DetachLocalAvatar id) w)) raw = false).
    { unfold IsAvatarCached. simpl. now rewrite lookup_delete_eq. }
    split; [reflexivity |]. split; [reflexivity |]. split; [exact Hmiss |].
    split; [intros k Hk; simpl; now apply lookup_delete_ne |].
    intros Hclean. unfold cache_key. fold id. fold raw.
    now rewrite (proj2 (SanitizeFilename_fixed raw) Hclean).
  - intros [-> | [-> | [-> | ->]]]; simpl; try reflexivity.
    + destruct (negb (RL_PlayerController h)); reflexivity.
    + destruct (negb (RL_PlayerController h) || negb (RL_VanitySetManager h));
        reflexivity.
    + destruct (negb (RL_PlayerController h) || negb (RL_VanitySetManager h));
        [reflexivity |].
      destruct (invalid_UniqueID id); reflexivity.
Qed.

(** X14 at a host with plain id strings: a cached local avatar is erased. *)
Lemma X14_RemoveLocalAvatar_erases_raw_key_witness :
  let w := {| avatar_cache := {[ "76561198000000001" := Some 3%positive ]};
              files := ∅; game_thread := []; trace := [] |} in
  IsAvatarCached w (cache_key Scenarios.plain_ids Examples.steam_id) = true
  /\ IsAvatarCached (RemoveLocalAvatar Scenarios.plain_ids w)
       (cache_key Scenarios.plain_ids Examples.steam_id) = false.
Proof.
  intros w. split; [vm_compute; reflexivity |].
  refine (proj2 (proj2 (proj2 (proj2 (proj1 (X14_RemoveLocalAvatar_erases_raw_key
            Scenarios.plain_ids w) eq_refl eq_refl eq_refl eq_refl)))) _).
  vm_compute. reflexivity.
Defined.

(** X15. A remote load from end to end.  The player is not the local one
    and not on Xbox, the policy allows the identity, the cache holds nothing
    under the raw id string and no texture under the sanitized key, and
    nothing else is queued on the game thread.  Then [LoadForPRI] sends one
    GET.  When it is answered with status 200 and bytes that the Normalizer
    accepts, one turn of the game thread runs [LoadAvatar]: when the
    staging goes through (the temp file opens and is written, the image
    loads and yields a texture) the texture is cached under the sanitized
    key and applied, once; when the temp file cannot be opened, nothing is
    cached and nothing is applied. *)
Theorem X15_remote_load_end_to_end (h : Host) (pc : APlayerController_TA)
    (localPRI pri : APRI_TA) (buffer bytes : list Z) (data_size : N) (w : World) :
  gw_PlayerController h = Some pc ->
  PRI pc = Some localPRI ->
  differs_from_local localPRI pri ->
  Platform (UniqueId pri) <> OnlinePlatform_Dingo ->
  IsAllowed h (UniqueId pri) = true ->
  GetCachedAvatar w (UniqueNetIdToString h (UniqueId pri)) = None ->
  IsAvatarCached w (cache_key h (UniqueId pri)) = false ->
  game_thread w = [] ->
  data_size <> 0%N ->
  BrightenImage (stbi_load_from_memory h) (stbi_write_png_to_func h)
    (take (N.to_nat data_size) buffer) (GetBrightnessEnabled h) = Ok bytes ->
  let id := UniqueId pri in
  let requested := LoadForPRI h (Some pri) w in
  let answered := on_avatar_response id 200 (Some buffer) data_size requested in
  let w' := game_tick h answered in
  trace requested = trace w ++
     [CallDownloadAvatar id; SendCurlRequest "GET" (GetURLForID h id) None]
  /\ trace answered = trace requested
  /\ game_thread w' = []
  /\ (forall tex, staging_succeeds h (cache_key h id) bytes tex ->
        trace w' = trace requested ++
          [CallBrightenImage (take (N.to_nat data_size) buffer) (GetBrightnessEnabled h);
           FileRemoved (GetTempAvatarPath (cache_key h id));
           CallSetAvatar id tex]
        /\ avatar_cache w' = <[cache_key h id := Some tex]> (avatar_cache w)
        /\ count is_apply (trace w') = S (count is_apply (trace w)))
  /\ (ofstream_open h (GetTempAvatarPath (cache_key h id)) = false ->
        trace w' = trace requested ++
          [CallBrightenImage (take (N.to_nat data_size) buffer) (GetBrightnessEnabled h)]
        /\ avatar_cache w' = avatar_cache w
        /\ count is_apply (trace w') = count is_apply (trace w)).
Proof.
  intros Hpc Hl Hne Hp Ha Hraw Hmiss Hq Hsize Hb id requested answered w'.
  set (w1 := emit (SendCurlRequest "GET" (GetURLForID h id) None)
               (emit (CallDownloadAvatar id) w)).
  set (image := take (N.to_nat data_size) buffer) in *.
  assert (E1 : requested = w1).
  { subst requested. unfold LoadForPRI.
    rewrite Hpc, Hl, (not_local_test _ _ Hne).
    rewrite bool_decide_eq_false_2 by exact Hp. rewrite Hraw.
    unfold DownloadAvatar. now rewrite (GetURLForID_not_empty h _ Ha Hp). }
  assert (E2 : answered = Execute (AvatarDownloaded id image) w1).
  { subst answered. rewrite E1. unfold on_avatar_response. simpl.
    destruct (N.eqb_spec data_size 0); [contradiction | reflexivity]. }
  assert (Hmiss1 : IsAvatarCached w1 (cache_key h id) = false) by exact Hmiss.
  assert (E3 : w' = LoadAvatar h id image w1).
  { subst w'. rewrite E2. rewrite game_tick_Execute by (simpl; exact Hq). reflexivity. }
  assert (Hw1 : trace w1 = trace w ++
            [CallDownloadAvatar id; SendCurlRequest "GET" (GetURLForID h id) None]).
  { subst w1. simpl. now rewrite <- app_assoc. }
  assert (H01 : count is_apply (trace w1) = count is_apply (trace w)).
  { rewrite Hw1, count_app. unfold count at 2. simpl. lia. }
  split; [rewrite E1; exact Hw1 |].
  split; [rewrite E2, E1; reflexivity |].
  split; [| split].
  - rewrite E3. unfold LoadAvatar, call_BrightenImage. fold (cache_key h id).
    rewrite Hb.
    assert (Hstage : forall u, game_thread u = [] ->
              game_thread (stage_and_apply h id (cache_key h id) bytes u) = []).
    { intros u Hu. unfold stage_and_apply.
      destruct (negb (ofstream_open h _)); [exact Hu |]. simpl.
      destruct (negb (ofstream_good h _)); [exact Hu |].
      destruct (negb (bool_decide _)); [exact Hu |].
      unfold filesystem_remove.
      destruct (negb (LoadForCanvas h _)); [case_bool_decide; exact Hu |].
      destruct (GetCanvasTex h _); simpl; case_bool_decide; exact Hu. }
    destruct (not_cached_lookup _ _ Hmiss1) as [-> | ->]; simpl;
      apply Hstage; exact Hq.
  - intros tex Hs.
    destruct (LoadAvatar_miss_success h id image bytes tex w1 Hmiss1 Hb Hs)
      as (Hc & Ht & _).
    rewrite <- E3 in Hc, Ht.
    split; [rewrite Ht, E1; reflexivity |].
    split; [exact Hc |].
    rewrite Ht, count_app, H01. unfold count at 2. simpl. lia.
  - intros Ho.
    rewrite E3, (LoadAvatar_miss_open_fails h id image bytes w1 Hmiss1 Hb Ho).
    split; [rewrite E1; reflexivity |].
    split; [reflexivity |].
    replace (trace (emit (CallBrightenImage image (GetBrightnessEnabled h)) w1))
      with (trace w1 ++ [CallBrightenImage image (GetBrightnessEnabled h)])
      by reflexivity.
    rewrite count_snoc, H01. simpl. lia.
Qed.

(** X15 at the example host: a Steam player seen by an Epic viewer. *)
Lemma X15_remote_load_end_to_end_witness :
  let requested := LoadForPRI Examples.host (Some Examples.steam_pri)
                     Examples.empty_world in
  let answered := on_avatar_response Examples.steam_id 200
                    (Some Examples.one_pixel) 7 requested in
  count is_apply (trace (game_tick Examples.host answered)) = 1%nat.
Proof.
  assert (Ha : IsAllowed Examples.host Examples.steam_id = true)
    by (vm_compute; reflexivity).
  pose proof (X15_remote_load_end_to_end Examples.host
           {| PRI := Some Examples.local_pri |} Examples.local_pri Examples.steam_pri
           Examples.one_pixel [1; 1; 4; 20; 136; 186; 200] 7
           Examples.empty_world eq_refl eq_refl ltac:(left; discriminate)
           ltac:(discriminate) Ha eq_refl eq_refl eq_refl ltac:(discriminate)
           eq_refl) as (_ & _ & _ & Hgood & _).
  exact (proj2 (proj2 (Hgood 7%positive
           (conj eq_refl (conj eq_refl (conj eq_refl eq_refl)))))).
Defined.

End Flows.

(* ===================================================================== *)
(** * Further properties: the normalizer                                  *)
(* ===================================================================== *)

Section NormalizerMore.

(** X16. With brightness switched off, an image of one to four channels is
    decoded once and its samples are handed to the encoder as they are, with
    the same channel count.  An image reported with more than four channels
    is decoded a second time with four, one reported with none with three;
    when that second decoding fails the function throws. *)
Theorem X16_reencode_keeps_samples
    (load : list Z -> Z -> option Decoded)
    (write : Z -> Z -> Z -> list Z -> Z -> option (list Z))
    (pngData : list Z) (d : Decoded) :
  load pngData 0 = Some d ->
  (1 <= channels_in_file d <= 4 ->
   BrightenImage load write pngData (Some false)
   = match write (width d) (height d) (channels_in_file d) (pixels d)
             (wrap_int (width d * channels_in_file d)) with
     | None => Throw "Failed to recompress PNG data"
     | Some recompressedData => Ok recompressedData
     end)
  /\ (4 < channels_in_file d \/ channels_in_file d = 0 ->
      let out_channels := if channels_in_file d =? 0 then 3 else 4 in
      BrightenImage load write pngData (Some false)
      = match load pngData out_channels with
        | None => Throw "Failed to convert decoded image"
        | Some d' =>
            match write (width d') (height d') out_channels (pixels d')
                    (wrap_int (width d' * out_channels)) with
            | None => Throw "Failed to recompress PNG data"
            | Some recompressedData => Ok recompressedData
            end
        end).
Proof.
  intros Hload. unfold BrightenImage, reencode_unchanged. simpl. rewrite Hload.
  split.
  - intros Hc.
    destruct (Z.leb_spec 4 (channels_in_file d)) as [H4 | H4].
    + assert (E : channels_in_file d = 4) by lia. rewrite E. reflexivity.
    + destruct (Z.eqb_spec (channels_in_file d) 0) as [H0 | H0]; [lia |].
      rewrite Z.eqb_refl. reflexivity.
  - intros [Hc | Hc].
    + destruct (Z.leb_spec 4 (channels_in_file d)) as [H4 | H4]; [| lia].
      simpl. destruct (Z.eqb_spec (channels_in_file d) 4) as [E | E]; [lia |].
      destruct (Z.eqb_spec (channels_in_file d) 0) as [H0 | H0]; [lia |].
      reflexivity.
    + rewrite Hc. reflexivity.
Qed.

(** X16 at a one-pixel RGBA image. *)
Lemma X16_reencode_keeps_samples_witness :
  BrightenImage Examples.toy_load Examples.toy_write Examples.one_pixel (Some false)
  = Ok Examples.one_pixel.
Proof.
  rewrite (proj1 (X16_reencode_keeps_samples Examples.toy_load Examples.toy_write
             Examples.one_pixel
             {| width := 1; height := 1; channels_in_file := 4;
                pixels := [1; 64; 128; 200] |} eq_refl)
             ltac:(simpl; lia)).
  reflexivity.
Defined.

(** X17. The table preserves the order of sample values, maps bytes to
    bytes, and raises every value strictly between 0 and 254.  Because the
    fraction is dropped, 254 stays 254: the fixed points are 0, 254 and
    255. *)
Theorem X17_table_order_and_fixed_points (u v : Z) :
  0 <= u -> u <= v -> v <= 255 ->
  srgb_at u <= srgb_at v
  /\ 0 <= srgb_at v <= 255
  /\ (0 < v < 254 -> v < srgb_at v)
  /\ (srgb_at v = v <-> v = 0 \/ v = 254 \/ v = 255).
Proof.
  intros Hu Huv Hv.
  pose proof (byte_cases
    (fun v => (0 <=? srgb_at v) && (srgb_at v <=? 255)
              && ((v =? 0) || (254 <=? v) || (v <? srgb_at v)))
    ltac:(vm_compute; reflexivity) v ltac:(lia)) as H.
  simpl in H. apply andb_true_iff in H as [H Hfix].
  apply andb_true_iff in H as [Hlo Hhi].
  assert (Hstrict : 0 < v < 254 -> v < srgb_at v).
  { intros Hin. apply orb_true_iff in Hfix as [Hfix | Hfix]; [| lia].
    apply orb_true_iff in Hfix as [Hfix | Hfix]; lia. }
  split; [now apply srgb_at_monotone |]. split; [lia |]. split; [exact Hstrict |].
  split.
  - intros E. destruct (Z.eq_dec v 0); [now left |]. right.
    destruct (Z.le_gt_cases 254 v); [lia |]. specialize (Hstrict ltac:(lia)). lia.
  - intros [-> | [-> | ->]]; reflexivity.
Qed.

(** X17 at the bytes 100 and 200. *)
Lemma X17_table_order_and_fixed_points_witness :
  srgb_at 100 <= srgb_at 200 /\ 200 < srgb_at 200.
Proof.
  pose proof (X17_table_order_and_fixed_points 100 200 ltac:(lia) ltac:(lia)
                ltac:(lia)) as (Hm & _ & Hs & _).
  split; [exact Hm | apply Hs; lia].
Defined.

(** X18. In an image of one, two or three channels the loop sends every
    sample through the table, the second channel of a grey-and-alpha image
    included; in an image of four channels it leaves exactly the samples at
    positions 3, 7, 11, ... as they are. *)
Theorem X18_channels_reached_by_gamma (w h channels : Z) (buf : list Z) :
  0 <= w -> 0 <= h -> 0 < channels ->
  List.length buf = Z.to_nat (w * h * channels) ->
  (channels <= 3 -> apply_gamma channels (w * h * channels) buf = srgb_at <$> buf)
  /\ (channels = 4 ->
      forall j b, buf !! j = Some b ->
        apply_gamma channels (w * h * channels) buf !! j
        = Some (if Z.of_nat j `mod` 4 =? 3 then b else srgb_at b)).
Proof.
  intros Hw Hh Hc Hlen. split.
  - intros H3. apply list_eq. intros j. rewrite list_lookup_fmap.
    destruct (buf !! j) as [b |] eqn:E.
    + rewrite (apply_gamma_lookup w h channels buf j b Hw Hh Hc Hlen E).
      unfold expected_sample.
      pose proof (Z.mod_pos_bound (Z.of_nat j) channels Hc).
      destruct (Z.ltb_spec (Z.of_nat j `mod` channels) 3); [reflexivity | lia].
    + simpl. apply lookup_ge_None. rewrite apply_gamma_length.
      now apply lookup_ge_None.
  - intros -> j b E.
    rewrite (apply_gamma_lookup w h 4 buf j b Hw Hh Hc Hlen E).
    unfold expected_sample.
    pose proof (Z.mod_pos_bound (Z.of_nat j) 4 ltac:(lia)).
    destruct (Z.ltb_spec (Z.of_nat j `mod` 4) 3);
      destruct (Z.eqb_spec (Z.of_nat j `mod` 4) 3); try reflexivity; lia.
Qed.

(** X18 at a grey-and-alpha image of two pixels. *)
Lemma X18_channels_reached_by_gamma_witness :
  apply_gamma 2 4 [1; 64; 128; 200] = [20; 136; 186; 228].
Proof.
  pose proof (proj1 (X18_channels_reached_by_gamma 2 1 2 [1; 64; 128; 200]
                       ltac:(lia) ltac:(lia) ltac:(lia) eq_refl) ltac:(lia)) as H.
  change (2 * 1 * 2) with 4 in H. rewrite H. reflexivity.
Defined.

End NormalizerMore.

(* ===================================================================== *)
(** * Further properties: the logger                                      *)
(* ===================================================================== *)

Section Logger.
Import RLProfilePicturesLogger.

(** X19. Nothing is logged without a cvar manager, so nothing before
    [Initialize].  With one, [LogInfo], [LogSuccess] and [LogError] always
    write their line; [LogDebug] writes its line exactly when the shared
    debug flag is set or the debug cvar is registered and true.  A line is
    the message between a colour code with the level tag and the reset
    code. *)
Theorem X19_logger_gating (st : State) (message : string) :
  (LogDebug st message
   = [colored "[38;2;255;255;102m" "[DEBUG] " message] <->
     exists manager, s_cvarManager st = Some manager
       /\ (s_debugLogsEnabled st = Some true
           \/ manager !! CVAR_DEBUG_LOGS = Some true))
  /\ (LogDebug st message = []
      \/ LogDebug st message = [colored "[38;2;255;255;102m" "[DEBUG] " message])
  /\ (s_cvarManager st = None ->
      LogInfo st message = [] /\ LogSuccess st message = []
      /\ LogError st message = [] /\ LogDebug st message = [])
  /\ (s_cvarManager st <> None ->
      LogInfo st message = [colored "[38;2;102;204;255m" "[INFO] " message]
      /\ LogSuccess st message = [colored "[38;2;102;255;102m" "[SUCCESS] " message]
      /\ LogError st message = [colored "[38;2;255;102;102m" "[ERROR] " message])
  /\ LogDebug uninitialized message = [].
Proof.
  unfold LogDebug, LogInfo, LogSuccess, LogError.
  destruct (s_cvarManager st) as [manager |] eqn:Hm.
  - destruct (s_debugLogsEnabled st) as [[|] |] eqn:Hf;
      destruct (manager !! CVAR_DEBUG_LOGS) as [[|] |] eqn:Hc;
      (split; [split;
               [intros H; try discriminate H; exists manager; split; auto
               | intros (m & Em & [Ef | Ec]); try reflexivity;
                 try discriminate Ef; injection Em as <-; congruence] |]);
      (split; [auto |]); (split; [discriminate |]); (split; [auto | reflexivity]).
  - split; [split; [discriminate | intros (m & Em & _); discriminate Em] |].
    split; [auto |]. split; [auto |]. split; [congruence | reflexivity].
Qed.

(** X19 with the shared flag off and the debug cvar on. *)
Lemma X19_logger_gating_witness :
  LogDebug (Initialize (Some {[ CVAR_DEBUG_LOGS := true ]}) (Some false)) "hello"
  = [colored "[38;2;255;255;102m" "[DEBUG] " "hello"].
Proof.
  apply (proj1 (X19_logger_gating _ "hello")).
  exists {[ CVAR_DEBUG_LOGS := true ]}. split; [reflexivity |].
  right. vm_compute. reflexivity.
Defined.

End Logger.

(* ===================================================================== *)
(** * Further properties: [MemoryHelper::FindPattern]                     *)
(* ===================================================================== *)

Section PatternScan.
Import MemoryHelper.

Lemma string_app_cons (c : ascii) (s t : string) :
  String c s +:+ t = String c (s +:+ t).
Proof. reflexivity. Qed.

Lemma string_app_nil_l (t : string) : "" +:+ t = t.
Proof. reflexivity. Qed.

Lemma string_app_nil_r (s : string) : s +:+ "" = s.
Proof.
  induction s as [| c s IH]; [reflexivity |].
  rewrite string_app_cons. f_equal. exact IH.
Qed.

Lemma string_app_assoc (a b c : string) : (a +:+ b) +:+ c = a +:+ (b +:+ c).
Proof.
  induction a as [| x a IH]; [reflexivity |].
  rewrite !string_app_cons. f_equal. exact IH.
Qed.

Lemma has_space_snoc (token : string) (c : ascii) :
  has_space token = false -> Ascii.eqb c " " = false ->
  has_space (token +:+ String c "") = false.
Proof.
  intros Ht Hc. induction token as [| d token IH].
  - rewrite string_app_nil_l. simpl. now rewrite Hc.
  - rewrite string_app_cons. simpl in *.
    apply orb_false_iff in Ht as [Hd Ht]. rewrite Hd. simpl. now apply IH.
Qed.

Lemma concat_tokens_cons (t : string) (l : list string) :
  concat_tokens (t :: l) = t +:+ concat_tokens l.
Proof. reflexivity. Qed.

(** The tokenizer with a token in progress and tokens already pushed. *)
Lemma split_pattern_spec (pattern token : string) (patternBytes : list string) :
  has_space token = false ->
  exists tokens,
    split_pattern pattern token patternBytes = patternBytes ++ tokens
    /\ Forall (fun t => t <> "" /\ has_space t = false) tokens
    /\ concat_tokens tokens = token +:+ without_spaces pattern.
Proof.
  revert token patternBytes.
  induction pattern as [| c rest IH]; intros token patternBytes Ht; simpl.
  - destruct token as [| d token]; simpl.
    + exists []. rewrite app_nil_r. auto.
    + exists [String d token]. split; [reflexivity |].
      split; [constructor; [split; [discriminate | exact Ht] | constructor] |].
      rewrite concat_tokens_cons. reflexivity.
  - destruct (Ascii.eqb c " ") eqn:Hc.
    + destruct token as [| d token]; simpl.
      * apply (IH "" patternBytes). reflexivity.
      * destruct (IH "" (patternBytes ++ [String d token]) eq_refl)
          as (tokens & E & Hok & Hcat).
        exists (String d token :: tokens).
        split; [rewrite E, <- app_assoc; reflexivity |].
        split; [constructor; [split; [discriminate | exact Ht] | exact Hok] |].
        rewrite concat_tokens_cons, Hcat. reflexivity.
    + destruct (IH (token +:+ String c "") patternBytes
                  (has_space_snoc token c Ht Hc)) as (tokens & E & Hok & Hcat).
      exists tokens. split; [exact E |]. split; [exact Hok |].
      rewrite Hcat, string_app_assoc. reflexivity.
Qed.

(** The tokens pushed so far stay in front. *)
Lemma split_pattern_acc (pattern token : string) (patternBytes : list string) :
  split_pattern pattern token patternBytes
  = patternBytes ++ split_pattern pattern token [].
Proof.
  revert token patternBytes.
  induction pattern as [| c rest IH]; intros token patternBytes; simpl.
  - destruct (is_empty token); [now rewrite app_nil_r | reflexivity].
  - destruct (Ascii.eqb c " ").
    + destruct (is_empty token); [apply IH |].
      rewrite (IH "" (patternBytes ++ [token])), (IH "" [token]).
      now rewrite <- app_assoc.
    + apply IH.
Qed.

(** A stretch without a space goes into the token being read. *)
Lemma split_pattern_run (run rest token : string) (patternBytes : list string) :
  has_space run = false ->
  split_pattern (run +:+ rest) token patternBytes
  = split_pattern rest (token +:+ run) patternBytes.
Proof.
  revert token. induction run as [| c run IH]; intros token Hs.
  - rewrite string_app_nil_l, string_app_nil_r. reflexivity.
  - simpl in Hs. apply orb_false_iff in Hs as [Hc Hs].
    rewrite string_app_cons. simpl. rewrite Hc.
    rewrite (IH (token +:+ String c "") Hs), string_app_assoc. reflexivity.
Qed.

(** From the declarative cut to the loop. *)
Lemma split_pattern_of_cut (pattern : string) (tokens : list string) :
  cut_at_spaces pattern tokens -> split_pattern pattern "" [] = tokens.
Proof.
  induction 1 as [| rest tokens _ IH | token Hne Hs | token rest tokens Hne Hs _ IH].
  - reflexivity.
  - exact IH.
  - rewrite <- (string_app_nil_r token) at 1.
    rewrite (split_pattern_run token "" "" [] Hs), string_app_nil_l. simpl.
    destruct token; [contradiction | reflexivity].
  - rewrite (split_pattern_run token (String " " rest) "" [] Hs), string_app_nil_l.
    simpl. destruct token as [| c token]; [contradiction |]. simpl.
    rewrite split_pattern_acc, IH. reflexivity.
Qed.

(** From the loop to the declarative cut, with a token being read. *)
Lemma cut_of_split_pattern (pattern token : string) :
  has_space token = false ->
  cut_at_spaces (token +:+ pattern) (split_pattern pattern token []).
Proof.
  revert token. induction pattern as [| c rest IH]; intros token Ht; simpl.
  - rewrite string_app_nil_r.
    destruct token as [| d token]; simpl; [constructor |].
    apply cut_last; [discriminate | exact Ht].
  - destruct (Ascii.eqb_spec c " ") as [-> | Hc].
    + destruct token as [| d token]; simpl.
      * rewrite string_app_nil_l. apply cut_space.
        exact (IH "" eq_refl).
      * rewrite split_pattern_acc. simpl.
        apply cut_token; [discriminate | exact Ht | exact (IH "" eq_refl)].
    + assert (Hc' : Ascii.eqb c " " = false) by (now apply Ascii.eqb_neq).
      pose proof (IH (token +:+ String c "") (has_space_snoc token c Ht Hc')) as H.
      rewrite string_app_assoc in H. exact H.
Qed.

(** X20. The tokenizer of [FindPattern] cuts the pattern at its spaces and
    nowhere else: its result is the one list of tokens such that the
    pattern is made of these tokens, each a non-empty string without a
    space, in order, with one or more spaces between two tokens and any
    number of spaces before the first and after the last.  So no token is
    empty or holds a space, the tokens put together give the pattern with
    its spaces taken out, and a pattern of spaces has no token. *)
Theorem X20_pattern_tokens (pattern : string) :
  (forall tokens,
      split_pattern pattern "" [] = tokens <-> cut_at_spaces pattern tokens)
  /\ Forall (fun t => t <> "" /\ has_space t = false) (split_pattern pattern "" [])
  /\ concat_tokens (split_pattern pattern "" []) = without_spaces pattern
  /\ (without_spaces pattern = "" -> split_pattern pattern "" [] = []).
Proof.
  split.
  { intros tokens. split.
    - intros <-. exact (cut_of_split_pattern pattern "" eq_refl).
    - apply split_pattern_of_cut. }
  destruct (split_pattern_spec pattern "" [] eq_refl) as (tokens & E & Hok & Hcat).
  simpl in E. rewrite string_app_nil_l in Hcat. rewrite E.
  split; [exact Hok |]. split; [exact Hcat |].
  intros Hempty. rewrite Hempty in Hcat.
  destruct Hok as [| t tokens [Hne _] _]; [reflexivity |].
  rewrite concat_tokens_cons in Hcat.
  destruct t; [contradiction | discriminate Hcat].
Qed.

(** X20 on a pattern with a run of spaces and spaces at both ends. *)
Lemma X20_pattern_tokens_witness :
  split_pattern "   " "" [] = []
  /\ split_pattern " 48 8B  ?? " "" [] = ["48"; "8B"; "??"].
Proof.
  split.
  - apply (X20_pattern_tokens "   "). reflexivity.
  - apply (proj1 (X20_pattern_tokens " 48 8B  ?? ")).
    apply cut_space.
    apply (cut_token "48" "8B  ?? "); [discriminate | reflexivity |].
    apply (cut_token "8B" " ?? "); [discriminate | reflexivity |].
    apply cut_space.
    apply (cut_token "??" ""); [discriminate | reflexivity |].
    apply cut_end.
Defined.

Lemma find_seq_first (f : nat -> bool) (a n i : nat) :
  List.find f (seq a n) = Some i ->
  (a <= i < a + n)%nat /\ f i = true /\ forall k, (a <= k < i)%nat -> f k = false.
Proof.
  revert a. induction n as [| n IH]; intros a; simpl; [discriminate |].
  destruct (f a) eqn:Ha.
  - intros [= <-]. split; [lia |]. split; [exact Ha |]. intros k Hk. lia.
  - intros H. apply IH in H as (Hr & Hi & Hk).
    split; [lia |]. split; [exact Hi |].
    intros k Hka. destruct (Nat.eq_dec k a) as [-> | Hne]; [exact Ha |].
    apply Hk. lia.
Qed.

Lemma find_seq_none (f : nat -> bool) (a n : nat) :
  List.find f (seq a n) = None <-> forall k, (a <= k < a + n)%nat -> f k = false.
Proof.
  revert a. induction n as [| n IH]; intros a; simpl.
  - split; [intros _ k Hk; lia | reflexivity].
  - destruct (f a) eqn:Ha.
    + split; [discriminate |]. intros H. rewrite (H a) in Ha by lia. discriminate.
    + rewrite IH. split; intros H k Hk.
      * destruct (Nat.eq_dec k a) as [-> | Hne]; [exact Ha | apply H; lia].
      * apply H. lia.
Qed.

Lemma found_at_occurs (bytePattern : list Z) (wildcard : list bool)
    (buffer : list Z) (i : nat) :
  found_at bytePattern wildcard buffer i = true
  <-> occurs_at bytePattern wildcard buffer i.
Proof.
  unfold found_at, occurs_at. rewrite forallb_forall. split.
  - intros H j Hj. specialize (H j ltac:(apply in_seq; lia)).
    apply orb_true_iff in H as [H | H]; [now left | right; lia].
  - intros H j Hj. apply in_seq in Hj.
    destruct (H j ltac:(lia)) as [Hw | Hb]; apply orb_true_iff;
      [now left | right; lia].
Qed.

Lemma scan_limit_small (bytePattern : list Z) (bytesRead : N) :
  (List.length bytePattern <= N.to_nat bytesRead)%nat ->
  Z.of_N bytesRead < 2 ^ 64 ->
  Z.to_nat (scan_limit bytePattern bytesRead)
  = (N.to_nat bytesRead - List.length bytePattern)%nat.
Proof.
  intros Hle Hmax. unfold scan_limit. rewrite Z.mod_small by lia. lia.
Qed.

(** X21. The scan of one buffer, when the pattern is no longer than the
    bytes read: it reports the first offset at which the pattern occurs
    among the offsets below [bytesRead - size], and nothing when there is
    none.  The bound is strict, so an occurrence that ends with the last
    byte read is never reported. *)
Theorem X21_scan_buffer_first_occurrence (bytePattern : list Z)
    (wildcard : list bool) (buffer : list Z) (bytesRead : N) :
  (List.length bytePattern <= N.to_nat bytesRead)%nat ->
  Z.of_N bytesRead < 2 ^ 64 ->
  (forall i,
      scan_buffer bytePattern wildcard buffer bytesRead = Some i <->
      (i + List.length bytePattern < N.to_nat bytesRead)%nat
      /\ occurs_at bytePattern wildcard buffer i
      /\ forall k, (k < i)%nat -> ~ occurs_at bytePattern wildcard buffer k)
  /\ (scan_buffer bytePattern wildcard buffer bytesRead = None <->
      forall k, (k + List.length bytePattern < N.to_nat bytesRead)%nat ->
                ~ occurs_at bytePattern wildcard buffer k).
Proof.
  intros Hle Hmax. unfold scan_buffer.
  rewrite (scan_limit_small _ _ Hle Hmax).
  set (f := found_at bytePattern wildcard buffer).
  set (n := (N.to_nat bytesRead - List.length bytePattern)%nat).
  assert (Hneg : forall k, f k = false <-> ~ occurs_at bytePattern wildcard buffer k).
  { intros k. rewrite <- found_at_occurs. fold f. destruct (f k); split; congruence. }
  split.
  - intros i. split.
    + intros H. apply find_seq_first in H as (Hr & Hi & Hk).
      split; [lia |]. split; [now apply found_at_occurs |].
      intros k Hlt. apply Hneg, Hk. lia.
    + intros (Hr & Hi & Hk).
      destruct (List.find f (seq 0 n)) as [i' |] eqn:E.
      * apply find_seq_first in E as (Hr' & Hi' & Hk').
        f_equal. destruct (Nat.lt_trichotomy i' i) as [Hlt | [Heq | Hgt]].
        -- exfalso. apply (Hk i' Hlt). now apply found_at_occurs.
        -- exact Heq.
        -- apply found_at_occurs in Hi. fold f in Hi.
           rewrite (Hk' i ltac:(lia)) in Hi. discriminate.
      * exfalso. apply found_at_occurs in Hi. fold f in Hi.
        rewrite (proj1 (find_seq_none f 0 n) E i ltac:(lia)) in Hi. discriminate.
  - rewrite find_seq_none. split; intros H k Hk.
    + apply Hneg, H. lia.
    + apply Hneg, H. lia.
Qed.

(** X21 on a buffer of five bytes: the pattern [2 ?? 4] is found at
    offset 1; the pattern [4 5], which occurs only at the very end, is not
    found. *)
Lemma X21_scan_buffer_first_occurrence_witness :
  scan_buffer [2; 0; 4] [false; true; false] [1; 2; 3; 4; 5] 5 = Some 1%nat
  /\ scan_buffer [4; 5] [false; false] [1; 2; 3; 4; 5] 5 = None.
Proof.
  split.
  - apply (proj1 (X21_scan_buffer_first_occurrence [2; 0; 4] [false; true; false]
                    [1; 2; 3; 4; 5] 5 ltac:(simpl; lia) ltac:(lia)) 1%nat).
    split; [simpl; lia |]. split.
    + intros j Hj. simpl in Hj.
      destruct j as [| [| [| j]]]; [right | left | right | lia]; reflexivity.
    + intros k Hk Hocc. assert (k = 0%nat) as -> by lia.
      destruct (Hocc 0%nat ltac:(simpl; lia)) as [H | H]; discriminate H.
  - apply (proj2 (X21_scan_buffer_first_occurrence [4; 5] [false; false]
                    [1; 2; 3; 4; 5] 5 ltac:(simpl; lia) ltac:(lia))).
    intros k Hk Hocc. simpl in Hk.
    destruct (Hocc 0%nat ltac:(simpl; lia)) as [H | H]; [discriminate H |].
    destruct k as [| [| [| k]]]; [discriminate H | discriminate H | discriminate H | lia].
Defined.

(** X22. The walk over the regions returns the address of the first
    occurrence in the first region that yields one: every region before it
    was inaccessible, unreadable or without an occurrence.  It runs into
    the final [exit(0)] exactly when no region yields an occurrence. *)
Theorem X22_search_regions_first_region (bytePattern : list Z) (wildcard : list bool)
    (regions : list Region) :
  (forall address,
      search_regions bytePattern wildcard regions = Some address ->
      exists before r after i bytes,
        regions = before ++ r :: after
        /\ Forall (fun r' => scan_region bytePattern wildcard r' = None) before
        /\ accessible r = true /\ memory r = Some bytes
        /\ scan_buffer bytePattern wildcard (region_buffer r bytes)
             (N.of_nat (List.length bytes)) = Some i
        /\ address = (Z.of_N (BaseAddress r) + Z.of_nat i) `mod` 2 ^ 64)
  /\ (search_regions bytePattern wildcard regions = None <->
      Forall (fun r => scan_region bytePattern wildcard r = None) regions).
Proof.
  split.
  - induction regions as [| r regions IH]; intros address; simpl; [discriminate |].
    destruct (scan_region bytePattern wildcard r) as [i |] eqn:E.
    + intros [= <-]. unfold scan_region in E.
      destruct (accessible r) eqn:Ha; [| discriminate].
      destruct (memory r) as [bytes |] eqn:Hm; [| discriminate].
      exists [], r, regions, i, bytes. repeat split; auto.
    + intros H. apply IH in H
        as (before & r' & after & i & bytes & -> & Hb & Ha & Hm & Hs & ->).
      exists (r :: before), r', after, i, bytes. repeat split; auto.
  - induction regions as [| r regions IH]; simpl.
    + split; [constructor | reflexivity].
    + destruct (scan_region bytePattern wildcard r) as [i |] eqn:E.
      * split; [discriminate |]. intros H. inversion H; congruence.
      * rewrite IH. split; [intros H; constructor; assumption |].
        intros H. inversion H; assumption.
Qed.

(** X22 with a guard page in front of the region of the examples. *)
Lemma X22_search_regions_first_region_witness :
  let guard := {| BaseAddress := 0; RegionSize := 4096; accessible := false;
                  memory := None |} in
  search_regions [53; 37] [false; false] [guard; Scenarios.region8] = Some 4099
  /\ exists before r after i bytes,
       [guard; Scenarios.region8] = before ++ r :: after
       /\ Forall (fun r' => scan_region [53; 37] [false; false] r' = None) before
       /\ accessible r = true /\ memory r = Some bytes
       /\ scan_buffer [53; 37] [false; false] (region_buffer r bytes)
            (N.of_nat (List.length bytes)) = Some i
       /\ 4099 = (Z.of_N (BaseAddress r) + Z.of_nat i) `mod` 2 ^ 64.
Proof.
  intros guard.
  assert (E : search_regions [53; 37] [false; false] [guard; Scenarios.region8]
              = Some 4099) by (vm_compute; reflexivity).
  split; [exact E |].
  exact (proj1 (X22_search_regions_first_region [53; 37] [false; false]
                  [guard; Scenarios.region8]) 4099 E).
Defined.

(** X23. Parsing the tokens.  It throws exactly when some token other than
    the two question marks is refused by [stoul].  Otherwise there is one
    byte and one wildcard flag per token: for the two question marks the
    byte 0 with the flag set, for any other token the number [stoul] reads
    from it, reduced modulo 256, with the flag clear.  So every byte lies
    in 0..255. *)
Theorem X23_parse_tokens (stoul16 : string -> option N) (patternBytes : list string) :
  (parse_tokens stoul16 patternBytes = None <->
     exists token, In token patternBytes /\ token <> "??" /\ stoul16 token = None)
  /\ (forall bytePattern wildcard,
        parse_tokens stoul16 patternBytes = Some (bytePattern, wildcard) ->
        List.length bytePattern = List.length patternBytes
        /\ List.length wildcard = List.length patternBytes
        /\ (forall i token, patternBytes !! i = Some token ->
              exists b wc, bytePattern !! i = Some b /\ wildcard !! i = Some wc
                           /\ byte_of_token stoul16 token b wc)
        /\ wildcard = (fun token => String.eqb token "??") <$> patternBytes
        /\ Forall (fun b => 0 <= b <= 255) bytePattern).
Proof.
  induction patternBytes as [| token rest [IHn IHs]]; simpl.
  - split.
    + split; [discriminate | intros (t & [] & _)].
    + intros bp wc [= <- <-].
      split; [reflexivity |]. split; [reflexivity |].
      split; [intros i token H; destruct i; discriminate H |].
      split; [reflexivity | constructor].
  - split.
    + destruct (String.eqb_spec token "??") as [-> | Hne].
      * destruct (parse_tokens stoul16 rest) as [[bp wc] |] eqn:E.
        -- split; [discriminate |].
           intros (t & [<- | Hin] & Hq & Hs); [contradiction |].
           assert (Some (bp, wc) = None) as Habs; [| discriminate Habs].
           apply IHn. eauto.
        -- split; [| reflexivity]. intros _.
           destruct (proj1 IHn eq_refl) as (t & Hin & Hq & Hs). eauto.
      * destruct (stoul16 token) as [n |] eqn:Hst.
        -- destruct (parse_tokens stoul16 rest) as [[bp wc] |] eqn:E.
           ++ split; [discriminate |].
              intros (t & [<- | Hin] & Hq & Hs); [congruence |].
              assert (Some (bp, wc) = None) as Habs; [| discriminate Habs].
              apply IHn. eauto.
           ++ split; [| reflexivity]. intros _.
              destruct (proj1 IHn eq_refl) as (t & Hin & Hq & Hs). eauto.
        -- split; [| reflexivity]. intros _. exists token. auto.
    + intros bp wc H.
      destruct (String.eqb_spec token "??") as [-> | Hne].
      * destruct (parse_tokens stoul16 rest) as [[bp' wc'] |] eqn:E; [| discriminate].
        injection H as <- <-.
        destruct (IHs bp' wc' eq_refl) as (Hl & Hlw & Hat & Hw & Hb).
        split; [simpl; now rewrite Hl |].
        split; [simpl; now rewrite Hlw |].
        split.
        { intros [| i] t Ht; simpl in Ht.
          - injection Ht as <-. exists 0, true.
            split; [reflexivity |]. split; [reflexivity |]. left. auto.
          - exact (Hat i t Ht). }
        split; [now rewrite Hw |].
        constructor; [lia | exact Hb].
      * destruct (stoul16 token) as [n |] eqn:Hst; [| discriminate].
        destruct (parse_tokens stoul16 rest) as [[bp' wc'] |] eqn:E; [| discriminate].
        injection H as <- <-.
        destruct (IHs bp' wc' eq_refl) as (Hl & Hlw & Hat & Hw & Hb).
        split; [simpl; now rewrite Hl |].
        split; [simpl; now rewrite Hlw |].
        split.
        { intros [| i] t Ht; simpl in Ht.
          - injection Ht as <-. exists (Z.of_N n `mod` 256), false.
            split; [reflexivity |]. split; [reflexivity |]. right.
            split; [exact Hne |]. split; [reflexivity |]. eauto.
          - exact (Hat i t Ht). }
        split; [rewrite Hw; f_equal; symmetry; apply String.eqb_neq; exact Hne |].
        constructor; [| exact Hb].
        pose proof (Z.mod_pos_bound (Z.of_N n) 256 ltac:(lia)). lia.
Qed.

(** X23 on a pattern with a wildcard, and on a token that [stoul] reads as
    a number above 255. *)
Lemma X23_parse_tokens_witness :
  parse_tokens Scenarios.two_hex_digits ["01"; "??"; "35"]
  = Some ([1; 0; 53], [false; true; false])
  /\ (exists b wc, [1; 0; 53] !! 2%nat = Some b /\ [false; true; false] !! 2%nat = Some wc
                   /\ byte_of_token Scenarios.two_hex_digits "35" b wc)
  /\ parse_tokens (fun _ => Some 300%N) ["12C"] = Some ([44], [false])
  /\ FindPattern Scenarios.two_hex_digits " 01  ?? 35 " [Scenarios.region8]
     = Found 4097.
Proof.
  assert (E : parse_tokens Scenarios.two_hex_digits ["01"; "??"; "35"]
              = Some ([1; 0; 53], [false; true; false]))
    by (vm_compute; reflexivity).
  split; [exact E |].
  split; [| split; vm_compute; reflexivity].
  exact (proj1 (proj2 (proj2 (proj2 (X23_parse_tokens Scenarios.two_hex_digits
           ["01"; "??"; "35"]) [1; 0; 53] [false; true; false] E)))
           2%nat "35" eq_refl).
Defined.

End PatternScan.

(* ===================================================================== *)
(** * Further properties: the hooks of the plugin                         *)
(* ===================================================================== *)

Section Hooks.
Import RLProfilePicturesREVAMP AvatarDownloader AvatarManager.

(** What [LoadForPRI] can change: it only adds events, among them at most
    one request. *)
Lemma LoadForPRI_footprint (h : Host) (pri : option APRI_TA) (w : World) :
  avatar_cache (LoadForPRI h pri w) = avatar_cache w
  /\ files (LoadForPRI h pri w) = files w
  /\ game_thread (LoadForPRI h pri w) = game_thread w
  /\ exists evs, trace (LoadForPRI h pri w) = trace w ++ evs
                 /\ (count is_request evs <= 1)%nat.
Proof.
  assert (Hsame : forall w0 : World,
             avatar_cache w0 = avatar_cache w0 /\ files w0 = files w0
             /\ game_thread w0 = game_thread w0
             /\ exists evs, trace w0 = trace w0 ++ evs
                            /\ (count is_request evs <= 1)%nat).
  { intros w0. repeat split. exists []. rewrite app_nil_r. split; [reflexivity |].
    unfold count. simpl. lia. }
  unfold LoadForPRI.
  destruct (gw_PlayerController h) as [pc |]; [| apply Hsame].
  destruct pri as [pri |]; [| apply Hsame].
  destruct (PRI pc) as [localPRI |]; [| apply Hsame].
  destruct (_ && _); [apply Hsame |].
  case_bool_decide as Hp.
  - unfold DownloadXboxAvatar. simpl. repeat split.
    eexists. rewrite <- app_assoc. split; [reflexivity |]. unfold count. simpl. lia.
  - destruct (GetCachedAvatar w _) as [tex |].
    + unfold SetAvatar. simpl. repeat split.
      eexists. split; [reflexivity |]. unfold count. simpl. lia.
    + unfold DownloadAvatar. destruct (is_empty _); simpl; repeat split.
      * eexists. split; [reflexivity |]. unfold count. simpl. lia.
      * eexists. rewrite <- app_assoc. split; [reflexivity |].
        unfold count. simpl. lia.
Qed.

(** X24. The two hooks on a player record.  Whatever the event, a hook
    leaves the cache, the temp directory and the queue of the game thread as
    they are and sends at most one request.  It does nothing at all when the
    plugin is disabled, when there is no caller, or when the caller is the
    local player; the hook on [ReplicatedEvent] also does nothing unless the
    replicated variable is [PlayerName]. *)
Theorem X24_hooks_gate (p : Plugin) (h : Host) (caller : option APRI_TA)
    (VarName : option string) (w : World) :
  (forall w',
      w' = on_ReplicatedEvent p h caller VarName w
      \/ w' = on_UpdatePlayerAvatar p h caller w ->
      avatar_cache w' = avatar_cache w /\ files w' = files w
      /\ game_thread w' = game_thread w
      /\ exists evs, trace w' = trace w ++ evs /\ (count is_request evs <= 1)%nat)
  /\ (enabled p = false \/ caller = None
      \/ (exists pri, caller = Some pri /\ IsLocalPlayerPRI p pri = true) ->
      on_ReplicatedEvent p h caller VarName w = w
      /\ on_UpdatePlayerAvatar p h caller w = w)
  /\ (VarName <> Some "PlayerName" -> on_ReplicatedEvent p h caller VarName w = w)
  /\ (forall pri, enabled p = true -> caller = Some pri ->
        IsLocalPlayerPRI p pri = false ->
        on_ReplicatedEvent p h caller (Some "PlayerName") w = LoadForPRI h caller w
        /\ on_UpdatePlayerAvatar p h caller w = LoadForPRI h caller w).
Proof.
  assert (Hsame : avatar_cache w = avatar_cache w /\ files w = files w
             /\ game_thread w = game_thread w
             /\ exists evs, trace w = trace w ++ evs
                            /\ (count is_request evs <= 1)%nat).
  { repeat split. exists []. rewrite app_nil_r. split; [reflexivity |].
    unfold count. simpl. lia. }
  split; [| split; [| split]].
  - intros w' [-> | ->].
    + unfold on_ReplicatedEvent.
      destruct (enabled p); simpl; [| exact Hsame].
      destruct caller as [pri |]; [| exact Hsame].
      destruct (IsLocalPlayerPRI p pri); [exact Hsame |].
      destruct VarName as [name |]; [| exact Hsame].
      destruct (_ || _); [exact Hsame | apply LoadForPRI_footprint].
    + unfold on_UpdatePlayerAvatar.
      destruct (enabled p); simpl; [| exact Hsame].
      destruct caller as [pri |]; [| exact Hsame].
      destruct (IsLocalPlayerPRI p pri); [exact Hsame | apply LoadForPRI_footprint].
  - unfold on_ReplicatedEvent, on_UpdatePlayerAvatar.
    intros [He | [-> | (pri & -> & Hl)]].
    + rewrite He. split; reflexivity.
    + destruct (enabled p); split; reflexivity.
    + rewrite Hl. destruct (enabled p); split; reflexivity.
  - intros Hname. unfold on_ReplicatedEvent.
    destruct (enabled p); simpl; [| reflexivity].
    destruct caller as [pri |]; [| reflexivity].
    destruct (IsLocalPlayerPRI p pri); [reflexivity |].
    destruct VarName as [name |]; [| reflexivity].
    destruct (String.eqb_spec name "PlayerName") as [-> | Hne]; [congruence |].
    rewrite orb_true_r. reflexivity.
  - intros pri He -> Hl. unfold on_ReplicatedEvent, on_UpdatePlayerAvatar.
    rewrite He, Hl. split; reflexivity.
Qed.

(** X24 at the example host: a replication of the score of a remote player
    changes nothing, a replication of the name sends one request. *)
Lemma X24_hooks_gate_witness :
  on_ReplicatedEvent Scenarios.plugin_on Examples.host (Some Examples.steam_pri)
    (Some "MatchScore") Examples.empty_world = Examples.empty_world
  /\ count is_request
       (trace (on_ReplicatedEvent Scenarios.plugin_on Examples.host
                 (Some Examples.steam_pri) (Some "PlayerName") Examples.empty_world))
     = 1%nat.
Proof.
  split.
  - apply (X24_hooks_gate Scenarios.plugin_on Examples.host (Some Examples.steam_pri)
             (Some "MatchScore") Examples.empty_world).
    discriminate.
  - vm_compute. reflexivity.
Defined.

End Hooks.

(* ===================================================================== *)
(** * Further properties: the files of the temp directory                 *)
(* ===================================================================== *)

Section TempFiles.
Import AvatarDownloader AvatarManager.

(** The file an upload is staged in is the temp file of no identity. *)
Lemma upload_path_not_temp (idString : string) :
  GetBrightenedLocalAvatarPath <> GetTempAvatarPath idString.
Proof.
  intros H. cbv in H. discriminate H.
Qed.

Lemma stage_and_apply_other_files (h : Host) (id : FUniqueNetId) (idString : string)
    (bytes : list Z) (w : World) (p : string) :
  p <> GetTempAvatarPath idString ->
  (p ∈ files (stage_and_apply h id idString bytes w) <-> p ∈ files w).
Proof.
  intros Hp. rewrite stage_and_apply_files.
  destruct (negb (ofstream_open h _)); [reflexivity |].
  destruct (negb (ofstream_good h _)).
  - rewrite elem_of_union, elem_of_singleton. tauto.
  - rewrite elem_of_difference, elem_of_singleton. tauto.
Qed.

(** X25. [LoadAvatar] and [LoadAvatarDirect] change the temp directory at
    their own temp file only: every other file is there afterwards exactly
    when it was there before.  The file in which [AddLocalAvatar] stages an
    upload is the temp file of no identity, so an avatar that arrives while
    an upload is under way never removes it. *)
Theorem X25_loads_keep_other_files (h : Host) (id : FUniqueNetId) (data : list Z)
    (idString : string) (forceUpdate : bool) (w : World) :
  (forall p, p <> GetTempAvatarPath (cache_key h id) ->
             (p ∈ files (LoadAvatar h id data w) <-> p ∈ files w))
  /\ (forall p, p <> GetTempAvatarPath idString ->
                (p ∈ files (LoadAvatarDirect h id idString data forceUpdate w)
                 <-> p ∈ files w))
  /\ (GetBrightenedLocalAvatarPath ∈ files w ->
      (GetBrightenedLocalAvatarPath ∈ files (LoadAvatar h id data w))
      /\ (GetBrightenedLocalAvatarPath
            ∈ files (LoadAvatarDirect h id idString data forceUpdate w))).
Proof.
  assert (H1 : forall p, p <> GetTempAvatarPath (cache_key h id) ->
                 (p ∈ files (LoadAvatar h id data w) <-> p ∈ files w)).
  { intros p Hp. unfold LoadAvatar, call_BrightenImage. fold (cache_key h id).
    destruct (avatar_cache w !! cache_key h id) as [[tex |] |]; simpl;
      try reflexivity;
      destruct (BrightenImage _ _ _ _); simpl; try reflexivity;
      now rewrite stage_and_apply_other_files. }
  assert (H2 : forall p, p <> GetTempAvatarPath idString ->
                 (p ∈ files (LoadAvatarDirect h id idString data forceUpdate w)
                  <-> p ∈ files w)).
  { intros p Hp. unfold LoadAvatarDirect.
    destruct (if forceUpdate then None else avatar_cache w !! idString)
      as [[tex |] |]; simpl; try reflexivity;
      now rewrite stage_and_apply_other_files. }
  split; [exact H1 |]. split; [exact H2 |].
  intros Hin. split.
  - apply H1; [apply upload_path_not_temp | exact Hin].
  - apply H2; [apply upload_path_not_temp | exact Hin].
Qed.

(** X25 with the staged upload in the temp directory while the avatar of a
    Steam player arrives. *)
Lemma X25_loads_keep_other_files_witness :
  let w := {| avatar_cache := ∅; files := {[GetBrightenedLocalAvatarPath]};
              game_thread := []; trace := [] |} in
  GetBrightenedLocalAvatarPath
    ∈ files (LoadAvatar Examples.host Examples.steam_id Examples.one_pixel w).
Proof.
  intros w.
  assert (Hin : GetBrightenedLocalAvatarPath ∈ files w)
    by (unfold w; simpl; apply elem_of_singleton_2; reflexivity).
  exact (proj1 (proj2 (proj2 (X25_loads_keep_other_files Examples.host
           Examples.steam_id Examples.one_pixel "" false w)) Hin)).
Defined.

End TempFiles.

(* ===================================================================== *)
(** * The key of an insert and the key of a lookup                        *)
(* ===================================================================== *)

Section KeyMismatch.
Import AvatarDownloader AvatarManager.

Lemma well_formed_LoadAvatar (h : Host) (id : FUniqueNetId) (data : list Z)
    (w : World) :
  cache_well_formed w -> cache_well_formed (LoadAvatar h id data w).
Proof.
  intros Hw k v H.
  apply LoadAvatar_entries in H as [H | [-> [tex ->]]]; [exact (Hw k v H) |].
  split; [apply SanitizeFilename_clean | eauto].
Qed.

(** Where [LoadForPRI] gets to its lookup, the lookup under the raw id
    string decides between the apply and the download. *)
Lemma LoadForPRI_lookup (h : Host) (pri : APRI_TA) (w : World) :
  lookup_reached h pri ->
  LoadForPRI h (Some pri) w
  = match GetCachedAvatar w (UniqueNetIdToString h (UniqueId pri)) with
    | Some tex => SetAvatar (UniqueId pri) tex w
    | None => DownloadAvatar h (UniqueId pri) w
    end.
Proof.
  intros (pc & localPRI & Hpc & Hl & Hne & Hp). unfold LoadForPRI.
  rewrite Hpc, Hl, (not_local_test _ _ Hne).
  now rewrite bool_decide_eq_false_2 by exact Hp.
Qed.

(** Where [RemoveLocalAvatar] gets to its erase, it erases the entry under
    the raw id string of the local identity. *)
Lemma RemoveLocalAvatar_erase (h : Host) (w : World) :
  erase_reached h ->
  avatar_cache (RemoveLocalAvatar h w)
  = delete (UniqueNetIdToString h (primary_or_zero h)) (avatar_cache w).
Proof.
  intros (Hpc & Hvm & Hinv & Hav). unfold RemoveLocalAvatar.
  rewrite Hpc, Hvm, Hinv, Hav. reflexivity.
Qed.

Lemma RemoveLocalAvatar_other_keys (h : Host) (w : World) (k : string) :
  k <> UniqueNetIdToString h (primary_or_zero h) ->
  avatar_cache (RemoveLocalAvatar h w) !! k = avatar_cache w !! k.
Proof.
  intros Hk. unfold RemoveLocalAvatar.
  destruct (_ || _); [reflexivity |].
  destruct (invalid_UniqueID _); [reflexivity |].
  destruct (vman_GetAvatar h _); simpl; [| reflexivity].
  now apply lookup_delete_ne.
Qed.

(** C10.  The insert and the lookup derive their keys differently.
    [LoadAvatar], called at any point of a run, writes the cache under the
    sanitized id string only, and when it goes through the texture is there.
    At any later point of the run, [LoadForPRI] decides by the entry under
    the raw id string and [RemoveLocalAvatar] erases the entry under the raw
    id string.  The two strings are equal exactly when the id string holds
    no replaced character.  When it holds one, [LoadForPRI] never finds an
    entry (it downloads), and [RemoveLocalAvatar] leaves the entry under the
    sanitized string as it is.  When it holds none, [LoadForPRI] applies
    the texture cached under the key and [RemoveLocalAvatar] erases it. *)
Theorem C10_insert_and_lookup_keys (before after : list (Host * Action))
    (h : Host) (id : FUniqueNetId) (data : list Z) :
  let raw := UniqueNetIdToString h id in
  let key := SanitizeFilename raw in
  let w := run before initial_world in
  let w' := LoadAvatar h id data w in
  let later := run after w' in
  (forall k, k <> key -> avatar_cache w' !! k = avatar_cache w !! k)
  /\ (forall bytes tex,
        IsAvatarCached w key = false ->
        BrightenImage (stbi_load_from_memory h) (stbi_write_png_to_func h) data
          (GetBrightnessEnabled h) = Ok bytes ->
        staging_succeeds h key bytes tex ->
        avatar_cache w' = <[key := Some tex]> (avatar_cache w))
  /\ (forall pri, UniqueId pri = id -> lookup_reached h pri ->
        LoadForPRI h (Some pri) later
        = match GetCachedAvatar later raw with
          | Some tex => SetAvatar id tex later
          | None => DownloadAvatar h id later
          end)
  /\ (primary_or_zero h = id -> erase_reached h ->
        avatar_cache (RemoveLocalAvatar h later) = delete raw (avatar_cache later))
  /\ (key = raw <-> contains_replaced raw = false)
  /\ (contains_replaced raw = true ->
        GetCachedAvatar later raw = None
        /\ (forall pri, UniqueId pri = id -> lookup_reached h pri ->
              LoadForPRI h (Some pri) later = DownloadAvatar h id later)
        /\ (primary_or_zero h = id ->
              avatar_cache (RemoveLocalAvatar h later) !! key
              = avatar_cache later !! key))
  /\ (contains_replaced raw = false ->
        (forall pri tex, UniqueId pri = id -> lookup_reached h pri ->
              avatar_cache later !! key = Some (Some tex) ->
              LoadForPRI h (Some pri) later = SetAvatar id tex later)
        /\ (primary_or_zero h = id -> erase_reached h ->
              avatar_cache (RemoveLocalAvatar h later) !! key = None)).
Proof.
  intros raw key w w' later.
  assert (Hwf : cache_well_formed later).
  { apply well_formed_run, well_formed_LoadAvatar, well_formed_reachable. }
  assert (Hlook : forall pri, UniqueId pri = id -> lookup_reached h pri ->
            LoadForPRI h (Some pri) later
            = match GetCachedAvatar later raw with
              | Some tex => SetAvatar id tex later
              | None => DownloadAvatar h id later
              end).
  { intros pri Hid Hr. rewrite (LoadForPRI_lookup h pri later Hr), Hid. reflexivity. }
  assert (Herase : primary_or_zero h = id -> erase_reached h ->
            avatar_cache (RemoveLocalAvatar h later) = delete raw (avatar_cache later)).
  { intros Hid Hr. rewrite (RemoveLocalAvatar_erase h later Hr), Hid. reflexivity. }
  split; [| split; [| split; [| split; [| split; [| split]]]]].
  - intros k Hk. now apply LoadAvatar_other_keys.
  - intros bytes tex Hmiss Hb Hs.
    exact (proj1 (LoadAvatar_miss_success h id data bytes tex w Hmiss Hb Hs)).
  - exact Hlook.
  - exact Herase.
  - apply SanitizeFilename_fixed.
  - intros Hr.
    assert (Hne : key <> raw).
    { intros E. apply SanitizeFilename_fixed in E. congruence. }
    assert (Hmiss : GetCachedAvatar later raw = None).
    { unfold GetCachedAvatar.
      destruct (avatar_cache later !! raw) as [v |] eqn:E; [| reflexivity].
      destruct (Hwf raw v E) as [Hclean _]. congruence. }
    split; [exact Hmiss |]. split.
    + intros pri Hid Hreach. rewrite (Hlook pri Hid Hreach), Hmiss. reflexivity.
    + intros Hid. apply RemoveLocalAvatar_other_keys. now rewrite Hid.
  - intros Hr.
    assert (E : key = raw) by (now apply SanitizeFilename_fixed).
    split.
    + intros pri tex Hid Hreach Hc. rewrite (Hlook pri Hid Hreach).
      unfold GetCachedAvatar. rewrite <- E, Hc. reflexivity.
    + intros Hid Hreach. rewrite (Herase Hid Hreach), E. apply lookup_delete_eq.
Qed.

(** C10 at three identities.  An Epic player whose account string holds a
    colon is cached under the sanitized key, yet [LoadForPRI] downloads the
    avatar again.  With id strings made of digits, the avatar of a remote
    player is applied from the cache, and [RemoveLocalAvatar] erases the
    entry of the viewer. *)
Lemma C10_insert_and_lookup_keys_witness :
  (avatar_cache (LoadAvatar Examples.host Examples.epic_colon Examples.one_pixel
                   initial_world) !! "Epic_a_b" = Some (Some 7%positive)
   /\ LoadForPRI Examples.host (Some Scenarios.epic_colon_pri)
        (LoadAvatar Examples.host Examples.epic_colon Examples.one_pixel initial_world)
      = DownloadAvatar Examples.host Examples.epic_colon
          (LoadAvatar Examples.host Examples.epic_colon Examples.one_pixel initial_world))
  /\ LoadForPRI Scenarios.plain_ids (Some Examples.local_pri)
       (LoadAvatar Scenarios.plain_ids Examples.local_id Examples.one_pixel initial_world)
     = SetAvatar Examples.local_id 9%positive
         (LoadAvatar Scenarios.plain_ids Examples.local_id Examples.one_pixel
            initial_world)
  /\ (avatar_cache (LoadAvatar Scenarios.plain_ids Examples.steam_id
                      Examples.one_pixel initial_world) !! "76561198000000001"
      = Some (Some 9%positive)
      /\ avatar_cache
           (RemoveLocalAvatar Scenarios.plain_ids
              (LoadAvatar Scenarios.plain_ids Examples.steam_id Examples.one_pixel
                 initial_world)) !! "76561198000000001" = None).
Proof.
  assert (Hcolon : lookup_reached Examples.host Scenarios.epic_colon_pri).
  { exists {| PRI := Some Examples.local_pri |}, Examples.local_pri.
    split; [reflexivity |]. split; [reflexivity |].
    split; [right; discriminate | discriminate]. }
  assert (Hlocal : lookup_reached Scenarios.plain_ids Examples.local_pri).
  { exists {| PRI := Some Examples.steam_pri |}, Examples.steam_pri.
    split; [reflexivity |]. split; [reflexivity |].
    split; [left; discriminate | discriminate]. }
  assert (Herase : erase_reached Scenarios.plain_ids).
  { split; [reflexivity |]. split; [reflexivity |]. split; reflexivity. }
  assert (Hr1 : contains_replaced
                  (UniqueNetIdToString Examples.host Examples.epic_colon) = true)
    by (vm_compute; reflexivity).
  assert (Hr2 : contains_replaced
                  (UniqueNetIdToString Scenarios.plain_ids Examples.local_id) = false)
    by (vm_compute; reflexivity).
  assert (Hr3 : contains_replaced
                  (UniqueNetIdToString Scenarios.plain_ids Examples.steam_id) = false)
    by (vm_compute; reflexivity).
  assert (Hc1 : avatar_cache (LoadAvatar Examples.host Examples.epic_colon
                                Examples.one_pixel initial_world) !! "Epic_a_b"
                = Some (Some 7%positive)) by (vm_compute; reflexivity).
  assert (Hc2 : avatar_cache (LoadAvatar Scenarios.plain_ids Examples.local_id
                                Examples.one_pixel initial_world) !! "0"
                = Some (Some 9%positive)) by (vm_compute; reflexivity).
  assert (Hc3 : avatar_cache (LoadAvatar Scenarios.plain_ids Examples.steam_id
                                Examples.one_pixel initial_world) !! "76561198000000001"
                = Some (Some 9%positive)) by (vm_compute; reflexivity).
  pose proof (C10_insert_and_lookup_keys [] [] Examples.host Examples.epic_colon
                Examples.one_pixel) as (_ & _ & _ & _ & _ & Hcut & _).
  pose proof (C10_insert_and_lookup_keys [] [] Scenarios.plain_ids Examples.local_id
                Examples.one_pixel) as (_ & _ & _ & _ & _ & _ & Hsame).
  pose proof (C10_insert_and_lookup_keys [] [] Scenarios.plain_ids Examples.steam_id
                Examples.one_pixel) as (_ & _ & _ & _ & _ & _ & Hviewer).
  split; [split; [exact Hc1 |] | split; [| split; [exact Hc3 |]]].
  - exact (proj1 (proj2 (Hcut Hr1)) Scenarios.epic_colon_pri eq_refl Hcolon).
  - exact (proj1 (Hsame Hr2) Examples.local_pri 9%positive eq_refl Hlocal Hc2).
  - exact (proj2 (Hviewer Hr3) eq_refl Herase).
Defined.

End KeyMismatch.
